(** * GoatMouth odds API: pricing engine and bet settlement

    A shallow embedding of the services of the odds API:

    - [OddsCalculation]  (src/services/oddsCalculation.service.js)
    - [HouseMargin]      (houseMargin.service.js)
    - [LiquidityPool]    (liquidityPool.service.js)
    - [OddsConverter]    (src/services/oddsConverter.service.js)
    - [Betting]          (betting.service.js)
    - [Float64], [Betting64]   the same services on binary64 numbers

    JavaScript numbers are modelled twice.  [Float64] and [Betting64]
    take them as they are, IEEE binary64 numbers ([PrimFloat]): the
    services and both settlement methods, [placeBet] and
    [placeBetWithOdds], are transcribed there operation by operation, so
    that rounding, overflow and the special values are those of the code.
    The modules listed above use [num] instead: exact rationals extended
    with [+Infinity], [-Infinity] and [NaN], without rounding, overflow or
    a sign of zero.  A statement over [num] says what the formulas of the
    code compute in exact arithmetic, and is marked as such; what binary64
    does differently is stated next to it at concrete inputs.

    Thrown [Error] objects are modelled by the inductive [Error], one
    constructor per thrown message (the values interpolated into a message
    are not kept); functions that may throw return a [result].  The
    Supabase client is modelled by an explicit store [DB] threaded through
    the calls, and by a fault plan that says which of the client's writes
    answer with an error.  Requests are settled one at a time: nothing
    here interleaves two of them. *)

From Stdlib Require Import QArith Qabs Lqa Lia ZArith Bool List String.
From Stdlib Require Import PrimFloat.
Import ListNotations.

Set Implicit Arguments.

(* ================================================================= *)
(** ** JavaScript numbers *)

Module JsNum.

Inductive num : Type :=
| Fin (q : Q)
| PInf
| NInf
| NaN.

Definition Qltb (x y : Q) : bool := negb (Qle_bool y x).

Definition nadd (x y : num) : num :=
  match x, y with
  | NaN, _ | _, NaN => NaN
  | Fin a, Fin b => Fin (a + b)
  | PInf, NInf | NInf, PInf => NaN
  | PInf, _ | _, PInf => PInf
  | NInf, _ | _, NInf => NInf
  end.

Definition nsub (x y : num) : num :=
  match x, y with
  | NaN, _ | _, NaN => NaN
  | Fin a, Fin b => Fin (a - b)
  | PInf, PInf | NInf, NInf => NaN
  | PInf, _ | _, NInf => PInf
  | NInf, _ | _, PInf => NInf
  end.

(** The sign of an infinity multiplied or divided by the finite [b];
    [zero] is the value when [b] is zero. *)
Definition scale_inf (positive : bool) (b : Q) (zero : num) : num :=
  match b ?= 0 with
  | Eq => zero
  | Gt => if positive then PInf else NInf
  | Lt => if positive then NInf else PInf
  end.

Definition nmul (x y : num) : num :=
  match x, y with
  | NaN, _ | _, NaN => NaN
  | Fin a, Fin b => Fin (a * b)
  | PInf, Fin b | Fin b, PInf => scale_inf true b NaN
  | NInf, Fin b | Fin b, NInf => scale_inf false b NaN
  | PInf, PInf | NInf, NInf => PInf
  | PInf, NInf | NInf, PInf => NInf
  end.

Definition ndiv (x y : num) : num :=
  match x, y with
  | NaN, _ | _, NaN => NaN
  | Fin a, Fin b =>
      if Qeq_bool b 0 then scale_inf true a NaN else Fin (a / b)
  | Fin _, _ => Fin 0
  | PInf, Fin b => scale_inf true b PInf
  | NInf, Fin b => scale_inf false b NInf
  | _, _ => NaN
  end.

(** [Math.abs] *)
Definition nabs (x : num) : num :=
  match x with
  | Fin a => Fin (Qabs a)
  | PInf | NInf => PInf
  | NaN => NaN
  end.

(** [x <= y]; every comparison with [NaN] is false. *)
Definition nle (x y : num) : bool :=
  match x, y with
  | NaN, _ | _, NaN => false
  | Fin a, Fin b => Qle_bool a b
  | NInf, _ | _, PInf => true
  | _, _ => false
  end.

(** [x < y] *)
Definition nlt (x y : num) : bool :=
  match x, y with
  | NaN, _ | _, NaN => false
  | Fin a, Fin b => Qltb a b
  | PInf, _ | _, NInf => false
  | _, _ => true
  end.

(** [x === y] *)
Definition neqb (x y : num) : bool :=
  match x, y with
  | Fin a, Fin b => Qeq_bool a b
  | PInf, PInf | NInf, NInf => true
  | _, _ => false
  end.

(** Truthiness of a number: [0] and [NaN] are falsy. *)
Definition falsy (x : num) : bool :=
  match x with
  | Fin a => Qeq_bool a 0
  | NaN => true
  | _ => false
  end.

(** [x || d] on numbers. *)
Definition or_else (x d : num) : num := if falsy x then d else x.

(** Equality of numbers as values: [Qeq] on the finite ones. *)
Definition num_eq (x y : num) : Prop :=
  match x, y with
  | Fin a, Fin b => a == b
  | PInf, PInf | NInf, NInf | NaN, NaN => True
  | _, _ => False
  end.

(** [Math.max] and [Math.min] of two numbers: [NaN] when either is. *)
Definition nmax (x y : num) : num :=
  match x, y with
  | NaN, _ | _, NaN => NaN
  | _, _ => if nle x y then y else x
  end.

Definition nmin (x y : num) : num :=
  match x, y with
  | NaN, _ | _, NaN => NaN
  | _, _ => if nle x y then x else y
  end.

End JsNum.
Export JsNum.

Declare Scope num_scope.
Delimit Scope num_scope with num.
Bind Scope num_scope with num.
Infix "+" := nadd : num_scope.
Infix "-" := nsub : num_scope.
Infix "*" := nmul : num_scope.
Infix "/" := ndiv : num_scope.
Infix "<=?" := nle (at level 70, no associativity) : num_scope.
Infix "<?" := nlt (at level 70, no associativity) : num_scope.
Notation "x >=? y" := (nle y x) (at level 70, no associativity) : num_scope.
Notation "x >? y" := (nlt y x) (at level 70, no associativity) : num_scope.
Infix "===" := neqb (at level 70, no associativity) : num_scope.

(* ================================================================= *)
(** ** Thrown errors and results *)

(** The [.code] fields of config/constants.js that the services attach. *)
Inductive ErrorCode : Type :=
| MARKET_NOT_FOUND
| POOL_NOT_INITIALIZED
| MARKET_NOT_ACTIVE
| INSUFFICIENT_BALANCE
| INVALID_AMOUNT
| VALIDATION_ERROR.

(** The tables of the store, to name the client call that failed. *)
Inductive Table : Type :=
| t_markets | t_bets | t_profiles | t_positions | t_transactions
| t_price_history.

Inductive Error : Type :=
(* oddsCalculation.service.js *)
| TotalPoolCannotBeZero          (* 'Total pool cannot be zero' *)
| BetAmountMustBePositive        (* 'Bet amount must be positive' *)
| BetTooLarge   (* 'Bet amount too large - would exhaust liquidity pool' *)
| NoTokensReceived (* 'Invalid bet amount - no tokens would be received' *)
| ZeroTokensPrice                (* 'Cannot calculate price with zero tokens' *)
| PoolSizesMustBePositive        (* 'Pool sizes must be positive' *)
| PoolStateInvalid               (* 'Pool state invalid: ...' *)
(* liquidityPool.service.js *)
| TargetPriceOutOfRange   (* 'Target YES price must be between 0 and 1' *)
| PoolSizeTooSmall        (* 'Pool size ... too small. Minimum: ...' *)
| PoolSizeTooLarge        (* 'Pool size ... too large. Maximum: ...' *)
(* oddsConverter.service.js *)
| ProbabilityOutOfRange   (* 'Probability must be between 0 and 1' *)
(* betting.service.js *)
| IdsRequired             (* 'Market ID and User ID are required' *)
| OutcomeInvalid          (* 'Outcome must be yes or no' *)
| BetAmountInvalid        (* 'Bet amount must be positive', with a code *)
| MarketNotFound          (* 'Market not found' *)
| UserProfileNotFound     (* 'User profile not found' *)
| PoolNotInitialized      (* 'Market pool not initialized' *)
| MarketNotActive         (* 'Market is not active' *)
| InsufficientBalance     (* 'Insufficient balance: ...' *)
| LiquidityConstantViolated
                   (* 'Liquidity constant violated - calculation error' *)
| BetProcessingFailed (cause : Error)  (* 'Bet processing failed: ...' *)
(* the TypeError of [bet.id] when the insert into bets returned no row *)
| BetRowMissing     (* 'Cannot read properties of null (reading 'id')' *)
(* the error object of a failed client call *)
| ClientError (t : Table).

Definition code (e : Error) : option ErrorCode :=
  match e with
  | IdsRequired | OutcomeInvalid => Some VALIDATION_ERROR
  | BetAmountInvalid => Some INVALID_AMOUNT
  | MarketNotFound => Some MARKET_NOT_FOUND
  | PoolNotInitialized => Some POOL_NOT_INITIALIZED
  | MarketNotActive => Some MARKET_NOT_ACTIVE
  | InsufficientBalance => Some INSUFFICIENT_BALANCE
  | _ => None
  end.

Inductive result (A : Type) : Type :=
| Ok (a : A)
| Throw (e : Error).
Arguments Throw {A} e.

Definition bind {A B : Type} (r : result A) (f : A -> result B) : result B :=
  match r with
  | Ok a => f a
  | Throw e => Throw e
  end.

Notation "x <- r ;; k" := (bind r (fun x => k))
  (at level 61, r at next level, right associativity).
Notation "r ;;; k" := (bind r (fun _ => k))
  (at level 61, right associativity).

Definition succeeds {A : Type} (r : result A) : bool :=
  match r with Ok _ => true | Throw _ => false end.

(** The errors of the functions outside the settlement path: those of
    [Error], and one more constructor per further message. *)
Inductive Failure : Type :=
| Raised (e : Error)
(* oddsCalculation.service.js *)
| TokensDesiredMustBePositive   (* 'Tokens desired must be positive' *)
| CannotPurchaseMoreThanPool
          (* 'Cannot purchase more tokens than available in pool' *)
| CostMustBePositive   (* 'Invalid calculation - cost must be positive' *)
(* houseMargin.service.js *)
| BasePriceOutOfRange           (* 'Base price must be between 0 and 1' *)
| TotalVolumeNegative           (* 'Total volume cannot be negative' *)
| TargetRevenueNegative         (* 'Target revenue cannot be negative' *)
| ZeroTokensBreakEven  (* 'Cannot calculate break-even with zero tokens' *)
| InvalidHouseFee               (* 'Invalid house fee: expected ...' *)
| HouseFeeOutOfRange            (* 'House fee out of acceptable range' *)
(* oddsConverter.service.js *)
| OddsMustBeGreaterThanOne      (* 'Odds must be greater than 1' *)
(* betting.service.js: [new Error(ERROR_CODES.POOL_NOT_INITIALIZED)], an
   error whose message is the code and that carries no [.code] *)
| PoolNotInitializedUncoded.

Inductive outcome (A : Type) : Type :=
| Done (a : A)
| Failed (f : Failure).
Arguments Failed {A} f.

Definition of_result {A : Type} (r : result A) : outcome A :=
  match r with
  | Ok a => Done a
  | Throw e => Failed (Raised e)
  end.

Definition obind {A B : Type} (r : outcome A) (f : A -> outcome B)
  : outcome B :=
  match r with
  | Done a => f a
  | Failed e => Failed e
  end.

Notation "x <-- r ;; k" := (obind r (fun x => k))
  (at level 61, r at next level, right associativity).

Local Open Scope num_scope.

(** ['yes'] and ['no'] of config/constants.js *)
Definition OUTCOMES_YES : string := "yes".
Definition OUTCOMES_NO : string := "no".

(* ================================================================= *)
(** ** oddsCalculation.service.js *)

Module OddsCalculation.

Definition calculateYesPrice (yesPool noPool : num) : result num :=
  let totalPool := yesPool + noPool in
  if totalPool === Fin 0 then Throw TotalPoolCannotBeZero
  else Ok (noPool / totalPool).

Definition calculateNoPrice (yesPool noPool : num) : result num :=
  let totalPool := yesPool + noPool in
  if totalPool === Fin 0 then Throw TotalPoolCannotBeZero
  else Ok (yesPool / totalPool).

Definition calculateLiquidityConstant (yesPool noPool : num) : num :=
  yesPool * noPool.

Definition calculateTokensReceived (betAmount inputPool outputPool k : num)
  : result num :=
  if betAmount <=? Fin 0 then Throw BetAmountMustBePositive
  else
    let newInputPool := inputPool + betAmount in
    let newOutputPool := k / newInputPool in
    let tokensOut := outputPool - newOutputPool in
    if tokensOut >=? outputPool then Throw BetTooLarge
    else if tokensOut <=? Fin 0 then Throw NoTokensReceived
    else Ok tokensOut.

Definition calculateEffectivePrice (betAmount tokensReceived : num)
  : result num :=
  if tokensReceived === Fin 0 then Throw ZeroTokensPrice
  else
    let totalValue := betAmount + tokensReceived in
    let effectiveProbability := betAmount / totalValue in
    Ok effectiveProbability.

Definition calculateSlippage (initialPrice effectivePrice : num) : num :=
  if initialPrice === Fin 0 then Fin 0
  else nabs ((effectivePrice - initialPrice) / initialPrice).

Definition calculatePriceImpact (currentPrice newPrice : num) : num :=
  if currentPrice === Fin 0 then Fin 0
  else nabs ((newPrice - currentPrice) / currentPrice).

Record Simulation : Type := {
  tokensReceived : num;
  effectivePrice : num;
  slippage : num;
  priceImpact : num;
  priceBeforeBet : num;
  priceAfterBet : num;
  newYesPrice : num;
  newNoPrice : num;
  newYesPool : num;
  newNoPool : num;
  newK : num
}.

(** [simulateBet]; the [console.warn] on a changed constant has no effect
    on the returned object and is left out. *)
Definition simulateBet (outcome : string) (betAmount yesPool noPool k : num)
  : result Simulation :=
  priceBefore <- (if String.eqb outcome "yes"
                  then calculateYesPrice yesPool noPool
                  else calculateNoPrice yesPool noPool) ;;
  pools <- (if String.eqb outcome "yes"
            then
              tokens <- calculateTokensReceived betAmount noPool yesPool k ;;
              Ok (tokens, yesPool - tokens, noPool + betAmount)
            else
              tokens <- calculateTokensReceived betAmount yesPool noPool k ;;
              Ok (tokens, yesPool + betAmount, noPool - tokens)) ;;
  let '(tokens, yesAfter, noAfter) := pools in
  yesPriceAfter <- calculateYesPrice yesAfter noAfter ;;
  noPriceAfter <- calculateNoPrice yesAfter noAfter ;;
  let priceAfter :=
    if String.eqb outcome "yes" then yesPriceAfter else noPriceAfter in
  effective <- calculateEffectivePrice betAmount tokens ;;
  Ok {| tokensReceived := tokens;
        effectivePrice := effective;
        slippage := calculateSlippage priceBefore effective;
        priceImpact := calculatePriceImpact priceBefore priceAfter;
        priceBeforeBet := priceBefore;
        priceAfterBet := priceAfter;
        newYesPrice := yesPriceAfter;
        newNoPrice := noPriceAfter;
        newYesPool := yesAfter;
        newNoPool := noAfter;
        newK := yesAfter * noAfter |}.

Definition validatePoolState (yesPool noPool k : num) : result bool :=
  if (yesPool <=? Fin 0) || (noPool <=? Fin 0)
  then Throw PoolSizesMustBePositive
  else
    let calculatedK := yesPool * noPool in
    let kDifference := nabs (calculatedK - k) in
    let percentageDiff := (kDifference / k) * Fin 100 in
    if percentageDiff >? Fin 0.01
    then Throw PoolStateInvalid
    else Ok true.

Definition calculateCostForTokens (tokensDesired inputPool outputPool k : num)
  : outcome num :=
  if tokensDesired <=? Fin 0 then Failed TokensDesiredMustBePositive
  else if tokensDesired >=? outputPool then Failed CannotPurchaseMoreThanPool
  else
    let newOutputPool := outputPool - tokensDesired in
    let newInputPool := k / newOutputPool in
    let cost := newInputPool - inputPool in
    if cost <=? Fin 0 then Failed CostMustBePositive
    else Done cost.

Record MarketOdds : Type := {
  mo_yesPrice : num;
  mo_noPrice : num;
  mo_yesPool : num;
  mo_noPool : num;
  mo_liquidityConstant : num;
  mo_totalLiquidity : num
}.

Definition getMarketOdds (yesPool noPool k : num) : result MarketOdds :=
  yesPrice <- calculateYesPrice yesPool noPool ;;
  noPrice <- calculateNoPrice yesPool noPool ;;
  Ok {| mo_yesPrice := yesPrice;
        mo_noPrice := noPrice;
        mo_yesPool := yesPool;
        mo_noPool := noPool;
        mo_liquidityConstant := k;
        mo_totalLiquidity := yesPool + noPool |}.

End OddsCalculation.

(* ================================================================= *)
(** ** houseMargin.service.js *)

Module HouseMargin.

Record HouseMarginService : Type := {
  HOUSE_MARGIN : num;
  MIN_MARGIN : num;
  MAX_MARGIN : num
}.

(** The constructor; [env] is [parseFloat(process.env.HOUSE_MARGIN)]. *)
Definition constructor (env : num) : HouseMarginService :=
  let margin := or_else env (Fin 0.02) in
  let min_margin := Fin 0.001 in
  let max_margin := Fin 0.10 in
  {| HOUSE_MARGIN :=
       if (margin <? min_margin) || (margin >? max_margin)
       then Fin 0.02 else margin;
     MIN_MARGIN := min_margin;
     MAX_MARGIN := max_margin |}.

Record Margin : Type := {
  grossAmount : num;
  netAmount : num;
  houseFee : num;
  feePercentage : num
}.

Definition applyMargin (this : HouseMarginService) (betAmount : num)
  : result Margin :=
  if betAmount <=? Fin 0 then Throw BetAmountMustBePositive
  else
    let fee := betAmount * HOUSE_MARGIN this in
    let net := betAmount - fee in
    Ok {| grossAmount := betAmount;
          netAmount := net;
          houseFee := fee;
          feePercentage := HOUSE_MARGIN this |}.

Record Prices : Type := {
  basePrice : num;
  buyPrice : num;
  sellPrice : num;
  spread : num;
  spreadPercentage : num
}.

Definition applyMarginToPrices (this : HouseMarginService) (base : num)
  : outcome Prices :=
  if (base <? Fin 0) || (base >? Fin 1) then Failed BasePriceOutOfRange
  else
    let halfMargin := HOUSE_MARGIN this / Fin 2 in
    let buy := nmin (Fin 1) (base * (Fin 1 + halfMargin)) in
    let sell := nmax (Fin 0) (base * (Fin 1 - halfMargin)) in
    let spread_ := base * HOUSE_MARGIN this in
    Done {| basePrice := base;
            buyPrice := buy;
            sellPrice := sell;
            spread := spread_;
            spreadPercentage := HOUSE_MARGIN this |}.

Definition calculateHouseRevenue (this : HouseMarginService)
  (totalVolume : num) : outcome num :=
  if totalVolume <? Fin 0 then Failed TotalVolumeNegative
  else Done (totalVolume * HOUSE_MARGIN this).

Definition calculateRequiredVolume (this : HouseMarginService)
  (targetRevenue : num) : outcome num :=
  if targetRevenue <? Fin 0 then Failed TargetRevenueNegative
  else Done (targetRevenue / HOUSE_MARGIN this).

Definition calculateBreakEvenPrice (betAmount tokensReceived : num)
  : outcome num :=
  if tokensReceived === Fin 0 then Failed ZeroTokensBreakEven
  else Done (betAmount / tokensReceived).

Definition validateMargin (this : HouseMarginService)
  (betAmount fee : num) : outcome bool :=
  let expectedFee := betAmount * HOUSE_MARGIN this in
  let difference := nabs (fee - expectedFee) in
  if difference >? Fin 0.01 then Failed InvalidHouseFee
  else if (fee <? Fin 0) || (fee >=? betAmount) then Failed HouseFeeOutOfRange
  else Done true.

End HouseMargin.

(* ================================================================= *)
(** ** liquidityPool.service.js *)

Module LiquidityPool.

Record LiquidityPoolService : Type := {
  DEFAULT_POOL_SIZE : num;
  MIN_POOL_SIZE : num;
  MAX_POOL_SIZE : num
}.

(** The constructor; [env] is [parseFloat(process.env.DEFAULT_POOL_SIZE)]. *)
Definition constructor (env : num) : LiquidityPoolService :=
  {| DEFAULT_POOL_SIZE := or_else env (Fin 1000);
     MIN_POOL_SIZE := Fin 100;
     MAX_POOL_SIZE := Fin 100000 |}.

Record Pool : Type := {
  yesPool : num;
  noPool : num;
  liquidityConstant : num;
  initialPoolSize : num;
  initialYesPrice : num;
  initialNoPrice : num
}.

Definition validatePoolSize (this : LiquidityPoolService) (poolSize : num)
  : result bool :=
  if poolSize <? MIN_POOL_SIZE this then Throw PoolSizeTooSmall
  else if poolSize >? MAX_POOL_SIZE this then Throw PoolSizeTooLarge
  else Ok true.

Definition initializeSymmetricPool (this : LiquidityPoolService)
  (poolSize : num) : result Pool :=
  validatePoolSize this poolSize ;;;
  let yes := poolSize in
  let no := poolSize in
  let k := OddsCalculation.calculateLiquidityConstant yes no in
  Ok {| yesPool := yes;
        noPool := no;
        liquidityConstant := k;
        initialPoolSize := poolSize;
        initialYesPrice := Fin 0.5;
        initialNoPrice := Fin 0.5 |}.

(** [initializeAsymmetricPool]; the [console.warn] on a price mismatch
    does not change the returned object and is left out, the call of
    [calculateYesPrice] that precedes it can throw and is kept. *)
Definition initializeAsymmetricPool (this : LiquidityPoolService)
  (totalLiquidity targetYesPrice : num) : result Pool :=
  if (targetYesPrice <=? Fin 0) || (targetYesPrice >=? Fin 1)
  then Throw TargetPriceOutOfRange
  else
    validatePoolSize this (totalLiquidity / Fin 2) ;;;
    let no := totalLiquidity * targetYesPrice in
    let yes := totalLiquidity - no in
    let k := OddsCalculation.calculateLiquidityConstant yes no in
    actualYesPrice <- OddsCalculation.calculateYesPrice yes no ;;
    let priceDifference := nabs (actualYesPrice - targetYesPrice) in
    Ok {| yesPool := yes;
          noPool := no;
          liquidityConstant := k;
          initialPoolSize := totalLiquidity / Fin 2;
          initialYesPrice := targetYesPrice;
          initialNoPrice := Fin 1 - targetYesPrice |}.

Definition validatePoolState (yes no k : num) : result bool :=
  OddsCalculation.validatePoolState yes no k.

Definition calculateOptimalPoolSize (this : LiquidityPoolService)
  (expectedDailyVolume expectedMaxBet : num) : num :=
  let volumeBasedSize := expectedDailyVolume * Fin 2 in
  let betBasedSize := expectedMaxBet * Fin 10 in
  let optimalSize := nmax volumeBasedSize betBasedSize in
  nmax (MIN_POOL_SIZE this) (nmin (MAX_POOL_SIZE this) optimalSize).

(** [hasSufficientLiquidity]; [None] is a call without the third argument,
    which then defaults to 0.9. *)
Definition hasSufficientLiquidity (betAmount outputPool : num)
  (maxUtilization : option num) : bool :=
  let maxUtilization_ :=
    match maxUtilization with Some u => u | None => Fin 0.9 end in
  let estimatedTokens := betAmount * Fin 0.9 in
  let utilization := estimatedTokens / outputPool in
  utilization <=? maxUtilization_.

Section Formatting.

(** [Number.prototype.toFixed], whose decimal rendering is left open. *)
Variable toFixed : num -> nat -> string.

Record Utilization : Type := {
  yesUtilization : num;
  noUtilization : num;
  avgUtilization : num;
  yesUtilizationPercentage : string;
  noUtilizationPercentage : string;
  avgUtilizationPercentage : string
}.

Definition calculateUtilization (currentYesPool currentNoPool
  initialPoolSize_ : num) : Utilization :=
  let initialYesPool := initialPoolSize_ in
  let initialNoPool := initialPoolSize_ in
  let yesU := nabs (currentYesPool - initialYesPool) / initialYesPool in
  let noU := nabs (currentNoPool - initialNoPool) / initialNoPool in
  let avgU := (yesU + noU) / Fin 2 in
  {| yesUtilization := yesU;
     noUtilization := noU;
     avgUtilization := avgU;
     yesUtilizationPercentage :=
       (toFixed (yesU * Fin 100) 2 ++ "%")%string;
     noUtilizationPercentage :=
       (toFixed (noU * Fin 100) 2 ++ "%")%string;
     avgUtilizationPercentage :=
       (toFixed (avgU * Fin 100) 2 ++ "%")%string |}.

Record Warning : Type := {
  level : string;
  message : string
}.

Record Ratio : Type := {
  yesToNo : num;
  noToYes : num
}.

Record PoolHealth : Type := {
  healthy : bool;
  utilization : Utilization;
  ratio : Ratio;
  warnings : list Warning
}.

Definition getPoolHealth (this : LiquidityPoolService)
  (yes no initialPoolSize_ : num) : PoolHealth :=
  let u := calculateUtilization yes no initialPoolSize_ in
  let high :=
    if avgUtilization u >? Fin 0.8
    then [{| level := "warning";
             message := "High pool utilization - consider adding liquidity" |}]
    else [] in
  let critical :=
    if avgUtilization u >? Fin 0.95
    then [{| level := "critical";
             message := "Critical pool utilization - large bets may fail" |}]
    else [] in
  let ratio_ := nmax (yes / no) (no / yes) in
  let skewed :=
    if ratio_ >? Fin 10
    then [{| level := "info";
             message := "Pool heavily skewed - prices may be extreme" |}]
    else [] in
  let low :=
    if (yes <? MIN_POOL_SIZE this) || (no <? MIN_POOL_SIZE this)
    then [{| level := "critical";
             message := "Pool size critically low" |}]
    else [] in
  let all := (high ++ critical ++ skewed ++ low)%list in
  {| healthy := Nat.eqb (List.length all) 0;
     utilization := u;
     ratio := {| yesToNo := yes / no; noToYes := no / yes |};
     warnings := all |}.

End Formatting.

End LiquidityPool.

(* ================================================================= *)
(** ** oddsConverter.service.js *)

Module OddsConverter.

Definition probabilityToOdds (probability : num) : result num :=
  if (probability <=? Fin 0) || (probability >=? Fin 1)
  then Throw ProbabilityOutOfRange
  else Ok (Fin 1 / probability).

Record Odds : Type := {
  yesOdds : num;
  noOdds : num
}.

Definition calculateOddsFromVolume (yesVolume noVolume : num)
  : result Odds :=
  let totalVolume := yesVolume + noVolume in
  if totalVolume === Fin 0
  then Ok {| yesOdds := Fin 2.0; noOdds := Fin 2.0 |}
  else
    let yesProbability := noVolume / totalVolume in
    let noProbability := yesVolume / totalVolume in
    y <- probabilityToOdds yesProbability ;;
    n <- probabilityToOdds noProbability ;;
    Ok {| yesOdds := y; noOdds := n |}.

Definition oddsToProbability (odds_ : num) : outcome num :=
  if odds_ <=? Fin 1 then Failed OddsMustBeGreaterThanOne
  else Done (Fin 1 / odds_).

Record Payout : Type := {
  stake : num;
  odds : num;
  payout : num;
  profit : num;
  roi : num
}.

Definition calculatePayout (stake_ odds_ : num) : Payout :=
  let payout_ := stake_ * odds_ in
  let profit_ := payout_ - stake_ in
  {| stake := stake_;
     odds := odds_;
     payout := payout_;
     profit := profit_;
     roi := (profit_ / stake_) * Fin 100 |}.

(** [applyMarginToOdds]; [None] is a call without the second argument,
    which then defaults to 0.02. *)
Definition applyMarginToOdds (odds_ : num) (marginPercentage : option num)
  : num :=
  let margin :=
    match marginPercentage with Some m => m | None => Fin 0.02 end in
  let probability := Fin 1 / odds_ in
  let adjustedProbability := probability * (Fin 1 + margin) in
  let cappedProbability := nmin adjustedProbability (Fin 0.99) in
  Fin 1 / cappedProbability.

Record PoolOdds : Type := {
  po_yesOdds : num;
  po_noOdds : num;
  po_yesProbability : num;
  po_noProbability : num
}.

Definition calculateOddsFromPools (yesPool noPool : num) : result PoolOdds :=
  let totalPool := yesPool + noPool in
  let yesProbability := noPool / totalPool in
  let noProbability := yesPool / totalPool in
  y <- probabilityToOdds yesProbability ;;
  n <- probabilityToOdds noProbability ;;
  Ok {| po_yesOdds := y;
        po_noOdds := n;
        po_yesProbability := yesProbability;
        po_noProbability := noProbability |}.

Definition getOddsCategory (odds_ : num) : string :=
  if odds_ >=? Fin 10.0 then "Long Shot - High risk, high reward"
  else if odds_ >=? Fin 5.0 then "Underdog - Decent value"
  else if odds_ >=? Fin 2.5 then "Moderate - Balanced odds"
  else if odds_ >=? Fin 1.5 then "Favorite - Lower risk"
  else "Heavy Favorite - Very likely, low payout".

End OddsConverter.

(* ================================================================= *)
(** ** betting.service.js *)

Module Betting.

(** *** The store

    One list of rows per table.  Identifiers chosen by the caller (market
    and user) are strings; identifiers that the store assigns on insert
    (bets, positions) are the row's index.  Timestamp columns are left
    out. *)

Record Market : Type := {
  market_id : string;
  status : string;
  pool_initialized : bool;
  yes_pool : num;
  no_pool : num;
  liquidity_constant : num;
  yes_price : num;
  no_price : num;
  total_volume : num
}.

Record Profile : Type := {
  profile_id : string;
  balance : num
}.

Record Bet : Type := {
  bet_id : nat;
  bet_market_id : string;
  bet_user_id : string;
  bet_outcome : string;
  amount : num;
  price : num;
  potential_return : num;
  bet_status : string;
  yes_pool_before : num;
  no_pool_before : num;
  yes_pool_after : num;
  no_pool_after : num;
  effective_price : num;
  bet_slippage : num;
  house_fee : num
}.

Record Position : Type := {
  position_id : nat;
  pos_user_id : string;
  pos_market_id : string;
  pos_outcome : string;
  shares : num;
  avg_price : num;
  total_invested : num;
  current_value : num
}.

Record Transaction : Type := {
  tx_user_id : string;
  tx_type : string;
  tx_amount : num;
  balance_after : num;
  reference_id : nat
}.

Record PricePoint : Type := {
  ph_market_id : string;
  ph_yes_price : num;
  ph_no_price : num;
  ph_yes_pool : num;
  ph_no_pool : num;
  ph_total_volume : num;
  ph_bet_id : nat
}.

Record DB : Type := {
  markets : list Market;
  profiles : list Profile;
  bets : list Bet;
  positions : list Position;
  transactions : list Transaction;
  price_history : list PricePoint
}.

(** Which of the six writes of a settlement the client answers with an
    error.  A write that fails changes nothing in the store. *)
Record Faults : Type := {
  markets_update_fails : bool;
  bets_insert_fails : bool;
  profiles_update_fails : bool;
  positions_write_fails : bool;
  transactions_insert_fails : bool;
  price_history_insert_fails : bool
}.

Definition no_faults : Faults :=
  {| markets_update_fails := false;
     bets_insert_fails := false;
     profiles_update_fails := false;
     positions_write_fails := false;
     transactions_insert_fails := false;
     price_history_insert_fails := false |}.

(** [.single()]: the row when the query selects exactly one. *)
Definition single {A : Type} (rows : list A) : option A :=
  match rows with
  | [r] => Some r
  | _ => None
  end.

(** [.update(...).eq(...)]: every selected row is rewritten. *)
Definition update_where {A : Type} (sel : A -> bool) (upd : A -> A)
  (rows : list A) : list A :=
  map (fun r => if sel r then upd r else r) rows.

(** *** Calls that read or write the store *)

Definition M (A : Type) : Type := DB -> DB * result A.

Definition ret {A : Type} (a : A) : M A := fun db => (db, Ok a).

Definition throw {A : Type} (e : Error) : M A := fun db => (db, Throw e).

Definition lift {A : Type} (r : result A) : M A := fun db => (db, r).

Definition mbind {A B : Type} (m : M A) (f : A -> M B) : M B :=
  fun db =>
    match m db with
    | (db', Ok a) => f a db'
    | (db', Throw e) => (db', Throw e)
    end.

(** [try { ... } catch (error) { throw h(error) }] *)
Definition rethrow {A : Type} (m : M A) (h : Error -> Error) : M A :=
  fun db =>
    match m db with
    | (db', Ok a) => (db', Ok a)
    | (db', Throw e) => (db', Throw (h e))
    end.

Definition read {A : Type} (q : DB -> A) : M A := fun db => (db, Ok (q db)).

(** A write whose answer the caller inspects: it throws the client's
    error when the write fails. *)
Definition write_checked (fails : bool) (t : Table) (w : DB -> DB)
  : M unit :=
  fun db => if fails then (db, Throw (ClientError t)) else (w db, Ok tt).

(** A write whose answer the caller drops. *)
Definition write_unchecked (fails : bool) (w : DB -> DB) : M unit :=
  fun db => if fails then (db, Ok tt) else (w db, Ok tt).

Notation "x <~ m ;; k" := (mbind m (fun x => k))
  (at level 61, m at next level, right associativity).
Notation "m >>> k" := (mbind m (fun _ => k))
  (at level 61, right associativity).

Definition with_markets (rows : list Market) (db : DB) : DB :=
  {| markets := rows; profiles := profiles db; bets := bets db;
     positions := positions db; transactions := transactions db;
     price_history := price_history db |}.

Definition with_profiles (rows : list Profile) (db : DB) : DB :=
  {| markets := markets db; profiles := rows; bets := bets db;
     positions := positions db; transactions := transactions db;
     price_history := price_history db |}.

Definition with_bets (rows : list Bet) (db : DB) : DB :=
  {| markets := markets db; profiles := profiles db; bets := rows;
     positions := positions db; transactions := transactions db;
     price_history := price_history db |}.

Definition with_positions (rows : list Position) (db : DB) : DB :=
  {| markets := markets db; profiles := profiles db; bets := bets db;
     positions := rows; transactions := transactions db;
     price_history := price_history db |}.

Definition with_transactions (rows : list Transaction) (db : DB) : DB :=
  {| markets := markets db; profiles := profiles db; bets := bets db;
     positions := positions db; transactions := rows;
     price_history := price_history db |}.

Definition with_price_history (rows : list PricePoint) (db : DB) : DB :=
  {| markets := markets db; profiles := profiles db; bets := bets db;
     positions := positions db; transactions := transactions db;
     price_history := rows |}.

(** *** The service *)

Definition MARKET_STATUS_ACTIVE : string := "active".
Definition BET_STATUS_MATCHED : string := "matched".

Definition getMarket (marketId : string) : M Market :=
  fun db =>
    match single (filter (fun m => String.eqb (market_id m) marketId)
                    (markets db)) with
    | Some market => (db, Ok market)
    | None => (db, Throw MarketNotFound)
    end.

Definition getUserProfile (userId : string) : M Profile :=
  fun db =>
    match single (filter (fun p => String.eqb (profile_id p) userId)
                    (profiles db)) with
    | Some profile => (db, Ok profile)
    | None => (db, Throw UserProfileNotFound)
    end.

Definition validateBetInputs (marketId userId outcome : string)
  (betAmount : num) : result unit :=
  if String.eqb marketId "" || String.eqb userId ""
  then Throw IdsRequired
  else if negb (String.eqb outcome OUTCOMES_YES
                || String.eqb outcome OUTCOMES_NO)
  then Throw OutcomeInvalid
  else if falsy betAmount || (betAmount <=? Fin 0)
  then Throw BetAmountInvalid
  else Ok tt.

Definition validateMarketState (market : Market) : result unit :=
  if negb (pool_initialized market) then Throw PoolNotInitialized
  else if negb (String.eqb (status market) MARKET_STATUS_ACTIVE)
  then Throw MarketNotActive
  else Ok tt.

Definition validateUserBalance (profile : Profile) (betAmount : num)
  : result unit :=
  if balance profile <? betAmount
  then Throw InsufficientBalance
  else Ok tt.

(** [updatePosition]; neither the answer of the read nor that of the
    write is inspected. *)
Definition updatePosition (fails : bool) (userId marketId outcome : string)
  (amount shares_ avgPrice : num) : M unit :=
  existing <~ read (fun db =>
    single (filter (fun p => String.eqb (pos_user_id p) userId
                             && String.eqb (pos_market_id p) marketId
                             && String.eqb (pos_outcome p) outcome)
              (positions db))) ;;
  match existing with
  | Some old =>
      let newShares := shares old + shares_ in
      let newTotalInvested := total_invested old + amount in
      let newAvgPrice := newTotalInvested / newShares in
      write_unchecked fails (fun db =>
        with_positions
          (update_where
             (fun p => Nat.eqb (position_id p) (position_id old))
             (fun p => {| position_id := position_id p;
                          pos_user_id := pos_user_id p;
                          pos_market_id := pos_market_id p;
                          pos_outcome := pos_outcome p;
                          shares := newShares;
                          avg_price := newAvgPrice;
                          total_invested := newTotalInvested;
                          current_value := newShares * avgPrice |})
             (positions db)) db)
  | None =>
      write_unchecked fails (fun db =>
        with_positions
          (positions db ++
           [{| position_id := List.length (positions db);
               pos_user_id := userId;
               pos_market_id := marketId;
               pos_outcome := outcome;
               shares := shares_;
               avg_price := avgPrice;
               total_invested := amount;
               current_value := amount |}])%list db)
  end.

Record TxParams : Type := {
  p_marketId : string;
  p_userId : string;
  p_outcome : string;
  p_betAmount : num;
  p_netAmount : num;
  p_houseFee : num;
  p_tokensReceived : num;
  p_effectivePrice : num;
  p_slippage : num;
  p_priceBeforeBet : num;
  p_yesPoolBefore : num;
  p_noPoolBefore : num;
  p_yesPoolAfter : num;
  p_noPoolAfter : num;
  p_newYesPrice : num;
  p_newNoPrice : num;
  p_market : Market;
  p_profile : Profile
}.

Record BetResult : Type := {
  r_betId : nat;
  r_marketId : string;
  r_outcome : string;
  r_grossAmount : num;
  r_netAmount : num;
  r_houseFee : num;
  r_tokensReceived : num;
  r_effectivePrice : num;
  r_slippage : num;
  r_priceBeforeBet : num;
  r_newYesPrice : num;
  r_newNoPrice : num;
  r_newYesPool : num;
  r_newNoPool : num;
  r_potentialPayout : num;
  r_potentialProfit : num
}.

(** [.from('bets').insert(...).select().single()] *)
Definition insert_bet (fails : bool) (mk : nat -> Bet) : M Bet :=
  fun db =>
    if fails then (db, Throw (ClientError t_bets))
    else
      let bet := mk (List.length (bets db)) in
      (with_bets (bets db ++ [bet])%list db, Ok bet).

Definition executeTransaction (f : Faults) (p : TxParams) : M BetResult :=
  let volume := or_else (total_volume (p_market p)) (Fin 0) + p_betAmount p in
  (* Update market pools and prices *)
  write_checked (markets_update_fails f) t_markets (fun db =>
    with_markets
      (update_where
         (fun m => String.eqb (market_id m) (p_marketId p))
         (fun m => {| market_id := market_id m;
                      status := status m;
                      pool_initialized := pool_initialized m;
                      yes_pool := p_yesPoolAfter p;
                      no_pool := p_noPoolAfter p;
                      liquidity_constant := liquidity_constant m;
                      yes_price := p_newYesPrice p;
                      no_price := p_newNoPrice p;
                      total_volume := volume |})
         (markets db)) db) >>>
  (* Create bet record *)
  bet <~ insert_bet (bets_insert_fails f) (fun id =>
    {| bet_id := id;
       bet_market_id := p_marketId p;
       bet_user_id := p_userId p;
       bet_outcome := p_outcome p;
       amount := p_betAmount p;
       price := p_priceBeforeBet p;
       potential_return := p_tokensReceived p;
       bet_status := BET_STATUS_MATCHED;
       yes_pool_before := p_yesPoolBefore p;
       no_pool_before := p_noPoolBefore p;
       yes_pool_after := p_yesPoolAfter p;
       no_pool_after := p_noPoolAfter p;
       effective_price := p_effectivePrice p;
       bet_slippage := p_slippage p;
       house_fee := p_houseFee p |}) ;;
  (* Update user balance *)
  let newBalance := balance (p_profile p) - p_betAmount p in
  write_checked (profiles_update_fails f) t_profiles (fun db =>
    with_profiles
      (update_where
         (fun q => String.eqb (profile_id q) (p_userId p))
         (fun q => {| profile_id := profile_id q; balance := newBalance |})
         (profiles db)) db) >>>
  (* Update or create position *)
  updatePosition (positions_write_fails f) (p_userId p) (p_marketId p)
    (p_outcome p) (p_netAmount p) (p_tokensReceived p)
    (p_effectivePrice p) >>>
  (* Log transaction *)
  write_unchecked (transactions_insert_fails f) (fun db =>
    with_transactions
      (transactions db ++
       [{| tx_user_id := p_userId p;
           tx_type := "bet";
           tx_amount := p_betAmount p;
           balance_after := newBalance;
           reference_id := bet_id bet |}])%list db) >>>
  (* Record price history *)
  write_unchecked (price_history_insert_fails f) (fun db =>
    with_price_history
      (price_history db ++
       [{| ph_market_id := p_marketId p;
           ph_yes_price := p_newYesPrice p;
           ph_no_price := p_newNoPrice p;
           ph_yes_pool := p_yesPoolAfter p;
           ph_no_pool := p_noPoolAfter p;
           ph_total_volume := volume;
           ph_bet_id := bet_id bet |}])%list db) >>>
  ret {| r_betId := bet_id bet;
         r_marketId := p_marketId p;
         r_outcome := p_outcome p;
         r_grossAmount := p_betAmount p;
         r_netAmount := p_netAmount p;
         r_houseFee := p_houseFee p;
         r_tokensReceived := p_tokensReceived p;
         r_effectivePrice := p_effectivePrice p;
         r_slippage := p_slippage p;
         r_priceBeforeBet := p_priceBeforeBet p;
         r_newYesPrice := p_newYesPrice p;
         r_newNoPrice := p_newNoPrice p;
         r_newYesPool := p_yesPoolAfter p;
         r_newNoPool := p_noPoolAfter p;
         r_potentialPayout := p_tokensReceived p;
         r_potentialProfit := p_tokensReceived p - p_betAmount p |}.

(** Step 8 of [placeBet]: the check of the product after the trade. *)
Definition constantViolated (yesPoolAfter noPoolAfter k : num) : bool :=
  let newK := yesPoolAfter * noPoolAfter in
  nabs (newK - k) >? Fin 0.01.

(** Steps 3 to 8 of [placeBet]: everything that is computed from the
    snapshots of the market and of the profile before the first write. *)
Definition priceBet (hm : HouseMargin.HouseMarginService)
  (marketId userId outcome : string) (betAmount : num)
  (market : Market) (profile : Profile) : result TxParams :=
  (* 3. Apply house margin *)
  margin <- HouseMargin.applyMargin hm betAmount ;;
  let netAmount := HouseMargin.netAmount margin in
  let houseFee := HouseMargin.houseFee margin in
  (* 4. Current pools and price before the bet *)
  let yesPoolBefore := yes_pool market in
  let noPoolBefore := no_pool market in
  let k := liquidity_constant market in
  LiquidityPool.validatePoolState yesPoolBefore noPoolBefore k ;;;
  priceBeforeBet <- (if String.eqb outcome OUTCOMES_YES
                     then OddsCalculation.calculateYesPrice
                            yesPoolBefore noPoolBefore
                     else OddsCalculation.calculateNoPrice
                            yesPoolBefore noPoolBefore) ;;
  (* 5. Tokens received *)
  pools <- (if String.eqb outcome OUTCOMES_YES
            then
              tokens <- OddsCalculation.calculateTokensReceived
                          netAmount noPoolBefore yesPoolBefore k ;;
              Ok (tokens, yesPoolBefore - tokens, noPoolBefore + netAmount)
            else
              tokens <- OddsCalculation.calculateTokensReceived
                          netAmount yesPoolBefore noPoolBefore k ;;
              Ok (tokens, yesPoolBefore + netAmount, noPoolBefore - tokens)) ;;
  let '(tokensReceived, yesPoolAfter, noPoolAfter) := pools in
  (* 6. Effective price and slippage *)
  effectivePrice <- OddsCalculation.calculateEffectivePrice
                      netAmount tokensReceived ;;
  let slippage := OddsCalculation.calculateSlippage
                    priceBeforeBet effectivePrice in
  (* 7. New prices *)
  newYesPrice <- OddsCalculation.calculateYesPrice yesPoolAfter noPoolAfter ;;
  newNoPrice <- OddsCalculation.calculateNoPrice yesPoolAfter noPoolAfter ;;
  (* 8. Verify constant product is maintained *)
  if constantViolated yesPoolAfter noPoolAfter k
  then Throw LiquidityConstantViolated
  else
    Ok {| p_marketId := marketId;
          p_userId := userId;
          p_outcome := outcome;
          p_betAmount := betAmount;
          p_netAmount := netAmount;
          p_houseFee := houseFee;
          p_tokensReceived := tokensReceived;
          p_effectivePrice := effectivePrice;
          p_slippage := slippage;
          p_priceBeforeBet := priceBeforeBet;
          p_yesPoolBefore := yesPoolBefore;
          p_noPoolBefore := noPoolBefore;
          p_yesPoolAfter := yesPoolAfter;
          p_noPoolAfter := noPoolAfter;
          p_newYesPrice := newYesPrice;
          p_newNoPrice := newNoPrice;
          p_market := market;
          p_profile := profile |}.

Definition placeBet (hm : HouseMargin.HouseMarginService) (f : Faults)
  (marketId userId outcome : string) (betAmount : num) : M BetResult :=
  lift (validateBetInputs marketId userId outcome betAmount) >>>
  (* 1. Current market state *)
  market <~ getMarket marketId ;;
  lift (validateMarketState market) >>>
  (* 2. User profile and balance *)
  profile <~ getUserProfile userId ;;
  lift (validateUserBalance profile betAmount) >>>
  (* 3 to 8 *)
  params <~ lift (priceBet hm marketId userId outcome betAmount
                    market profile) ;;
  (* 9. Execute database transaction *)
  rethrow (executeTransaction f params) BetProcessingFailed.

(** *** Calls that only read the store *)

Record MarginPrices : Type := {
  mp_yes : HouseMargin.Prices;
  mp_no : HouseMargin.Prices
}.

Record OddsData : Type := {
  od_marketId : string;
  od_yesPrice : num;
  od_noPrice : num;
  od_yesPool : num;
  od_noPool : num;
  od_liquidityConstant : num;
  od_totalLiquidity : num;
  od_pricesWithMargin : MarginPrices
}.

(** [getMarketOdds]: a single read of the market, then arithmetic. *)
Definition getMarketOdds (hm : HouseMargin.HouseMarginService)
  (marketId : string) (db : DB) : outcome OddsData :=
  market <-- of_result (snd (getMarket marketId db)) ;;
  if negb (pool_initialized market) then Failed PoolNotInitializedUncoded
  else
    let yesPool := yes_pool market in
    let noPool := no_pool market in
    let k := liquidity_constant market in
    baseOdds <-- of_result (OddsCalculation.getMarketOdds yesPool noPool k) ;;
    yesPrices <-- HouseMargin.applyMarginToPrices hm
                    (OddsCalculation.mo_yesPrice baseOdds) ;;
    noPrices <-- HouseMargin.applyMarginToPrices hm
                   (OddsCalculation.mo_noPrice baseOdds) ;;
    Done {| od_marketId := marketId;
            od_yesPrice := OddsCalculation.mo_yesPrice baseOdds;
            od_noPrice := OddsCalculation.mo_noPrice baseOdds;
            od_yesPool := yesPool;
            od_noPool := noPool;
            od_liquidityConstant := k;
            od_totalLiquidity := OddsCalculation.mo_totalLiquidity baseOdds;
            od_pricesWithMargin :=
              {| mp_yes := yesPrices; mp_no := noPrices |} |}.

Record Quote : Type := {
  q_outcome : string;
  q_grossAmount : num;
  q_netAmount : num;
  q_houseFee : num;
  q_estimatedTokens : num;
  q_estimatedEffectivePrice : num;
  q_estimatedSlippage : num;
  q_currentPrice : num;
  q_priceImpact : num;
  q_newEstimatedPrice : num;
  q_warning : option string
}.

Definition getBetQuote (hm : HouseMargin.HouseMarginService)
  (marketId outcome : string) (amount_ : num) : M Quote :=
  market <~ getMarket marketId ;;
  lift (validateMarketState market) >>>
  (* Apply house margin *)
  margin <~ lift (HouseMargin.applyMargin hm amount_) ;;
  let netAmount := HouseMargin.netAmount margin in
  let houseFee := HouseMargin.houseFee margin in
  (* Get current pools *)
  let yesPool := yes_pool market in
  let noPool := no_pool market in
  let k := liquidity_constant market in
  (* Simulate the bet *)
  simulation <~ lift (OddsCalculation.simulateBet outcome netAmount
                        yesPool noPool k) ;;
  (* Determine warning level based on slippage *)
  let warning :=
    if OddsCalculation.slippage simulation >? Fin 0.10
    then Some "Critical slippage detected. Consider reducing bet size significantly."%string
    else if OddsCalculation.slippage simulation >? Fin 0.05
    then Some "High slippage detected. Consider reducing bet size."%string
    else None in
  ret {| q_outcome := outcome;
         q_grossAmount := amount_;
         q_netAmount := netAmount;
         q_houseFee := houseFee;
         q_estimatedTokens := OddsCalculation.tokensReceived simulation;
         q_estimatedEffectivePrice :=
           OddsCalculation.effectivePrice simulation;
         q_estimatedSlippage := OddsCalculation.slippage simulation;
         q_currentPrice := OddsCalculation.priceBeforeBet simulation;
         q_priceImpact := OddsCalculation.priceImpact simulation;
         q_newEstimatedPrice :=
           if String.eqb outcome OUTCOMES_YES
           then OddsCalculation.newYesPrice simulation
           else OddsCalculation.newNoPrice simulation;
         q_warning := warning |}.

End Betting.

(* ================================================================= *)
(** ** The services on binary64 numbers

    The functions of the pricing engine, the margin service, the pool
    service and the converter once more, with the operations of IEEE 754
    binary64 in place of exact arithmetic. *)

Module Float64.

#[local] Set Warnings "-inexact-float".
Local Open Scope float_scope.

(** [houseMargin.applyMargin]: the net amount and the fee *)
Definition applyMargin (HOUSE_MARGIN betAmount : float)
  : result (float * float) :=
  if betAmount <=? 0 then Throw BetAmountMustBePositive
  else
    let houseFee := betAmount * HOUSE_MARGIN in
    let netAmount := betAmount - houseFee in
    Ok (netAmount, houseFee).

Definition validatePoolState (yesPool noPool k : float) : result bool :=
  if (yesPool <=? 0) || (noPool <=? 0)
  then Throw PoolSizesMustBePositive
  else
    let calculatedK := yesPool * noPool in
    let kDifference := abs (calculatedK - k) in
    let percentageDiff := (kDifference / k) * 100 in
    if 0.01 <? percentageDiff then Throw PoolStateInvalid
    else Ok true.

Definition calculateYesPrice (yesPool noPool : float) : result float :=
  let totalPool := yesPool + noPool in
  if totalPool =? 0 then Throw TotalPoolCannotBeZero
  else Ok (noPool / totalPool).

Definition calculateNoPrice (yesPool noPool : float) : result float :=
  let totalPool := yesPool + noPool in
  if totalPool =? 0 then Throw TotalPoolCannotBeZero
  else Ok (yesPool / totalPool).

Definition calculateTokensReceived (betAmount inputPool outputPool k : float)
  : result float :=
  if betAmount <=? 0 then Throw BetAmountMustBePositive
  else
    let newInputPool := inputPool + betAmount in
    let newOutputPool := k / newInputPool in
    let tokensOut := outputPool - newOutputPool in
    if outputPool <=? tokensOut then Throw BetTooLarge
    else if tokensOut <=? 0 then Throw NoTokensReceived
    else Ok tokensOut.

Definition calculateEffectivePrice (betAmount tokensReceived : float)
  : result float :=
  if tokensReceived =? 0 then Throw ZeroTokensPrice
  else Ok (betAmount / (betAmount + tokensReceived)).

Definition constantViolated (yesPoolAfter noPoolAfter k : float) : bool :=
  let newK := yesPoolAfter * noPoolAfter in
  0.01 <? abs (newK - k).

(** Step 5: tokens received and the pools after the trade. *)
Definition tradePools (outcome : string) (netAmount yesPoolBefore
  noPoolBefore k : float) : result (float * float * float) :=
  if String.eqb outcome OUTCOMES_YES
  then
    tokens <- calculateTokensReceived netAmount noPoolBefore yesPoolBefore k ;;
    Ok (tokens, yesPoolBefore - tokens, noPoolBefore + netAmount)
  else
    tokens <- calculateTokensReceived netAmount yesPoolBefore noPoolBefore k ;;
    Ok (tokens, yesPoolBefore + netAmount, noPoolBefore - tokens).

(** Steps 3 to 8; the result is the tokens received and the two pools
    after the trade.  The slippage of step 6 cannot throw and is not part
    of the result. *)
Definition priceBet (HOUSE_MARGIN : float) (outcome : string)
  (betAmount yesPoolBefore noPoolBefore k : float)
  : result (float * float * float) :=
  margin <- applyMargin HOUSE_MARGIN betAmount ;;
  let netAmount := fst margin in
  validatePoolState yesPoolBefore noPoolBefore k ;;;
  (if String.eqb outcome OUTCOMES_YES
   then calculateYesPrice yesPoolBefore noPoolBefore
   else calculateNoPrice yesPoolBefore noPoolBefore) ;;;
  pools <- tradePools outcome netAmount yesPoolBefore noPoolBefore k ;;
  let '(tokensReceived, yesPoolAfter, noPoolAfter) := pools in
  calculateEffectivePrice netAmount tokensReceived ;;;
  calculateYesPrice yesPoolAfter noPoolAfter ;;;
  calculateNoPrice yesPoolAfter noPoolAfter ;;;
  if constantViolated yesPoolAfter noPoolAfter k
  then Throw LiquidityConstantViolated
  else Ok (tokensReceived, yesPoolAfter, noPoolAfter).

(** *** Further functions on binary64 numbers *)

(** [parseFloat] of a number: the number is printed and read again, which
    gives the number back, with [-0] read back as [0]. *)
Definition parseFloat (x : float) : float := if x =? 0 then 0 else x.

(** [!x]: zero (of either sign) and [NaN] are falsy. *)
Definition falsy (x : float) : bool := (x =? 0) || is_nan x.

(** [x || d] *)
Definition or_else (x d : float) : float := if falsy x then d else x.

(** [Math.min] of two numbers: [NaN] when one of them is, and [-0] below
    [0]. *)
Definition Math_min (a b : float) : float :=
  if is_nan a || is_nan b then nan
  else if a <? b then a
  else if b <? a then b
  else if get_sign a then a else b.

Definition calculateSlippage (initialPrice effectivePrice : float) : float :=
  if initialPrice =? 0 then 0
  else abs ((effectivePrice - initialPrice) / initialPrice).

Definition calculatePriceImpact (currentPrice newPrice : float) : float :=
  if currentPrice =? 0 then 0
  else abs ((newPrice - currentPrice) / currentPrice).

Record Simulation : Type := {
  tokensReceived : float;
  effectivePrice : float;
  slippage : float;
  priceImpact : float;
  priceBeforeBet : float;
  priceAfterBet : float;
  newYesPrice : float;
  newNoPrice : float;
  newYesPool : float;
  newNoPool : float;
  newK : float
}.

(** [simulateBet], without its [console.warn]. *)
Definition simulateBet (outcome : string) (betAmount yesPool noPool k : float)
  : result Simulation :=
  priceBefore <- (if String.eqb outcome "yes"
                  then calculateYesPrice yesPool noPool
                  else calculateNoPrice yesPool noPool) ;;
  pools <- tradePools outcome betAmount yesPool noPool k ;;
  let '(tokens, yesAfter, noAfter) := pools in
  yesPriceAfter <- calculateYesPrice yesAfter noAfter ;;
  noPriceAfter <- calculateNoPrice yesAfter noAfter ;;
  let priceAfter :=
    if String.eqb outcome "yes" then yesPriceAfter else noPriceAfter in
  effective <- calculateEffectivePrice betAmount tokens ;;
  Ok {| tokensReceived := tokens;
        effectivePrice := effective;
        slippage := calculateSlippage priceBefore effective;
        priceImpact := calculatePriceImpact priceBefore priceAfter;
        priceBeforeBet := priceBefore;
        priceAfterBet := priceAfter;
        newYesPrice := yesPriceAfter;
        newNoPrice := noPriceAfter;
        newYesPool := yesAfter;
        newNoPool := noAfter;
        newK := yesAfter * noAfter |}.

(** [oddsConverter.probabilityToOdds] *)
Definition probabilityToOdds (probability : float) : result float :=
  if (probability <=? 0) || (1 <=? probability)
  then Throw ProbabilityOutOfRange
  else Ok (1 / probability).

Record Odds : Type := {
  yesOdds : float;
  noOdds : float
}.

(** [oddsConverter.calculateOddsFromVolume] *)
Definition calculateOddsFromVolume (yesVolume noVolume : float)
  : result Odds :=
  let totalVolume := yesVolume + noVolume in
  if totalVolume =? 0
  then Ok {| yesOdds := 2.0; noOdds := 2.0 |}
  else
    let yesProbability := noVolume / totalVolume in
    let noProbability := yesVolume / totalVolume in
    y <- probabilityToOdds yesProbability ;;
    n <- probabilityToOdds noProbability ;;
    Ok {| yesOdds := y; noOdds := n |}.

(** [oddsConverter.applyMarginToOdds] with both arguments given *)
Definition applyMarginToOdds (odds marginPercentage : float) : float :=
  let probability := 1 / odds in
  let adjustedProbability := probability * (1 + marginPercentage) in
  let cappedProbability := Math_min adjustedProbability 0.99 in
  1 / cappedProbability.

Record Payout : Type := {
  stake : float;
  odds : float;
  payout : float;
  profit : float;
  roi : float
}.

(** [oddsConverter.calculatePayout] *)
Definition calculatePayout (stake_ odds_ : float) : Payout :=
  let payout_ := stake_ * odds_ in
  let profit_ := payout_ - stake_ in
  {| stake := stake_;
     odds := odds_;
     payout := payout_;
     profit := profit_;
     roi := (profit_ / stake_) * 100 |}.

(** [oddsConverter.getOddsCategory] *)
Definition getOddsCategory (odds_ : float) : string :=
  if 10.0 <=? odds_ then "Long Shot - High risk, high reward"
  else if 5.0 <=? odds_ then "Underdog - Decent value"
  else if 2.5 <=? odds_ then "Moderate - Balanced odds"
  else if 1.5 <=? odds_ then "Favorite - Lower risk"
  else "Heavy Favorite - Very likely, low payout".

(** *** The other services on binary64 numbers *)

(** [Math.max] of two numbers: [NaN] when one of them is, and [0] above
    [-0]. *)
Definition Math_max (a b : float) : float :=
  if is_nan a || is_nan b then nan
  else if a <? b then b
  else if b <? a then a
  else if get_sign a then b else a.

Record Prices : Type := {
  basePrice : float;
  buyPrice : float;
  sellPrice : float;
  spread : float;
  spreadPercentage : float
}.

(** [houseMargin.applyMarginToPrices] *)
Definition applyMarginToPrices (HOUSE_MARGIN basePrice_ : float)
  : outcome Prices :=
  if (basePrice_ <? 0) || (1 <? basePrice_)
  then Failed BasePriceOutOfRange
  else
    let halfMargin := HOUSE_MARGIN / 2 in
    let buy := Math_min 1 (basePrice_ * (1 + halfMargin)) in
    let sell := Math_max 0 (basePrice_ * (1 - halfMargin)) in
    let spread_ := basePrice_ * HOUSE_MARGIN in
    Done {| basePrice := basePrice_;
            buyPrice := buy;
            sellPrice := sell;
            spread := spread_;
            spreadPercentage := HOUSE_MARGIN |}.

(** [houseMargin.calculateHouseRevenue] *)
Definition calculateHouseRevenue (HOUSE_MARGIN totalVolume : float)
  : outcome float :=
  if totalVolume <? 0 then Failed TotalVolumeNegative
  else Done (totalVolume * HOUSE_MARGIN).

(** [houseMargin.calculateRequiredVolume] *)
Definition calculateRequiredVolume (HOUSE_MARGIN targetRevenue : float)
  : outcome float :=
  if targetRevenue <? 0 then Failed TargetRevenueNegative
  else Done (targetRevenue / HOUSE_MARGIN).

(** [houseMargin.calculateBreakEvenPrice] *)
Definition calculateBreakEvenPrice (betAmount tokensReceived_ : float)
  : outcome float :=
  if tokensReceived_ =? 0 then Failed ZeroTokensBreakEven
  else Done (betAmount / tokensReceived_).

(** [oddsConverter.oddsToProbability] *)
Definition oddsToProbability (odds_ : float) : outcome float :=
  if odds_ <=? 1 then Failed OddsMustBeGreaterThanOne
  else Done (1 / odds_).

Record PoolOdds : Type := {
  po_yesOdds : float;
  po_noOdds : float;
  po_yesProbability : float;
  po_noProbability : float
}.

(** [oddsConverter.calculateOddsFromPools] *)
Definition calculateOddsFromPools (yesPool_ noPool_ : float)
  : result PoolOdds :=
  let totalPool := yesPool_ + noPool_ in
  let yesProbability := noPool_ / totalPool in
  let noProbability := yesPool_ / totalPool in
  y <- probabilityToOdds yesProbability ;;
  n <- probabilityToOdds noProbability ;;
  Ok {| po_yesOdds := y;
        po_noOdds := n;
        po_yesProbability := yesProbability;
        po_noProbability := noProbability |}.

(** [liquidityPool.validatePoolSize], with the two bounds that the
    constructor reads from the environment as arguments. *)
Definition validatePoolSize (MIN_POOL_SIZE MAX_POOL_SIZE poolSize : float)
  : result bool :=
  if poolSize <? MIN_POOL_SIZE then Throw PoolSizeTooSmall
  else if MAX_POOL_SIZE <? poolSize then Throw PoolSizeTooLarge
  else Ok true.

Record Pool : Type := {
  yesPool : float;
  noPool : float;
  liquidityConstant : float;
  initialPoolSize : float;
  initialYesPrice : float;
  initialNoPrice : float
}.

(** [liquidityPool.initializeAsymmetricPool], without its
    [console.warn]. *)
Definition initializeAsymmetricPool (MIN_POOL_SIZE MAX_POOL_SIZE
  totalLiquidity targetYesPrice : float) : result Pool :=
  if (targetYesPrice <=? 0) || (1 <=? targetYesPrice)
  then Throw TargetPriceOutOfRange
  else
    validatePoolSize MIN_POOL_SIZE MAX_POOL_SIZE (totalLiquidity / 2) ;;;
    let no := totalLiquidity * targetYesPrice in
    let yes := totalLiquidity - no in
    let k := yes * no in
    calculateYesPrice yes no ;;;
    Ok {| yesPool := yes;
          noPool := no;
          liquidityConstant := k;
          initialPoolSize := totalLiquidity / 2;
          initialYesPrice := targetYesPrice;
          initialNoPrice := 1 - targetYesPrice |}.

(** [liquidityPool.hasSufficientLiquidity] with its three arguments
    given *)
Definition hasSufficientLiquidity (betAmount outputPool maxUtilization
  : float) : bool :=
  let estimatedTokens := betAmount * 0.9 in
  let utilization := estimatedTokens / outputPool in
  utilization <=? maxUtilization.

(** The average utilisation of [liquidityPool.calculateUtilization] *)
Definition avgUtilization (currentYesPool currentNoPool initialPoolSize_
  : float) : float :=
  let yesUtilization :=
    abs (currentYesPool - initialPoolSize_) / initialPoolSize_ in
  let noUtilization :=
    abs (currentNoPool - initialPoolSize_) / initialPoolSize_ in
  (yesUtilization + noUtilization) / 2.

(** The levels of the warnings that [liquidityPool.getPoolHealth]
    collects, in its order; the pool is reported healthy when there is
    none. *)
Definition poolWarnings (MIN_POOL_SIZE yes no initialPoolSize_ : float)
  : list string :=
  let avg := avgUtilization yes no initialPoolSize_ in
  let high := if 0.8 <? avg then ["warning"%string] else [] in
  let critical := if 0.95 <? avg then ["critical"%string] else [] in
  let ratio := Math_max (yes / no) (no / yes) in
  let skewed := if 10 <? ratio then ["info"%string] else [] in
  let low :=
    if (yes <? MIN_POOL_SIZE) || (no <? MIN_POOL_SIZE)
    then ["critical"%string] else [] in
  (high ++ critical ++ skewed ++ low)%list.

Definition healthy (MIN_POOL_SIZE yes no initialPoolSize_ : float) : bool :=
  Nat.eqb (List.length (poolWarnings MIN_POOL_SIZE yes no initialPoolSize_)) 0.

Record MarketOdds : Type := {
  mo_yesPrice : float;
  mo_noPrice : float;
  mo_yesPool : float;
  mo_noPool : float;
  mo_liquidityConstant : float;
  mo_totalLiquidity : float
}.

(** [oddsCalculation.getMarketOdds] *)
Definition getMarketOdds (yesPool_ noPool_ k : float) : result MarketOdds :=
  yesPrice <- calculateYesPrice yesPool_ noPool_ ;;
  noPrice <- calculateNoPrice yesPool_ noPool_ ;;
  Ok {| mo_yesPrice := yesPrice;
        mo_noPrice := noPrice;
        mo_yesPool := yesPool_;
        mo_noPool := noPool_;
        mo_liquidityConstant := k;
        mo_totalLiquidity := yesPool_ + noPool_ |}.

End Float64.

(* ================================================================= *)
(** ** betting.service.js on binary64 numbers

    The settlement path once more, with the numbers the code computes
    with: the store holds binary64 values, and every operation is that of
    IEEE 754.  Both settlement methods are here: [placeBet], which hands
    its commit to [executeTransaction], and [placeBetWithOdds], which has
    its commit inline. *)

Module Betting64.

Import Float64.
#[local] Set Warnings "-inexact-float".
Local Open Scope float_scope.

(** *** The store

    One list of rows per table, as in [Betting]; the fault plan
    [Betting.Faults] says which writes the client refuses. *)

Record Market : Type := {
  market_id : string;
  status : string;
  pool_initialized : bool;
  yes_pool : float;
  no_pool : float;
  liquidity_constant : float;
  yes_price : float;
  no_price : float;
  total_volume : float
}.

Record Profile : Type := {
  profile_id : string;
  balance : float
}.

Record Bet : Type := {
  bet_id : nat;
  bet_market_id : string;
  bet_user_id : string;
  bet_outcome : string;
  amount : float;
  price : float;
  potential_return : float;
  bet_status : string;
  yes_pool_before : float;
  no_pool_before : float;
  yes_pool_after : float;
  no_pool_after : float;
  effective_price : float;
  bet_slippage : float;
  house_fee : float
}.

Record Position : Type := {
  position_id : nat;
  pos_user_id : string;
  pos_market_id : string;
  pos_outcome : string;
  shares : float;
  avg_price : float;
  total_invested : float;
  current_value : float
}.

Record Transaction : Type := {
  tx_user_id : string;
  tx_type : string;
  tx_amount : float;
  balance_after : float;
  reference_id : nat
}.

Record PricePoint : Type := {
  ph_market_id : string;
  ph_yes_price : float;
  ph_no_price : float;
  ph_yes_pool : float;
  ph_no_pool : float;
  ph_total_volume : float;
  ph_bet_id : nat
}.

Record DB : Type := {
  markets : list Market;
  profiles : list Profile;
  bets : list Bet;
  positions : list Position;
  transactions : list Transaction;
  price_history : list PricePoint
}.

Definition with_markets (rows : list Market) (db : DB) : DB :=
  {| markets := rows; profiles := profiles db; bets := bets db;
     positions := positions db; transactions := transactions db;
     price_history := price_history db |}.

Definition with_profiles (rows : list Profile) (db : DB) : DB :=
  {| markets := markets db; profiles := rows; bets := bets db;
     positions := positions db; transactions := transactions db;
     price_history := price_history db |}.

Definition with_bets (rows : list Bet) (db : DB) : DB :=
  {| markets := markets db; profiles := profiles db; bets := rows;
     positions := positions db; transactions := transactions db;
     price_history := price_history db |}.

Definition with_positions (rows : list Position) (db : DB) : DB :=
  {| markets := markets db; profiles := profiles db; bets := bets db;
     positions := rows; transactions := transactions db;
     price_history := price_history db |}.

Definition with_transactions (rows : list Transaction) (db : DB) : DB :=
  {| markets := markets db; profiles := profiles db; bets := bets db;
     positions := positions db; transactions := rows;
     price_history := price_history db |}.

Definition with_price_history (rows : list PricePoint) (db : DB) : DB :=
  {| markets := markets db; profiles := profiles db; bets := bets db;
     positions := positions db; transactions := transactions db;
     price_history := rows |}.

(** *** Calls that read or write the store *)

Definition M (A : Type) : Type := DB -> DB * result A.

Definition ret {A : Type} (a : A) : M A := fun db => (db, Ok a).

Definition lift {A : Type} (r : result A) : M A := fun db => (db, r).

Definition mbind {A B : Type} (m : M A) (f : A -> M B) : M B :=
  fun db =>
    match m db with
    | (db', Ok a) => f a db'
    | (db', Throw e) => (db', Throw e)
    end.

(** [try { ... } catch (error) { throw h(error) }] *)
Definition rethrow {A : Type} (m : M A) (h : Error -> Error) : M A :=
  fun db =>
    match m db with
    | (db', Ok a) => (db', Ok a)
    | (db', Throw e) => (db', Throw (h e))
    end.

Definition read {A : Type} (q : DB -> A) : M A := fun db => (db, Ok (q db)).

(** A write whose answer the caller inspects: it throws the client's
    error when the write is refused. *)
Definition write_checked (fails : bool) (t : Table) (w : DB -> DB)
  : M unit :=
  fun db => if fails then (db, Throw (ClientError t)) else (w db, Ok tt).

(** A write whose answer the caller drops. *)
Definition write_unchecked (fails : bool) (w : DB -> DB) : M unit :=
  fun db => if fails then (db, Ok tt) else (w db, Ok tt).

Notation "x <~ m ;; k" := (mbind m (fun x => k))
  (at level 61, m at next level, right associativity).
Notation "m >>> k" := (mbind m (fun _ => k))
  (at level 61, right associativity).

(** *** What both settlement methods share *)

Definition getMarket (marketId : string) : M Market :=
  fun db =>
    match Betting.single
            (filter (fun m => String.eqb (market_id m) marketId)
               (markets db)) with
    | Some market => (db, Ok market)
    | None => (db, Throw MarketNotFound)
    end.

Definition getUserProfile (userId : string) : M Profile :=
  fun db =>
    match Betting.single
            (filter (fun p => String.eqb (profile_id p) userId)
               (profiles db)) with
    | Some profile => (db, Ok profile)
    | None => (db, Throw UserProfileNotFound)
    end.

Definition validateBetInputs (marketId userId outcome : string)
  (betAmount : float) : result unit :=
  if String.eqb marketId "" || String.eqb userId ""
  then Throw IdsRequired
  else if negb (String.eqb outcome OUTCOMES_YES
                || String.eqb outcome OUTCOMES_NO)
  then Throw OutcomeInvalid
  else if falsy betAmount || (betAmount <=? 0)
  then Throw BetAmountInvalid
  else Ok tt.

Definition validateMarketState (market : Market) : result unit :=
  if negb (pool_initialized market) then Throw PoolNotInitialized
  else if negb (String.eqb (status market) Betting.MARKET_STATUS_ACTIVE)
  then Throw MarketNotActive
  else Ok tt.

Definition validateUserBalance (profile : Profile) (betAmount : float)
  : result unit :=
  if parseFloat (balance profile) <? betAmount
  then Throw InsufficientBalance
  else Ok tt.

(** The position of (user, market, outcome), when the query selects
    exactly one row. *)
Definition existingPosition (userId marketId outcome : string) (db : DB)
  : option Position :=
  Betting.single
    (filter (fun p => String.eqb (pos_user_id p) userId
                      && String.eqb (pos_market_id p) marketId
                      && String.eqb (pos_outcome p) outcome)
       (positions db)).

(** [updatePosition]; neither the answer of the read nor that of the
    write is inspected. *)
Definition updatePosition (fails : bool) (userId marketId outcome : string)
  (amount_ shares_ avgPrice : float) : M unit :=
  existing <~ read (existingPosition userId marketId outcome) ;;
  match existing with
  | Some old =>
      let newShares := parseFloat (shares old) + shares_ in
      let newTotalInvested := parseFloat (total_invested old) + amount_ in
      let newAvgPrice := newTotalInvested / newShares in
      write_unchecked fails (fun db =>
        with_positions
          (Betting.update_where
             (fun p => Nat.eqb (position_id p) (position_id old))
             (fun p => {| position_id := position_id p;
                          pos_user_id := pos_user_id p;
                          pos_market_id := pos_market_id p;
                          pos_outcome := pos_outcome p;
                          shares := newShares;
                          avg_price := newAvgPrice;
                          total_invested := newTotalInvested;
                          current_value := newShares * avgPrice |})
             (positions db)) db)
  | None =>
      write_unchecked fails (fun db =>
        with_positions
          (positions db ++
           [{| position_id := List.length (positions db);
               pos_user_id := userId;
               pos_market_id := marketId;
               pos_outcome := outcome;
               shares := shares_;
               avg_price := avgPrice;
               total_invested := amount_;
               current_value := amount_ |}])%list db)
  end.

(** *** [placeBet] and [executeTransaction] *)

Record TxParams : Type := {
  p_marketId : string;
  p_userId : string;
  p_outcome : string;
  p_betAmount : float;
  p_netAmount : float;
  p_houseFee : float;
  p_tokensReceived : float;
  p_effectivePrice : float;
  p_slippage : float;
  p_priceBeforeBet : float;
  p_yesPoolBefore : float;
  p_noPoolBefore : float;
  p_yesPoolAfter : float;
  p_noPoolAfter : float;
  p_newYesPrice : float;
  p_newNoPrice : float;
  p_market : Market;
  p_profile : Profile
}.

Record BetResult : Type := {
  r_betId : nat;
  r_marketId : string;
  r_outcome : string;
  r_grossAmount : float;
  r_netAmount : float;
  r_houseFee : float;
  r_tokensReceived : float;
  r_effectivePrice : float;
  r_slippage : float;
  r_priceBeforeBet : float;
  r_newYesPrice : float;
  r_newNoPrice : float;
  r_newYesPool : float;
  r_newNoPool : float;
  r_potentialPayout : float;
  r_potentialProfit : float
}.

(** [.from('bets').insert(...).select().single()], answer inspected *)
Definition insert_bet (fails : bool) (mk : nat -> Bet) : M Bet :=
  fun db =>
    if fails then (db, Throw (ClientError t_bets))
    else
      let bet := mk (List.length (bets db)) in
      (with_bets (bets db ++ [bet])%list db, Ok bet).

Definition executeTransaction (f : Betting.Faults) (p : TxParams)
  : M BetResult :=
  let volume :=
    parseFloat (or_else (total_volume (p_market p)) 0) + p_betAmount p in
  (* Update market pools and prices *)
  write_checked (Betting.markets_update_fails f) t_markets (fun db =>
    with_markets
      (Betting.update_where
         (fun m => String.eqb (market_id m) (p_marketId p))
         (fun m => {| market_id := market_id m;
                      status := status m;
                      pool_initialized := pool_initialized m;
                      yes_pool := p_yesPoolAfter p;
                      no_pool := p_noPoolAfter p;
                      liquidity_constant := liquidity_constant m;
                      yes_price := p_newYesPrice p;
                      no_price := p_newNoPrice p;
                      total_volume := volume |})
         (markets db)) db) >>>
  (* Create bet record *)
  bet <~ insert_bet (Betting.bets_insert_fails f) (fun id =>
    {| bet_id := id;
       bet_market_id := p_marketId p;
       bet_user_id := p_userId p;
       bet_outcome := p_outcome p;
       amount := p_betAmount p;
       price := p_priceBeforeBet p;
       potential_return := p_tokensReceived p;
       bet_status := Betting.BET_STATUS_MATCHED;
       yes_pool_before := p_yesPoolBefore p;
       no_pool_before := p_noPoolBefore p;
       yes_pool_after := p_yesPoolAfter p;
       no_pool_after := p_noPoolAfter p;
       effective_price := p_effectivePrice p;
       bet_slippage := p_slippage p;
       house_fee := p_houseFee p |}) ;;
  (* Update user balance *)
  let newBalance := parseFloat (balance (p_profile p)) - p_betAmount p in
  write_checked (Betting.profiles_update_fails f) t_profiles (fun db =>
    with_profiles
      (Betting.update_where
         (fun q => String.eqb (profile_id q) (p_userId p))
         (fun q => {| profile_id := profile_id q; balance := newBalance |})
         (profiles db)) db) >>>
  (* Update or create position *)
  updatePosition (Betting.positions_write_fails f) (p_userId p)
    (p_marketId p) (p_outcome p) (p_netAmount p) (p_tokensReceived p)
    (p_effectivePrice p) >>>
  (* Log transaction *)
  write_unchecked (Betting.transactions_insert_fails f) (fun db =>
    with_transactions
      (transactions db ++
       [{| tx_user_id := p_userId p;
           tx_type := "bet";
           tx_amount := p_betAmount p;
           balance_after := newBalance;
           reference_id := bet_id bet |}])%list db) >>>
  (* Record price history *)
  write_unchecked (Betting.price_history_insert_fails f) (fun db =>
    with_price_history
      (price_history db ++
       [{| ph_market_id := p_marketId p;
           ph_yes_price := p_newYesPrice p;
           ph_no_price := p_newNoPrice p;
           ph_yes_pool := p_yesPoolAfter p;
           ph_no_pool := p_noPoolAfter p;
           ph_total_volume := volume;
           ph_bet_id := bet_id bet |}])%list db) >>>
  ret {| r_betId := bet_id bet;
         r_marketId := p_marketId p;
         r_outcome := p_outcome p;
         r_grossAmount := p_betAmount p;
         r_netAmount := p_netAmount p;
         r_houseFee := p_houseFee p;
         r_tokensReceived := p_tokensReceived p;
         r_effectivePrice := p_effectivePrice p;
         r_slippage := p_slippage p;
         r_priceBeforeBet := p_priceBeforeBet p;
         r_newYesPrice := p_newYesPrice p;
         r_newNoPrice := p_newNoPrice p;
         r_newYesPool := p_yesPoolAfter p;
         r_newNoPool := p_noPoolAfter p;
         r_potentialPayout := p_tokensReceived p;
         r_potentialProfit := p_tokensReceived p - p_betAmount p |}.

(** Steps 3 to 8 of [placeBet]: everything that is computed from the
    snapshots of the market and of the profile before the first write.
    [HOUSE_MARGIN] is the margin of the margin service. *)
Definition priceBet (HOUSE_MARGIN : float)
  (marketId userId outcome : string) (betAmount : float)
  (market : Market) (profile : Profile) : result TxParams :=
  (* 3. Apply house margin *)
  margin <- applyMargin HOUSE_MARGIN betAmount ;;
  let netAmount := fst margin in
  let houseFee := snd margin in
  (* 4. Current pools and price before the bet *)
  let yesPoolBefore := parseFloat (yes_pool market) in
  let noPoolBefore := parseFloat (no_pool market) in
  let k := parseFloat (liquidity_constant market) in
  validatePoolState yesPoolBefore noPoolBefore k ;;;
  priceBeforeBet <- (if String.eqb outcome OUTCOMES_YES
                     then calculateYesPrice yesPoolBefore noPoolBefore
                     else calculateNoPrice yesPoolBefore noPoolBefore) ;;
  (* 5. Tokens received *)
  pools <- tradePools outcome netAmount yesPoolBefore noPoolBefore k ;;
  let '(tokensReceived, yesPoolAfter, noPoolAfter) := pools in
  (* 6. Effective price and slippage *)
  effectivePrice <- calculateEffectivePrice netAmount tokensReceived ;;
  let slippage := calculateSlippage priceBeforeBet effectivePrice in
  (* 7. New prices *)
  newYesPrice <- calculateYesPrice yesPoolAfter noPoolAfter ;;
  newNoPrice <- calculateNoPrice yesPoolAfter noPoolAfter ;;
  (* 8. Verify constant product is maintained *)
  if constantViolated yesPoolAfter noPoolAfter k
  then Throw LiquidityConstantViolated
  else
    Ok {| p_marketId := marketId;
          p_userId := userId;
          p_outcome := outcome;
          p_betAmount := betAmount;
          p_netAmount := netAmount;
          p_houseFee := houseFee;
          p_tokensReceived := tokensReceived;
          p_effectivePrice := effectivePrice;
          p_slippage := slippage;
          p_priceBeforeBet := priceBeforeBet;
          p_yesPoolBefore := yesPoolBefore;
          p_noPoolBefore := noPoolBefore;
          p_yesPoolAfter := yesPoolAfter;
          p_noPoolAfter := noPoolAfter;
          p_newYesPrice := newYesPrice;
          p_newNoPrice := newNoPrice;
          p_market := market;
          p_profile := profile |}.

Definition placeBet (HOUSE_MARGIN : float) (f : Betting.Faults)
  (marketId userId outcome : string) (betAmount : float) : M BetResult :=
  lift (validateBetInputs marketId userId outcome betAmount) >>>
  (* 1. Current market state *)
  market <~ getMarket marketId ;;
  lift (validateMarketState market) >>>
  (* 2. User profile and balance *)
  profile <~ getUserProfile userId ;;
  lift (validateUserBalance profile betAmount) >>>
  (* 3 to 8 *)
  params <~ lift (priceBet HOUSE_MARGIN marketId userId outcome betAmount
                    market profile) ;;
  (* 9. Execute database transaction *)
  rethrow (executeTransaction f params) BetProcessingFailed.

(** *** [placeBetWithOdds] *)

(** What steps 3 to 8 of [placeBetWithOdds] compute. *)
Record OddsParams : Type := {
  o_marketId : string;
  o_userId : string;
  o_outcome : string;
  o_betAmount : float;
  o_netAmount : float;
  o_houseFee : float;
  o_currentProbability : float;
  o_oddsAtBet : float;
  o_payout : float;
  o_profit : float;
  o_yesPoolBefore : float;
  o_noPoolBefore : float;
  o_yesPoolAfter : float;
  o_noPoolAfter : float;
  o_newYesPrice : float;
  o_newNoPrice : float;
  o_newYesOdds : float;
  o_newNoOdds : float;
  o_market : Market;
  o_profile : Profile
}.

Record OddsBetResult : Type := {
  ob_betId : nat;
  ob_marketId : string;
  ob_outcome : string;
  ob_stake : float;
  ob_stakeAfterFee : float;
  ob_houseFee : float;
  ob_oddsAtBet : float;
  ob_oddsFormatted : string;
  ob_potentialPayout : float;
  ob_potentialProfit : float;
  ob_newYesOdds : float;
  ob_newNoOdds : float;
  ob_newYesOddsFormatted : string;
  ob_newNoOddsFormatted : string;
  ob_category : string
}.

(** [const { data: bet } = await ... .insert(...).select().single()]: the
    answer's error is not looked at, and [bet] is [null] when the insert
    was refused. *)
Definition insert_bet_unchecked (fails : bool) (mk : nat -> Bet)
  : M (option Bet) :=
  fun db =>
    if fails then (db, Ok None)
    else
      let bet := mk (List.length (bets db)) in
      (with_bets (bets db ++ [bet])%list db, Ok (Some bet)).

(** [bet.id]: a [TypeError] when [bet] is [null]. *)
Definition id_of (bet : option Bet) : M nat :=
  match bet with
  | Some b => ret (bet_id b)
  | None => lift (Throw BetRowMissing)
  end.

Section OddsMode.

(** [Number.prototype.toFixed], which renders a number with the given
    number of decimals. *)
Variable toFixed : float -> nat -> string.

(** [oddsConverter.formatOdds] with its default format, ['decimal'], the
    only one the betting service asks for. *)
Definition formatOdds (odds_ : float) : string :=
  (toFixed odds_ 2 ++ "x")%string.

(** Step 9 of [placeBetWithOdds], the body of its [try]: the same six
    writes, none of whose answers is inspected. *)
Definition executeOddsTransaction (f : Betting.Faults) (o : OddsParams)
  : M OddsBetResult :=
  let volume :=
    parseFloat (or_else (total_volume (o_market o)) 0) + o_betAmount o in
  (* Update market *)
  write_unchecked (Betting.markets_update_fails f) (fun db =>
    with_markets
      (Betting.update_where
         (fun m => String.eqb (market_id m) (o_marketId o))
         (fun m => {| market_id := market_id m;
                      status := status m;
                      pool_initialized := pool_initialized m;
                      yes_pool := o_yesPoolAfter o;
                      no_pool := o_noPoolAfter o;
                      liquidity_constant := liquidity_constant m;
                      yes_price := o_newYesPrice o;
                      no_price := o_newNoPrice o;
                      total_volume := volume |})
         (markets db)) db) >>>
  (* Create bet record *)
  bet <~ insert_bet_unchecked (Betting.bets_insert_fails f) (fun id =>
    {| bet_id := id;
       bet_market_id := o_marketId o;
       bet_user_id := o_userId o;
       bet_outcome := o_outcome o;
       amount := o_betAmount o;
       price := o_currentProbability o;
       potential_return := o_payout o;
       bet_status := Betting.BET_STATUS_MATCHED;
       yes_pool_before := o_yesPoolBefore o;
       no_pool_before := o_noPoolBefore o;
       yes_pool_after := o_yesPoolAfter o;
       no_pool_after := o_noPoolAfter o;
       effective_price := o_oddsAtBet o;
       bet_slippage := 0;
       house_fee := o_houseFee o |}) ;;
  (* Update user balance *)
  let newBalance := parseFloat (balance (o_profile o)) - o_betAmount o in
  write_unchecked (Betting.profiles_update_fails f) (fun db =>
    with_profiles
      (Betting.update_where
         (fun q => String.eqb (profile_id q) (o_userId o))
         (fun q => {| profile_id := profile_id q; balance := newBalance |})
         (profiles db)) db) >>>
  (* Update position (using payout as "shares") *)
  updatePosition (Betting.positions_write_fails f) (o_userId o)
    (o_marketId o) (o_outcome o) (o_netAmount o) (o_payout o)
    (o_oddsAtBet o) >>>
  (* Log transaction *)
  reference <~ id_of bet ;;
  write_unchecked (Betting.transactions_insert_fails f) (fun db =>
    with_transactions
      (transactions db ++
       [{| tx_user_id := o_userId o;
           tx_type := "bet";
           tx_amount := o_betAmount o;
           balance_after := newBalance;
           reference_id := reference |}])%list db) >>>
  (* Record price history *)
  write_unchecked (Betting.price_history_insert_fails f) (fun db =>
    with_price_history
      (price_history db ++
       [{| ph_market_id := o_marketId o;
           ph_yes_price := o_newYesPrice o;
           ph_no_price := o_newNoPrice o;
           ph_yes_pool := o_yesPoolAfter o;
           ph_no_pool := o_noPoolAfter o;
           ph_total_volume := volume;
           ph_bet_id := reference |}])%list db) >>>
  (* Return odds-based result *)
  ret {| ob_betId := reference;
         ob_marketId := o_marketId o;
         ob_outcome := o_outcome o;
         ob_stake := o_betAmount o;
         ob_stakeAfterFee := o_netAmount o;
         ob_houseFee := o_houseFee o;
         ob_oddsAtBet := o_oddsAtBet o;
         ob_oddsFormatted := formatOdds (o_oddsAtBet o);
         ob_potentialPayout := o_payout o;
         ob_potentialProfit := o_profit o;
         ob_newYesOdds := o_newYesOdds o;
         ob_newNoOdds := o_newNoOdds o;
         ob_newYesOddsFormatted := formatOdds (o_newYesOdds o);
         ob_newNoOddsFormatted := formatOdds (o_newNoOdds o);
         ob_category := getOddsCategory (o_oddsAtBet o) |}.

(** Steps 3 to 8 of [placeBetWithOdds].  The state of the pool is not
    validated and the product is not checked after the trade. *)
Definition priceOddsBet (HOUSE_MARGIN : float)
  (marketId userId outcome : string) (betAmount : float)
  (market : Market) (profile : Profile) : result OddsParams :=
  (* 3. Current pools *)
  let yesPoolBefore := parseFloat (yes_pool market) in
  let noPoolBefore := parseFloat (no_pool market) in
  let k := parseFloat (liquidity_constant market) in
  (* 4. Current probability and odds *)
  currentProbability <- (if String.eqb outcome OUTCOMES_YES
                         then calculateYesPrice yesPoolBefore noPoolBefore
                         else calculateNoPrice yesPoolBefore noPoolBefore) ;;
  fairOdds <- probabilityToOdds currentProbability ;;
  (* 5. Apply house margin *)
  margin <- applyMargin HOUSE_MARGIN betAmount ;;
  let netAmount := fst margin in
  let houseFee := snd margin in
  let oddsAtBet := applyMarginToOdds fairOdds HOUSE_MARGIN in
  (* 6. Payout *)
  let pay := calculatePayout netAmount oddsAtBet in
  (* 7. Use CPMM to update pools *)
  pools <- tradePools outcome netAmount yesPoolBefore noPoolBefore k ;;
  let '(_, yesPoolAfter, noPoolAfter) := pools in
  (* 8. New prices and odds *)
  newYesPrice <- calculateYesPrice yesPoolAfter noPoolAfter ;;
  newNoPrice <- calculateNoPrice yesPoolAfter noPoolAfter ;;
  newYesOdds <- probabilityToOdds newYesPrice ;;
  newNoOdds <- probabilityToOdds newNoPrice ;;
  Ok {| o_marketId := marketId;
        o_userId := userId;
        o_outcome := outcome;
        o_betAmount := betAmount;
        o_netAmount := netAmount;
        o_houseFee := houseFee;
        o_currentProbability := currentProbability;
        o_oddsAtBet := oddsAtBet;
        o_payout := payout pay;
        o_profit := profit pay;
        o_yesPoolBefore := yesPoolBefore;
        o_noPoolBefore := noPoolBefore;
        o_yesPoolAfter := yesPoolAfter;
        o_noPoolAfter := noPoolAfter;
        o_newYesPrice := newYesPrice;
        o_newNoPrice := newNoPrice;
        o_newYesOdds := newYesOdds;
        o_newNoOdds := newNoOdds;
        o_market := market;
        o_profile := profile |}.

Definition placeBetWithOdds (HOUSE_MARGIN : float) (f : Betting.Faults)
  (marketId userId outcome : string) (betAmount : float)
  : M OddsBetResult :=
  lift (validateBetInputs marketId userId outcome betAmount) >>>
  (* 1. Market *)
  market <~ getMarket marketId ;;
  lift (validateMarketState market) >>>
  (* 2. User profile and balance *)
  profile <~ getUserProfile userId ;;
  lift (validateUserBalance profile betAmount) >>>
  (* 3 to 8 *)
  params <~ lift (priceOddsBet HOUSE_MARGIN marketId userId outcome
                    betAmount market profile) ;;
  (* 9. Execute database transaction *)
  rethrow (executeOddsTransaction f params) BetProcessingFailed.

End OddsMode.

(** *** [getMarketOdds]: a single read of the market, then arithmetic *)

Record MarginPrices : Type := {
  mp_yes : Prices;
  mp_no : Prices
}.

Record OddsData : Type := {
  od_marketId : string;
  od_yesPrice : float;
  od_noPrice : float;
  od_yesPool : float;
  od_noPool : float;
  od_liquidityConstant : float;
  od_totalLiquidity : float;
  od_pricesWithMargin : MarginPrices
}.

Definition getMarketOdds (HOUSE_MARGIN : float) (marketId : string)
  (db : DB) : outcome OddsData :=
  market <-- of_result (snd (getMarket marketId db)) ;;
  if negb (pool_initialized market) then Failed PoolNotInitializedUncoded
  else
    let yesPool := parseFloat (yes_pool market) in
    let noPool := parseFloat (no_pool market) in
    let k := parseFloat (liquidity_constant market) in
    baseOdds <-- of_result (Float64.getMarketOdds yesPool noPool k) ;;
    yesPrices <-- applyMarginToPrices HOUSE_MARGIN (mo_yesPrice baseOdds) ;;
    noPrices <-- applyMarginToPrices HOUSE_MARGIN (mo_noPrice baseOdds) ;;
    Done {| od_marketId := marketId;
            od_yesPrice := mo_yesPrice baseOdds;
            od_noPrice := mo_noPrice baseOdds;
            od_yesPool := yesPool;
            od_noPool := noPool;
            od_liquidityConstant := k;
            od_totalLiquidity := mo_totalLiquidity baseOdds;
            od_pricesWithMargin :=
              {| mp_yes := yesPrices; mp_no := noPrices |} |}.

End Betting64.

(* ================================================================= *)
(** ** Concrete inputs *)

Module Scenario.

Import Betting.

(** The margin service of a process started without [HOUSE_MARGIN]: 2%. *)
Definition house : HouseMargin.HouseMarginService :=
  HouseMargin.constructor NaN.

(** Scenario A: the symmetric pool of size 1000. *)
Definition market_A : Market :=
  {| market_id := "m1";
     status := "active";
     pool_initialized := true;
     yes_pool := Fin 1000;
     no_pool := Fin 1000;
     liquidity_constant := Fin 1000000;
     yes_price := Fin 0.5;
     no_price := Fin 0.5;
     total_volume := Fin 0 |}.

Definition profile_A : Profile :=
  {| profile_id := "u1"; balance := Fin 500 |}.

Definition db_A : DB :=
  {| markets := [market_A];
     profiles := [profile_A];
     bets := [];
     positions := [];
     transactions := [];
     price_history := [] |}.

(** A bet of 100 on yes in scenario A, under the fault plan [f]. *)
Definition bet_A (f : Faults) : DB * result BetResult :=
  placeBet house f "m1" "u1" "yes" (Fin 100) db_A.


End Scenario.

(** The same scenario on the binary64 store. *)
Module Scenario64.

Import Betting64.
#[local] Set Warnings "-inexact-float".
Local Open Scope float_scope.

(** The margin of a process started without [HOUSE_MARGIN]. *)
Definition HOUSE_MARGIN : float := 0.02.

Definition market_A : Market :=
  {| market_id := "m1";
     status := "active";
     pool_initialized := true;
     yes_pool := 1000;
     no_pool := 1000;
     liquidity_constant := 1000000;
     yes_price := 0.5;
     no_price := 0.5;
     total_volume := 0 |}.

Definition profile_A : Profile :=
  {| profile_id := "u1"; balance := 500 |}.

Definition db_A : DB :=
  {| markets := [market_A];
     profiles := [profile_A];
     bets := [];
     positions := [];
     transactions := [];
     price_history := [] |}.

(** The same store with a balance of 1e17, where one unit is below the
    spacing of the binary64 numbers. *)
Definition db_rich : DB :=
  {| markets := [market_A];
     profiles := [{| profile_id := "u1"; balance := 1e17 |}];
     bets := [];
     positions := [];
     transactions := [];
     price_history := [] |}.

(** A store whose only market has the pools [yes] and [no] and their
    binary64 product as constant, and whose only user has [funds]. *)
Definition db_with (yes no funds : float) : DB :=
  {| markets := [{| market_id := "m1";
                    status := "active";
                    pool_initialized := true;
                    yes_pool := yes;
                    no_pool := no;
                    liquidity_constant := yes * no;
                    yes_price := no / (yes + no);
                    no_price := yes / (yes + no);
                    total_volume := 0 |}];
     profiles := [{| profile_id := "u1"; balance := funds |}];
     bets := [];
     positions := [];
     transactions := [];
     price_history := [] |}.

(** The client answers the update of [profiles] with an error. *)
Definition profiles_fail : Betting.Faults :=
  {| Betting.markets_update_fails := false;
     Betting.bets_insert_fails := false;
     Betting.profiles_update_fails := true;
     Betting.positions_write_fails := false;
     Betting.transactions_insert_fails := false;
     Betting.price_history_insert_fails := false |}.

(** [toFixed] is not computed here: the formatted strings of a result are
    left empty. *)
Definition toFixed (x : float) (digits : nat) : string := "".

End Scenario64.

(* ================================================================= *)
(** ** Notions used in the statements *)

(** The pool that receives the stake and the pool that pays the tokens. *)
Definition inputOf (outcome : string) (y n : Q) : Q :=
  if String.eqb outcome "yes" then n else y.

Definition outputOf (outcome : string) (y n : Q) : Q :=
  if String.eqb outcome "yes" then y else n.

(** The words of the specification that the statements compare the code
    with. *)
Module Spec.

#[local] Set Warnings "-inexact-float".

(** The error kinds of the specification that the functions of the
    pricing engine fail with, and the kind that each thrown message stands
    for.  The code throws plain [Error] objects here: the kind is carried
    by the message alone. *)
Inductive ErrorKind : Type :=
| DegeneratePool
| InvalidAmount
| PoolExhausted
| InvariantViolation.


(** What a call is observed to do: return a value, or fail with a kind. *)
Inductive observed (A : Type) : Type :=
| Returns (a : A)
| Fails (k : option ErrorKind).
Arguments Fails {A} k.


(** [tokensOut] as the specification words it, on binary64 numbers:
    [newInput = inputReserve + betNet], [newOutput = k / newInput],
    [tokensOut = outputReserve - newOutput]; it fails with [InvalidAmount]
    if [betNet <= 0], with [PoolExhausted] if [tokensOut >= outputReserve]
    or [tokensOut <= 0], and returns [tokensOut] otherwise. *)
Definition tokensOut (betNet inputReserve outputReserve k : float)
  : observed float :=
  if (betNet <=? 0)%float then Fails (Some InvalidAmount)
  else
    let newInput := (inputReserve + betNet)%float in
    let newOutput := (k / newInput)%float in
    let tokensOut := (outputReserve - newOutput)%float in
    if ((outputReserve <=? tokensOut) || (tokensOut <=? 0))%float
    then Fails (Some PoolExhausted)
    else Returns tokensOut.


End Spec.

(** The six effects of a settlement on the binary64 store, as they can be
    observed in the store [db'] reached from [db].  Each says what has
    been written and that the rest of its table is as it was. *)
Module Effects.

Import Float64 Betting64.
Local Open Scope float_scope.


(** The values that [placeBetWithOdds] commits, under the names of
    [executeTransaction]: the payout stands where the tokens do, the odds
    where the effective price does, and the slippage is 0. *)
Definition asTx (o : OddsParams) : TxParams :=
  {| p_marketId := o_marketId o;
     p_userId := o_userId o;
     p_outcome := o_outcome o;
     p_betAmount := o_betAmount o;
     p_netAmount := o_netAmount o;
     p_houseFee := o_houseFee o;
     p_tokensReceived := o_payout o;
     p_effectivePrice := o_oddsAtBet o;
     p_slippage := 0;
     p_priceBeforeBet := o_currentProbability o;
     p_yesPoolBefore := o_yesPoolBefore o;
     p_noPoolBefore := o_noPoolBefore o;
     p_yesPoolAfter := o_yesPoolAfter o;
     p_noPoolAfter := o_noPoolAfter o;
     p_newYesPrice := o_newYesPrice o;
     p_newNoPrice := o_newNoPrice o;
     p_market := o_market o;
     p_profile := o_profile o |}.


Definition balanceAfter (p : TxParams) : float :=
  parseFloat (balance (p_profile p)) - p_betAmount p.



(** Every row of the user holds the new balance; every other row of
    [profiles] is as it was. *)
Definition debited (userId : string) (newBalance : float) (db db' : DB)
  : Prop :=
  Forall2
    (fun q q' =>
       if String.eqb (profile_id q) userId
       then q' = {| profile_id := profile_id q; balance := newBalance |}
       else q' = q)
    (profiles db) (profiles db').





End Effects.

(** The errors of steps 3 to 8. *)
Definition pricing_error (e : Error) : Prop :=
  In e [BetAmountMustBePositive; PoolSizesMustBePositive; PoolStateInvalid;
        TotalPoolCannotBeZero; BetTooLarge; NoTokensReceived;
        ZeroTokensPrice; LiquidityConstantViolated].

(* ================================================================= *)
(** ** Numbers: finite values *)

Unset Implicit Arguments.
Local Open Scope Q_scope.

Lemma Qltb_lt (a b : Q) : Qltb a b = true <-> a < b.
Proof.
  unfold Qltb. rewrite negb_true_iff. split; intro H.
  - apply Qnot_le_lt. intro L. apply Qle_bool_iff in L. congruence.
  - destruct (Qle_bool b a) eqn:E; [|reflexivity].
    apply Qle_bool_iff in E. exfalso. apply (Qlt_not_le a b); assumption.
Qed.

Lemma Qltb_ge (a b : Q) : Qltb a b = false <-> b <= a.
Proof.
  unfold Qltb. rewrite negb_false_iff. apply Qle_bool_iff.
Qed.

Lemma Qle_bool_gt (a b : Q) : Qle_bool a b = false <-> b < a.
Proof.
  rewrite <- Qltb_lt. unfold Qltb. rewrite negb_true_iff. reflexivity.
Qed.

Lemma Qeq_bool_false (a b : Q) : Qeq_bool a b = false <-> ~ a == b.
Proof.
  split; intro H.
  - apply Qeq_bool_neq; assumption.
  - destruct (Qeq_bool a b) eqn:E; [|reflexivity].
    apply Qeq_bool_iff in E. contradiction.
Qed.

Lemma ndiv_fin (a b : Q) : ~ b == 0 -> (Fin a / Fin b)%num = Fin (a / b).
Proof.
  intro H. simpl. apply Qeq_bool_false in H. rewrite H. reflexivity.
Qed.

Lemma nle_fin (a b : Q) : (Fin a <=? Fin b)%num = true <-> a <= b.
Proof. simpl. apply Qle_bool_iff. Qed.

Lemma nle_fin_false (a b : Q) : (Fin a <=? Fin b)%num = false <-> b < a.
Proof. simpl. apply Qle_bool_gt. Qed.

Lemma nlt_fin (a b : Q) : (Fin a <? Fin b)%num = true <-> a < b.
Proof. simpl. apply Qltb_lt. Qed.

Lemma nlt_fin_false (a b : Q) : (Fin a <? Fin b)%num = false <-> b <= a.
Proof. simpl. apply Qltb_ge. Qed.

Lemma neqb_fin (a b : Q) : (Fin a === Fin b)%num = true <-> a == b.
Proof. simpl. apply Qeq_bool_iff. Qed.

Lemma neqb_fin_false (a b : Q) : (Fin a === Fin b)%num = false <-> ~ a == b.
Proof. simpl. apply Qeq_bool_false. Qed.

(* ================================================================= *)
(** ** Pricing engine *)

Section Prices.

Import OddsCalculation.
#[local] Set Warnings "-inexact-float".

Lemma calculateYesPrice_fin (y n : Q) :
  ~ y + n == 0 ->
  calculateYesPrice (Fin y) (Fin n) = Ok (Fin (n / (y + n))).
Proof.
  intro H. unfold calculateYesPrice. cbn [nadd neqb].
  apply Qeq_bool_false in H. rewrite H.
  cbn [ndiv]. rewrite H. reflexivity.
Qed.

Lemma calculateNoPrice_fin (y n : Q) :
  ~ y + n == 0 ->
  calculateNoPrice (Fin y) (Fin n) = Ok (Fin (y / (y + n))).
Proof.
  intro H. unfold calculateNoPrice. cbn [nadd neqb].
  apply Qeq_bool_false in H. rewrite H.
  cbn [ndiv]. rewrite H. reflexivity.
Qed.





(** The same on finite inputs, with the order of the rationals. *)
Lemma calculateTokensReceived_fin (b i o k : Q) :
  0 < b -> ~ i + b == 0 ->
  0 < o - k / (i + b) -> o - k / (i + b) < o ->
  calculateTokensReceived (Fin b) (Fin i) (Fin o) (Fin k)
  = Ok (Fin (o - k / (i + b))).
Proof.
  intros Hb Hnz Hpos Hlt. unfold calculateTokensReceived.
  apply nle_fin_false in Hb. rewrite Hb.
  cbn [nadd]. rewrite (ndiv_fin _ _ Hnz). cbn [nsub].
  apply nle_fin_false in Hlt, Hpos. rewrite Hlt, Hpos. reflexivity.
Qed.

Lemma calculateTokensReceived_fin_inv (b i o k : Q) (t : num) :
  0 < i ->
  calculateTokensReceived (Fin b) (Fin i) (Fin o) (Fin k) = Ok t ->
  0 < b /\ t = Fin (o - k / (i + b))
  /\ 0 < o - k / (i + b) /\ o - k / (i + b) < o.
Proof.
  intros Hi. unfold calculateTokensReceived.
  destruct (Fin b <=? Fin 0)%num eqn:Eb; [discriminate|].
  apply nle_fin_false in Eb.
  assert (Hnz : ~ i + b == 0) by lra.
  cbn [nadd]. rewrite (ndiv_fin _ _ Hnz). cbn [nsub].
  destruct (Fin (o - k / (i + b)) >=? Fin o)%num eqn:E1; [discriminate|].
  destruct (Fin (o - k / (i + b)) <=? Fin 0)%num eqn:E2; [discriminate|].
  apply nle_fin_false in E1, E2.
  intro H. injection H as <-. auto.
Qed.

End Prices.

(* ================================================================= *)
(** ** Pool initialisation *)

Section Pools.

Import LiquidityPool.

(** C10 -- the pool-size precondition of the asymmetric initialisation.
    With a valid target price, [initializeAsymmetricPool] throws the
    'too small' error whenever half of the total liquidity is below 100 and
    the 'too large' error whenever it is above 100000; in particular every
    call with a total liquidity below 200 fails. *)
Theorem asymmetric_pool_size_precondition
  (env : num) (totalLiquidity targetYesPrice : Q) :
  0 < targetYesPrice -> targetYesPrice < 1 ->
  let r := initializeAsymmetricPool (constructor env)
             (Fin totalLiquidity) (Fin targetYesPrice) in
  (totalLiquidity / 2 < 100 -> r = Throw PoolSizeTooSmall) /\
  (100000 < totalLiquidity / 2 -> r = Throw PoolSizeTooLarge) /\
  (totalLiquidity < 200 -> r = Throw PoolSizeTooSmall).
Proof.
  intros H0 H1 r. subst r. unfold initializeAsymmetricPool.
  assert (E0 : (Fin targetYesPrice <=? Fin 0)%num = false)
    by (apply nle_fin_false; exact H0).
  assert (E1 : (Fin targetYesPrice >=? Fin 1)%num = false)
    by (apply nle_fin_false; exact H1).
  rewrite E0, E1. cbn [orb].
  rewrite ndiv_fin by (intro H; discriminate H).
  unfold validatePoolSize. cbn [constructor MIN_POOL_SIZE MAX_POOL_SIZE].
  assert (Small : totalLiquidity / 2 < 100 ->
          (Fin (totalLiquidity / 2) <? Fin 100)%num = true)
    by (intro H; apply nlt_fin; exact H).
  repeat split.
  - intro H. rewrite (Small H). reflexivity.
  - intro H.
    assert (E2 : (Fin (totalLiquidity / 2) <? Fin 100)%num = false)
      by (apply nlt_fin_false; lra).
    assert (E3 : (Fin (totalLiquidity / 2) >? Fin 100000)%num = true)
      by (apply nlt_fin; exact H).
    rewrite E2, E3. reflexivity.
  - intro H. rewrite Small; [reflexivity|].
    apply Qlt_shift_div_r; lra.
Qed.

Lemma asymmetric_pool_size_precondition_witness :
  initializeAsymmetricPool (constructor NaN) (Fin 150) (Fin 0.5)
  = Throw PoolSizeTooSmall.
Proof.
  apply (asymmetric_pool_size_precondition NaN 150 0.5); reflexivity.
Defined.

End Pools.

(* ================================================================= *)
(** ** Odds from volumes *)

Section Volumes.

Import OddsConverter.
#[local] Set Warnings "-inexact-float".

Lemma probabilityToOdds_fin (p : Q) :
  0 < p -> p < 1 -> probabilityToOdds (Fin p) = Ok (Fin (1 / p)).
Proof.
  intros H0 H1. unfold probabilityToOdds.
  assert (E0 : (Fin p <=? Fin 0)%num = false) by (apply nle_fin_false; exact H0).
  assert (E1 : (Fin p >=? Fin 1)%num = false) by (apply nle_fin_false; exact H1).
  rewrite E0, E1. cbn [orb]. rewrite ndiv_fin by lra. reflexivity.
Qed.

(** C9, as the specification has it, fails when one side has no volume:
    with nothing on yes and 5 on no the call throws 'Probability must be
    between 0 and 1' instead of returning odds. *)
Lemma oddsFromVolume_one_side_empty :
  calculateOddsFromVolume (Fin 0) (Fin 5) = Throw ProbabilityOutOfRange.
Proof. reflexivity. Qed.

(** C9, amended.  On binary64 numbers: when the total of the two volumes
    is 0 both odds are 2.0; otherwise the call computes the shares
    [noVolume / total] and [yesVolume / total], throws 'Probability must
    be between 0 and 1' when one of them is [<= 0] or [>= 1], and returns
    the inverses of the two shares in every remaining case.  In exact
    arithmetic, for nonnegative volumes, it throws exactly when one volume
    is 0 and the other is not, and returns the odds when both volumes are
    strictly positive; on binary64 a share also rounds to 1 when one volume
    is far below the other, as with the volumes 1 and 1e16. *)
Theorem oddsFromVolume_cases :
  (forall yesVolume noVolume : float,
     let total := (yesVolume + noVolume)%float in
     let yesShare := (noVolume / total)%float in
     let noShare := (yesVolume / total)%float in
     let r := Float64.calculateOddsFromVolume yesVolume noVolume in
     if (total =? 0)%float
     then r = Ok {| Float64.yesOdds := 2.0; Float64.noOdds := 2.0 |}
     else if ((yesShare <=? 0) || (1 <=? yesShare)
              || (noShare <=? 0) || (1 <=? noShare))%float
     then r = Throw ProbabilityOutOfRange
     else r = Ok {| Float64.yesOdds := (1 / yesShare)%float;
                    Float64.noOdds := (1 / noShare)%float |}) /\
  (forall yesVolume noVolume : Q,
     0 <= yesVolume -> 0 <= noVolume ->
     let total := yesVolume + noVolume in
     let r := calculateOddsFromVolume (Fin yesVolume) (Fin noVolume) in
     (total == 0 -> r = Ok {| yesOdds := Fin 2.0; noOdds := Fin 2.0 |}) /\
     (0 < yesVolume -> 0 < noVolume ->
      r = Ok {| yesOdds := Fin (1 / (noVolume / total));
                noOdds := Fin (1 / (yesVolume / total)) |}) /\
     (0 < total -> yesVolume == 0 \/ noVolume == 0 ->
      r = Throw ProbabilityOutOfRange)) /\
  ((0 <? 1)%float = true /\ (0 <? 1e16)%float = true /\
   Float64.calculateOddsFromVolume 1 1e16 = Throw ProbabilityOutOfRange).
Proof.
  split; [|split].
  { intros y n total yesShare noShare r. subst r.
    unfold Float64.calculateOddsFromVolume, Float64.probabilityToOdds.
    fold total. destruct (total =? 0)%float; [reflexivity|].
    fold yesShare noShare.
    destruct (yesShare <=? 0)%float; [reflexivity|].
    destruct (1 <=? yesShare)%float; [reflexivity|].
    cbn [orb bind].
    destruct (noShare <=? 0)%float; [reflexivity|].
    destruct (1 <=? noShare)%float; reflexivity. }
  { intros yesVolume noVolume.
    intros Hy Hn total r. subst r. unfold calculateOddsFromVolume.
    cbn [nadd]. fold total. repeat split.
    - intro H. apply neqb_fin in H. rewrite H. reflexivity.
    - intros Py Pn.
      assert (Ht : 0 < total) by (unfold total; lra).
      assert (E : (Fin total === Fin 0)%num = false)
        by (apply neqb_fin_false; lra).
      rewrite E. rewrite !ndiv_fin by lra.
      rewrite probabilityToOdds_fin;
        [| apply Qlt_shift_div_l; lra
         | apply Qlt_shift_div_r; unfold total; lra].
      rewrite probabilityToOdds_fin;
        [| apply Qlt_shift_div_l; lra
         | apply Qlt_shift_div_r; unfold total; lra].
      reflexivity.
    - intros Ht Hz.
      assert (E : (Fin total === Fin 0)%num = false)
        by (apply neqb_fin_false; lra).
      rewrite E. rewrite !ndiv_fin by lra.
      unfold probabilityToOdds.
      destruct Hz as [Hz | Hz].
      + (* all the volume is on no: the yes probability is 1 *)
        assert (E1 : (Fin (noVolume / total) >=? Fin 1)%num = true).
        { apply nle_fin. apply Qle_shift_div_l; unfold total in *; lra. }
        rewrite E1, orb_true_r. reflexivity.
      + (* all the volume is on yes: the yes probability is 0 *)
        assert (E0 : (Fin (noVolume / total) <=? Fin 0)%num = true).
        { apply nle_fin. unfold Qdiv. rewrite Hz. lra. }
        rewrite E0. reflexivity. }
  repeat split; vm_compute; reflexivity.
Qed.

Lemma oddsFromVolume_cases_witness :
  calculateOddsFromVolume (Fin 3) (Fin 5)
  = Ok {| yesOdds := Fin (1 / (5 / (3 + 5)));
          noOdds := Fin (1 / (3 / (3 + 5))) |}.
Proof.
  apply (proj1 (proj2 oddsFromVolume_cases) 3 5);
    reflexivity || discriminate.
Defined.

End Volumes.

(* ================================================================= *)
(** ** Scenario A *)

Section ScenarioA.

Import Betting Scenario.



(** C4 -- the average price of a position.  The first bet of scenario A
    creates the position of (u1, m1, yes); its stored [avg_price] is the
    effective price 98 / (98 + shares), about 0.5233, and not
    [total_invested / shares], about 1.098. *)
Theorem first_bet_position_avg_price :
  exists db' r position avg invested sh,
    bet_A no_faults = (db', Ok r) /\
    positions db' = [position] /\
    avg_price position = Fin avg /\
    total_invested position = Fin invested /\
    shares position = Fin sh /\
    avg == invested / (invested + sh) /\
    avg < 0.5234 /\ 1.09 < invested / sh /\
    ~ avg == invested / sh.
Proof.
  do 6 eexists.
  split; [vm_compute; reflexivity|].
  cbn [positions]. split; [reflexivity|].
  cbn [avg_price total_invested shares].
  repeat split; try reflexivity.
  intro H. vm_compute in H. discriminate H.
Qed.

End ScenarioA.

(* ================================================================= *)
(** ** The check of the product after the trade *)

Section ProductCheck.

#[local] Set Warnings "-inexact-float".

(** C2 -- the tolerance of the product checks.  On binary64 numbers, with
    both pools at 10^7, k = 10^14 and the fee of 2%, a bet of 1 on yes
    passes the check before the trade, and the check after the trade
    rejects it with 'Liquidity constant violated': the product of the new
    pools differs from k by 2^-6 = 0.015625, more than the absolute 0.01
    that step 8 of [placeBet] allows, while the relative check of
    [validatePoolState] accepts the very same pools (the relative
    difference is about 1.6e-16). *)
Theorem post_trade_check_is_absolute :
  Float64.priceBet 0.02 "yes" 1 10000000 10000000 100000000000000
  = Throw LiquidityConstantViolated /\
  exists net fee tokens yesAfter noAfter,
    Float64.applyMargin 0.02 1 = Ok (net, fee) /\
    Float64.validatePoolState 10000000 10000000 100000000000000 = Ok true /\
    Float64.tradePools "yes" net 10000000 10000000 100000000000000
    = Ok (tokens, yesAfter, noAfter) /\
    PrimFloat.abs (yesAfter * noAfter - 100000000000000)%float
    = 0.015625%float /\
    Float64.constantViolated yesAfter noAfter 100000000000000 = true /\
    Float64.validatePoolState yesAfter noAfter 100000000000000 = Ok true.
Proof.
  split; [vm_compute; reflexivity|].
  do 5 eexists.
  split; [vm_compute; reflexivity|].
  repeat split; vm_compute; reflexivity.
Qed.

End ProductCheck.

(* ================================================================= *)
(** ** Monotonicity in the bet amount *)

Section Monotonicity.

Import OddsCalculation.
#[local] Set Warnings "-inexact-float".

Lemma Qdiv_pos (a b : Q) : 0 < a -> 0 < b -> 0 < a / b.
Proof. intros Ha Hb. apply Qlt_shift_div_l; lra. Qed.

(** The tokens bought grow with the amount paid. *)
Lemma tokens_mono (i o k b1 b2 : Q) :
  0 < i -> 0 < b1 -> b1 < b2 ->
  o - k / (i + b1) < o ->
  o - k / (i + b1) < o - k / (i + b2).
Proof.
  intros Hi Hb1 Hlt Hsucc.
  assert (Hk1 : 0 < k / (i + b1)) by lra.
  assert (Hk : 0 < k).
  { assert (E : k == k / (i + b1) * (i + b1)) by (field; lra).
    rewrite E. apply Qmult_lt_0_compat; lra. }
  assert (E : k / (i + b1) - k / (i + b2)
              == k * (b2 - b1) / ((i + b1) * (i + b2))) by (field; lra).
  assert (0 < k * (b2 - b1) / ((i + b1) * (i + b2))).
  { apply Qdiv_pos; apply Qmult_lt_0_compat; lra. }
  lra.
Qed.

(** With [k] the product of the pools, the relative distance of the
    effective price from the price before the trade has a closed form. *)
Lemma slippage_closed_form (i o k b total : Q) :
  0 < i -> 0 < o -> 0 < b -> k == i * o -> total == i + o ->
  (b / (b + (o - k / (i + b))) - i / total) / (i / total)
  == b * o / (i * (i + b + o)).
Proof.
  intros Hi Ho Hb Hk HT. rewrite Hk, HT. field.
  repeat split; try lra. nra.
Qed.

Lemma closed_form_mono (i o b1 b2 : Q) :
  0 < i -> 0 < o -> 0 < b1 -> b1 < b2 ->
  b1 * o / (i * (i + b1 + o)) < b2 * o / (i * (i + b2 + o)).
Proof.
  intros Hi Ho Hb Hlt.
  assert (E : b2 * o / (i * (i + b2 + o)) - b1 * o / (i * (i + b1 + o))
     == (b2 - b1) * o * (i + o) / (i * (i + b1 + o) * (i + b2 + o))).
  { field. repeat split; lra. }
  assert (0 < (b2 - b1) * o * (i + o) / (i * (i + b1 + o) * (i + b2 + o))).
  { apply Qdiv_pos; repeat apply Qmult_lt_0_compat; lra. }
  lra.
Qed.

(** What a successful simulation on finite positive pools returns. *)
Lemma simulateBet_fin_inv (outcome : string) (b y n k : Q) (s : Simulation) :
  0 < y -> 0 < n ->
  simulateBet outcome (Fin b) (Fin y) (Fin n) (Fin k) = Ok s ->
  let i := inputOf outcome y n in
  let o := outputOf outcome y n in
  let t := o - k / (i + b) in
  0 < b /\ 0 < t /\ t < o /\
  tokensReceived s = Fin t /\
  slippage s = Fin (Qabs ((b / (b + t) - i / (y + n)) / (i / (y + n)))).
Proof.
  intros Hy Hn. unfold simulateBet, inputOf, outputOf.
  destruct (String.eqb outcome "yes").
  - rewrite calculateYesPrice_fin by lra. cbn [bind].
    destruct (calculateTokensReceived (Fin b) (Fin n) (Fin y) (Fin k))
      as [t|] eqn:Et; [|discriminate].
    apply calculateTokensReceived_fin_inv in Et as (Hb & -> & Hpos & Hlt);
      [|exact Hn].
    cbn [bind nsub nadd].
    rewrite calculateYesPrice_fin, calculateNoPrice_fin by lra.
    cbn [bind]. unfold calculateEffectivePrice.
    assert (E : (Fin (y - k / (n + b)) === Fin 0)%num = false)
      by (apply neqb_fin_false; lra).
    rewrite E. cbn [nadd]. rewrite ndiv_fin by lra. cbn [bind].
    intro H. injection H as <-. cbn [tokensReceived slippage].
    repeat split; try assumption.
    unfold calculateSlippage.
    assert (Hp : 0 < n / (y + n)) by (apply Qdiv_pos; lra).
    assert (E0 : (Fin (n / (y + n)) === Fin 0)%num = false)
      by (apply neqb_fin_false; lra).
    rewrite E0. cbn [nsub]. rewrite ndiv_fin by lra. reflexivity.
  - rewrite calculateNoPrice_fin by lra. cbn [bind].
    destruct (calculateTokensReceived (Fin b) (Fin y) (Fin n) (Fin k))
      as [t|] eqn:Et; [|discriminate].
    apply calculateTokensReceived_fin_inv in Et as (Hb & -> & Hpos & Hlt);
      [|exact Hy].
    cbn [bind nsub nadd].
    rewrite calculateYesPrice_fin, calculateNoPrice_fin by lra.
    cbn [bind]. unfold calculateEffectivePrice.
    assert (E : (Fin (n - k / (y + b)) === Fin 0)%num = false)
      by (apply neqb_fin_false; lra).
    rewrite E. cbn [nadd]. rewrite ndiv_fin by lra. cbn [bind].
    intro H. injection H as <-. cbn [tokensReceived slippage].
    repeat split; try assumption.
    unfold calculateSlippage.
    assert (Hp : 0 < y / (y + n)) by (apply Qdiv_pos; lra).
    assert (E0 : (Fin (y / (y + n)) === Fin 0)%num = false)
      by (apply neqb_fin_false; lra).
    rewrite E0. cbn [nsub]. rewrite ndiv_fin by lra. reflexivity.
Qed.

(** C8, as the specification has it, fails for the slippage when [k] is
    not the product of the pools.  With both pools at 1000 and
    k = 999999, a state that [validatePoolState] accepts, the bets of
    0.001 and of 1 both succeed and the larger one has the smaller
    slippage: about 0.3333 against 0. *)
Lemma slippage_not_monotone :
  validatePoolState (Fin 1000) (Fin 1000) (Fin 999999) = Ok true /\
  exists s1 s2 sl1 sl2,
    simulateBet "yes" (Fin 0.001) (Fin 1000) (Fin 1000) (Fin 999999) = Ok s1 /\
    simulateBet "yes" (Fin 1) (Fin 1000) (Fin 1000) (Fin 999999) = Ok s2 /\
    slippage s1 = Fin sl1 /\ slippage s2 = Fin sl2 /\
    sl2 < sl1 /\ (slippage s1 <? slippage s2)%num = false.
Proof.
  split; [reflexivity|].
  do 4 eexists.
  split; [vm_compute; reflexivity|].
  split; [vm_compute; reflexivity|].
  cbn [slippage]. repeat split; reflexivity.
Qed.

(** C8, amended.  In exact arithmetic, for fixed positive pools and a
    fixed [k], over the bet amounts for which the simulation succeeds, the
    tokens received are strictly increasing in the bet amount, and when
    [k] is the product of the two pools the slippage is strictly
    increasing as well.  On the binary64 numbers of the code neither
    increase is strict: with both pools at 1000 and k = 1000000 the bets
    98 and 98.00000000000001 receive the same tokens, and the bet
    1.0000000000001 has a smaller slippage than the bet 1. *)
Theorem monotone_in_bet_amount :
  (forall (outcome : string) (y n k b1 b2 : Q) (s1 s2 : Simulation),
     0 < y -> 0 < n -> b1 < b2 ->
     simulateBet outcome (Fin b1) (Fin y) (Fin n) (Fin k) = Ok s1 ->
     simulateBet outcome (Fin b2) (Fin y) (Fin n) (Fin k) = Ok s2 ->
     (tokensReceived s1 <? tokensReceived s2)%num = true /\
     (k == y * n -> (slippage s1 <? slippage s2)%num = true)) /\
  (exists s1 s2 : Float64.Simulation,
     Float64.simulateBet "yes" 98 1000 1000 1000000 = Ok s1 /\
     Float64.simulateBet "yes" 98.00000000000001 1000 1000 1000000
     = Ok s2 /\
     (98 <? 98.00000000000001)%float = true /\
     Float64.tokensReceived s1 = Float64.tokensReceived s2) /\
  (exists s1 s2 : Float64.Simulation,
     Float64.simulateBet "yes" 1 1000 1000 1000000 = Ok s1 /\
     Float64.simulateBet "yes" 1.0000000000001 1000 1000 1000000 = Ok s2 /\
     (1 <? 1.0000000000001)%float = true /\
     (Float64.slippage s2 <? Float64.slippage s1)%float = true).
Proof.
  split; [|split].
  { intros outcome y n k b1 b2 s1 s2.
    intros Hy Hn Hlt E1 E2.
    apply simulateBet_fin_inv in E1 as (Hb1 & Hp1 & Ho1 & -> & ->);
      [|assumption..].
    apply simulateBet_fin_inv in E2 as (Hb2 & Hp2 & Ho2 & -> & ->);
      [|assumption..].
    set (i := inputOf outcome y n) in *.
    set (o := outputOf outcome y n) in *.
    assert (Hio : 0 < i /\ 0 < o /\ y + n == i + o /\ y * n == i * o).
    { unfold i, o, inputOf, outputOf.
      destruct (String.eqb outcome "yes"); repeat split; (assumption || ring). }
    destruct Hio as (Hi & Ho & Hsum & Hprod).
    split.
    - apply nlt_fin. apply tokens_mono; assumption.
    - intro Hk. apply nlt_fin.
      assert (Hk' : k == i * o) by (rewrite Hk; exact Hprod).
      rewrite (slippage_closed_form i o k b1 (y + n)) by assumption.
      rewrite (slippage_closed_form i o k b2 (y + n)) by (assumption || lra).
      assert (P1 : 0 < b1 * o / (i * (i + b1 + o))).
      { apply Qdiv_pos; apply Qmult_lt_0_compat; lra. }
      assert (P2 : 0 < b2 * o / (i * (i + b2 + o))).
      { apply Qdiv_pos; apply Qmult_lt_0_compat; lra. }
      rewrite !Qabs_pos by lra.
      apply closed_form_mono; assumption. }
  { do 2 eexists. split; [vm_compute; reflexivity|].
    split; [vm_compute; reflexivity|]. split; reflexivity. }
  { do 2 eexists. split; [vm_compute; reflexivity|].
    split; [vm_compute; reflexivity|]. split; reflexivity. }
Qed.

Lemma monotone_in_bet_amount_witness :
  exists s1 s2,
    simulateBet "yes" (Fin 98) (Fin 1000) (Fin 1000) (Fin 1000000) = Ok s1 /\
    simulateBet "yes" (Fin 196) (Fin 1000) (Fin 1000) (Fin 1000000) = Ok s2 /\
    (tokensReceived s1 <? tokensReceived s2)%num = true /\
    (slippage s1 <? slippage s2)%num = true.
Proof.
  destruct (simulateBet "yes" (Fin 98) (Fin 1000) (Fin 1000) (Fin 1000000))
    as [s1|e1] eqn:E1; [|vm_compute in E1; discriminate E1].
  destruct (simulateBet "yes" (Fin 196) (Fin 1000) (Fin 1000) (Fin 1000000))
    as [s2|e2] eqn:E2; [|vm_compute in E2; discriminate E2].
  exists s1, s2. split; [reflexivity|]. split; [reflexivity|].
  destruct (proj1 monotone_in_bet_amount "yes"%string 1000 1000 1000000
              98 196 s1 s2)
    as [Ht Hs]; try reflexivity; try assumption.
  split; [exact Ht | apply Hs; reflexivity].
Defined.

End Monotonicity.

(* ================================================================= *)
(** ** Settlement *)

Section Settlement.

Import Betting.


Lemma constructor_margin (env : num) :
  exists m, HouseMargin.HOUSE_MARGIN (HouseMargin.constructor env) = Fin m
            /\ 0.001 <= m /\ m <= 0.10.
Proof.
  assert (Hd : exists m, or_else env (Fin 0.02) = Fin m \/
                         or_else env (Fin 0.02) = PInf \/
                         or_else env (Fin 0.02) = NInf).
  { unfold or_else. destruct env as [q| | |]; cbn [falsy].
    - destruct (Qeq_bool q 0); eauto.
    - exists 0; auto.
    - exists 0; auto.
    - eauto. }
  unfold HouseMargin.constructor. cbn [HouseMargin.HOUSE_MARGIN].
  destruct (nlt (or_else env (Fin 0.02)) (Fin 0.001)
            || nlt (Fin 0.10) (or_else env (Fin 0.02))) eqn:E.
  - exists 0.02. repeat split; discriminate.
  - apply orb_false_iff in E as (E1 & E2).
    destruct Hd as (m & [Hm | [Hm | Hm]]); rewrite Hm in *.
    + exists m. apply nlt_fin_false in E1, E2. repeat split; assumption.
    + discriminate E2.
    + discriminate E1.
Qed.

Ltac bind_inv :=
  repeat match goal with
  | |- bind ?x _ = Ok _ -> _ =>
      let E := fresh "E" in
      destruct x eqn:E; cbn [bind]; [|discriminate]
  | |- (let '(_, _) := ?x in _) = Ok _ -> _ => destruct x
  | |- (if ?c then Throw _ else _) = Ok _ -> _ =>
      destruct c; [discriminate|]
  end.

Lemma priceBet_ok_inv (hm : HouseMargin.HouseMarginService)
  (marketId userId outcome : string) (betAmount : num)
  (market : Market) (profile : Profile) (params : TxParams) :
  priceBet hm marketId userId outcome betAmount market profile = Ok params ->
  p_betAmount params = betAmount /\ p_userId params = userId /\
  p_profile params = profile /\
  exists margin, HouseMargin.applyMargin hm betAmount = Ok margin /\
                 p_netAmount params = HouseMargin.netAmount margin.
Proof.
  unfold priceBet. bind_inv.
  intro H. injection H as <-. cbn. repeat split. eexists. split; reflexivity.
Qed.

Lemma getMarket_reads (marketId : string) (db db1 : DB) (r : result Market) :
  getMarket marketId db = (db1, r) -> db1 = db.
Proof.
  unfold getMarket. destruct (single _); intro H; injection H as <- _;
    reflexivity.
Qed.

Lemma getUserProfile_reads (userId : string) (db db1 : DB)
  (r : result Profile) :
  getUserProfile userId db = (db1, r) -> db1 = db.
Proof.
  unfold getUserProfile. destruct (single _); intro H; injection H as <- _;
    reflexivity.
Qed.

Lemma placeBet_ok_inv (hm : HouseMargin.HouseMarginService) (f : Faults)
  (marketId userId outcome : string) (betAmount : num) (db db' : DB)
  (r : BetResult) :
  placeBet hm f marketId userId outcome betAmount db = (db', Ok r) ->
  exists market profile params,
    validateBetInputs marketId userId outcome betAmount = Ok tt /\
    getMarket marketId db = (db, Ok market) /\
    validateMarketState market = Ok tt /\
    getUserProfile userId db = (db, Ok profile) /\
    validateUserBalance profile betAmount = Ok tt /\
    priceBet hm marketId userId outcome betAmount market profile = Ok params /\
    executeTransaction f params db = (db', Ok r).
Proof.
  unfold placeBet, mbind, lift, rethrow.
  destruct (validateBetInputs marketId userId outcome betAmount) as [[]|]
    eqn:Ei; [|discriminate].
  destruct (getMarket marketId db) as [db1 [market|]] eqn:Em; [|discriminate].
  pose proof (getMarket_reads _ _ _ _ Em) as ->.
  destruct (validateMarketState market) as [[]|] eqn:Es; [|discriminate].
  destruct (getUserProfile userId db) as [db1 [profile|]] eqn:Eu;
    [|discriminate].
  pose proof (getUserProfile_reads _ _ _ _ Eu) as ->.
  destruct (validateUserBalance profile betAmount) as [[]|] eqn:Eb;
    [|discriminate].
  destruct (priceBet hm marketId userId outcome betAmount market profile)
    as [params|] eqn:Ep; [|discriminate].
  destruct (executeTransaction f params db) as [db2 [r2|]] eqn:Ex;
    [|discriminate].
  intro H. injection H as <- <-.
  exists market, profile, params. repeat split; reflexivity || assumption.
Qed.

Lemma single_singleton {A : Type} (rows : list A) (r : A) :
  single rows = Some r <-> rows = [r].
Proof.
  split.
  - destruct rows as [|x [|y rest]]; try discriminate.
    intro H. injection H as ->. reflexivity.
  - intros ->. reflexivity.
Qed.

End Settlement.

(* ================================================================= *)
(** ** Settlement on binary64 numbers *)

Section SettlementOnBinary64.

Import Float64 Betting64 Effects.
#[local] Set Warnings "-inexact-float".

Lemma Forall2_update_where {A : Type} (sel : A -> bool) (upd : A -> A)
  (rows : list A) :
  Forall2 (fun r r' => if sel r then r' = upd r else r' = r)
    rows (Betting.update_where sel upd rows).
Proof.
  unfold Betting.update_where.
  induction rows as [|r rows IH]; cbn [map]; constructor.
  - destruct (sel r); reflexivity.
  - exact IH.
Qed.

(** Reduces the projections of a store built by the [with_...] updates. *)
Ltac store64 :=
  cbn [markets profiles bets positions transactions price_history
       with_markets with_profiles with_bets with_positions
       with_transactions with_price_history fst snd].

(** Runs the writes of a commit under a fault plan given by its flags. *)
Ltac run_writes :=
  unfold executeTransaction, executeOddsTransaction, updatePosition, id_of;
  unfold mbind, lift, write_checked, write_unchecked, insert_bet,
    insert_bet_unchecked, read, ret;
  cbn [Betting.markets_update_fails Betting.bets_insert_fails
       Betting.profiles_update_fails Betting.positions_write_fails
       Betting.transactions_insert_fails
       Betting.price_history_insert_fails];
  store64.



(** The reads leave the store as it is. *)
Lemma getMarket_same (marketId : string) (db db1 : DB) (r : result Market) :
  getMarket marketId db = (db1, r) -> db1 = db.
Proof.
  unfold getMarket. destruct (Betting.single _); intro H; injection H as <- _;
    reflexivity.
Qed.

Lemma getUserProfile_same (userId : string) (db db1 : DB)
  (r : result Profile) :
  getUserProfile userId db = (db1, r) -> db1 = db.
Proof.
  unfold getUserProfile. destruct (Betting.single _); intro H;
    injection H as <- _; reflexivity.
Qed.

(** The steps of a request that commits, for either settlement method:
    [price] is the pricing of steps 3 to 8 and [commit] the commit. *)
Lemma request_committed {P R : Type}
  (price : Market -> Profile -> result P) (commit : P -> M R)
  (marketId userId outcome : string) (betAmount : float) (db db' : DB)
  (r : R) :
  (lift (validateBetInputs marketId userId outcome betAmount) >>>
   market <~ getMarket marketId ;;
   lift (validateMarketState market) >>>
   profile <~ getUserProfile userId ;;
   lift (validateUserBalance profile betAmount) >>>
   params <~ lift (price market profile) ;;
   rethrow (commit params) BetProcessingFailed) db = (db', Ok r) ->
  exists market profile params,
    validateBetInputs marketId userId outcome betAmount = Ok tt /\
    getMarket marketId db = (db, Ok market) /\
    validateMarketState market = Ok tt /\
    getUserProfile userId db = (db, Ok profile) /\
    validateUserBalance profile betAmount = Ok tt /\
    price market profile = Ok params /\
    commit params db = (db', Ok r).
Proof.
  unfold mbind, lift, rethrow.
  destruct (validateBetInputs marketId userId outcome betAmount) as [[]|]
    eqn:Ei; [|discriminate].
  destruct (getMarket marketId db) as [db1 [market|]] eqn:Em; [|discriminate].
  pose proof (getMarket_same _ _ _ _ Em) as ->.
  destruct (validateMarketState market) as [[]|] eqn:Es; [|discriminate].
  destruct (getUserProfile userId db) as [db1 [profile|]] eqn:Eu;
    [|discriminate].
  pose proof (getUserProfile_same _ _ _ _ Eu) as ->.
  destruct (validateUserBalance profile betAmount) as [[]|] eqn:Eb;
    [|discriminate].
  destruct (price market profile) as [params|] eqn:Ep; [|discriminate].
  destruct (commit params db) as [db2 [r0|]] eqn:Ex; [|discriminate].
  intro H. injection H as <- <-.
  exists market, profile, params. repeat split; assumption || reflexivity.
Qed.

Ltac bind_cases64 :=
  repeat match goal with
  | |- bind ?x _ = Ok _ -> _ =>
      let E := fresh "E" in
      destruct x eqn:E; cbn [bind]; [|discriminate]
  | |- (let '(_, _) := ?x in _) = Ok _ -> _ => destruct x
  | |- (if ?c then Throw _ else _) = Ok _ -> _ =>
      let E := fresh "E" in
      destruct c eqn:E; [discriminate|]
  end.

(** What the pricing steps hand to the commit. *)
Lemma priceBet_amounts (HOUSE_MARGIN : float)
  (marketId userId outcome : string) (betAmount : float)
  (market : Market) (profile : Profile) (p : TxParams) :
  priceBet HOUSE_MARGIN marketId userId outcome betAmount market profile
  = Ok p ->
  p_userId p = userId /\ p_profile p = profile /\
  p_betAmount p = betAmount /\
  p_netAmount p = (betAmount - betAmount * HOUSE_MARGIN)%float /\
  p_houseFee p = (betAmount * HOUSE_MARGIN)%float.
Proof.
  unfold priceBet, applyMargin.
  destruct (betAmount <=? 0)%float; cbn [bind]; [discriminate|].
  bind_cases64. intro H. injection H as <-. cbn. repeat split.
Qed.

Lemma priceOddsBet_amounts (HOUSE_MARGIN : float)
  (marketId userId outcome : string) (betAmount : float)
  (market : Market) (profile : Profile) (o : OddsParams) :
  priceOddsBet HOUSE_MARGIN marketId userId outcome betAmount market profile
  = Ok o ->
  o_userId o = userId /\ o_profile o = profile /\
  o_betAmount o = betAmount /\
  o_netAmount o = (betAmount - betAmount * HOUSE_MARGIN)%float /\
  o_houseFee o = (betAmount * HOUSE_MARGIN)%float.
Proof.
  unfold priceOddsBet. bind_cases64.
  intro H. injection H as <-. cbn.
  match goal with
  | E : applyMargin _ _ = Ok _ |- _ =>
      unfold applyMargin in E;
      destruct (betAmount <=? 0)%float; [discriminate|];
      injection E as <-
  end.
  repeat split.
Qed.

(** A commit of [executeTransaction] has written the balance. *)
Lemma executeTransaction_debit (f : Betting.Faults) (p : TxParams)
  (db db' : DB) (r : BetResult) :
  executeTransaction f p db = (db', Ok r) ->
  r_grossAmount r = p_betAmount p /\ r_netAmount r = p_netAmount p /\
  r_houseFee r = p_houseFee p /\
  debited (p_userId p) (balanceAfter p) db db'.
Proof.
  destruct f as [a b c d e g]. run_writes.
  destruct a; [discriminate|].
  destruct b; [discriminate|].
  destruct c; [discriminate|].
  destruct (existingPosition _ _ _ _); destruct d, e, g;
    intro H; injection H as <- <-; store64; cbn;
    repeat split; apply Forall2_update_where.
Qed.

(** A commit of [placeBetWithOdds] has written the balance when that write
    was not refused, and has left [profiles] alone when it was. *)
Lemma executeOddsTransaction_debit (toFixed : float -> nat -> string)
  (f : Betting.Faults) (o : OddsParams) (db db' : DB) (r : OddsBetResult) :
  executeOddsTransaction toFixed f o db = (db', Ok r) ->
  ob_stake r = o_betAmount o /\ ob_stakeAfterFee r = o_netAmount o /\
  ob_houseFee r = o_houseFee o /\
  if Betting.profiles_update_fails f then profiles db' = profiles db
  else debited (o_userId o) (balanceAfter (asTx o)) db db'.
Proof.
  destruct f as [a b c d e g]. run_writes.
  destruct b;
    [destruct a, c; cbv beta iota; destruct (existingPosition _ _ _ _);
     destruct d; discriminate|].
  destruct a, c; cbv beta iota; destruct (existingPosition _ _ _ _);
    destruct d, e, g;
    intro H; injection H as <- <-; store64; cbn;
    repeat split; apply Forall2_update_where.
Qed.

(** A later read of the profile sees the balance written. *)
Lemma debited_read_back (userId : string) (newBalance : float)
  (db db' : DB) (profile : Profile) :
  getUserProfile userId db = (db, Ok profile) ->
  debited userId newBalance db db' ->
  getUserProfile userId db'
  = (db', Ok {| profile_id := profile_id profile; balance := newBalance |}).
Proof.
  unfold getUserProfile, debited. intros Hu Hd.
  assert (E : filter (fun q => String.eqb (profile_id q) userId)
                (profiles db')
              = map (fun q => {| profile_id := profile_id q;
                                 balance := newBalance |})
                  (filter (fun q => String.eqb (profile_id q) userId)
                     (profiles db))).
  { clear Hu. induction Hd as [|q q' l l' Hq _ IH]; [reflexivity|].
    cbv beta in Hq. cbn [filter].
    destruct (String.eqb (profile_id q) userId) eqn:Eq; subst q'.
    - cbn [profile_id]. rewrite Eq. cbn [map]. rewrite IH. reflexivity.
    - rewrite Eq. exact IH. }
  rewrite E.
  destruct (Betting.single (filter _ (profiles db))) as [q0|] eqn:Es;
    [|discriminate].
  injection Hu as ->. apply single_singleton in Es. rewrite Es.
  reflexivity.
Qed.

(** C6, amended.  A bet that [placeBet] commits, and a bet that
    [placeBetWithOdds] commits when the client did not refuse the balance
    write, reports the gross amount it was called with and a net amount of
    gross less the fee, and writes as the balance of the user the binary64
    difference between the balance read at step 2 and the gross amount:
    the net amount is not what is subtracted.  Every other row of
    [profiles] is as it was, and a later read of the profile returns the
    balance written. *)
Theorem gross_amount_debited :
  (forall (HOUSE_MARGIN : float) (f : Betting.Faults)
     (marketId userId outcome : string) (betAmount : float) (db db' : DB)
     (r : BetResult) (profile : Profile),
     getUserProfile userId db = (db, Ok profile) ->
     placeBet HOUSE_MARGIN f marketId userId outcome betAmount db
     = (db', Ok r) ->
     r_grossAmount r = betAmount /\
     r_netAmount r = (betAmount - betAmount * HOUSE_MARGIN)%float /\
     r_houseFee r = (betAmount * HOUSE_MARGIN)%float /\
     debited userId (parseFloat (balance profile) - r_grossAmount r)%float
       db db' /\
     getUserProfile userId db'
     = (db', Ok {| profile_id := profile_id profile;
                   balance := (parseFloat (balance profile)
                               - r_grossAmount r)%float |})) /\
  (forall (toFixed : float -> nat -> string) (HOUSE_MARGIN : float)
     (f : Betting.Faults) (marketId userId outcome : string)
     (betAmount : float) (db db' : DB) (r : OddsBetResult)
     (profile : Profile),
     getUserProfile userId db = (db, Ok profile) ->
     placeBetWithOdds toFixed HOUSE_MARGIN f marketId userId outcome
       betAmount db = (db', Ok r) ->
     Betting.profiles_update_fails f = false ->
     ob_stake r = betAmount /\
     ob_stakeAfterFee r = (betAmount - betAmount * HOUSE_MARGIN)%float /\
     ob_houseFee r = (betAmount * HOUSE_MARGIN)%float /\
     debited userId (parseFloat (balance profile) - ob_stake r)%float
       db db' /\
     getUserProfile userId db'
     = (db', Ok {| profile_id := profile_id profile;
                   balance := (parseFloat (balance profile)
                               - ob_stake r)%float |})).
Proof.
  split.
  - intros HM f marketId userId outcome betAmount db db' r profile Hu H.
    apply request_committed in H
      as (market & profile0 & p & _ & _ & _ & Hu0 & _ & Hp & Hx).
    rewrite Hu in Hu0. injection Hu0 as <-.
    apply priceBet_amounts in Hp as (Pu & Pp & Pg & Pn & Pf).
    apply executeTransaction_debit in Hx as (Rg & Rn & Rf & Hd).
    unfold balanceAfter in Hd.
    rewrite Rg, Rn, Rf, Pg, Pn, Pf. rewrite Pu, Pp, Pg in Hd.
    repeat split; try reflexivity; try exact Hd.
    apply (debited_read_back _ _ db); assumption.
  - intros toFixed HM f marketId userId outcome betAmount db db' r profile
      Hu H Hf.
    apply request_committed in H
      as (market & profile0 & o & _ & _ & _ & Hu0 & _ & Hp & Hx).
    rewrite Hu in Hu0. injection Hu0 as <-.
    apply priceOddsBet_amounts in Hp as (Pu & Pp & Pg & Pn & Pf).
    apply executeOddsTransaction_debit in Hx as (Rg & Rn & Rf & Hd).
    rewrite Hf in Hd. unfold balanceAfter in Hd.
    cbn [asTx p_profile p_betAmount] in Hd.
    rewrite Rg, Rn, Rf, Pg, Pn, Pf. rewrite Pu, Pp, Pg in Hd.
    repeat split; try reflexivity; try exact Hd.
    apply (debited_read_back _ _ db); assumption.
Qed.


(** C6, as the specification has it, fails in two ways.  [placeBetWithOdds]
    does not look at the answer of its balance write: when the client
    refuses it, the bet of 100 is committed all the same and [profiles] is
    as it was.  And the debit is a binary64 subtraction: with a balance of
    1e17 the committed bet of 1 leaves the balance at 1e17. *)
Lemma committed_without_debit :
  (exists db' r,
     placeBetWithOdds Scenario64.toFixed Scenario64.HOUSE_MARGIN
       Scenario64.profiles_fail "m1" "u1" "yes" 100 Scenario64.db_A
     = (db', Ok r) /\
     ob_stake r = 100%float /\
     profiles db' = profiles Scenario64.db_A) /\
  (exists db' r,
     placeBet Scenario64.HOUSE_MARGIN Betting.no_faults "m1" "u1" "yes" 1
       Scenario64.db_rich = (db', Ok r) /\
     r_grossAmount r = 1%float /\
     profiles db' = profiles Scenario64.db_rich).
Proof.
  split; do 2 eexists; (split; [vm_compute; reflexivity|]);
    split; reflexivity.
Qed.

Lemma gross_amount_debited_witness :
  exists db' r,
    placeBet Scenario64.HOUSE_MARGIN Betting.no_faults "m1" "u1" "yes" 100
      Scenario64.db_A = (db', Ok r) /\
    r_grossAmount r = 100%float /\
    debited "u1" (parseFloat 500 - r_grossAmount r)%float
      Scenario64.db_A db'.
Proof.
  destruct (placeBet Scenario64.HOUSE_MARGIN Betting.no_faults "m1" "u1"
              "yes" 100 Scenario64.db_A) as [db' [r|e]] eqn:E;
    [|vm_compute in E; discriminate E].
  destruct (proj1 gross_amount_debited Scenario64.HOUSE_MARGIN
              Betting.no_faults "m1"%string "u1"%string "yes"%string
              100%float Scenario64.db_A
              db' r Scenario64.profile_A eq_refl E)
    as (Hg & _ & _ & Hd & _).
  exists db', r. split; [reflexivity|]. split; [exact Hg | exact Hd].
Defined.


End SettlementOnBinary64.

(* ================================================================= *)
(** ** The two product checks in exact arithmetic *)

Section ProductChecksExact.

Import OddsCalculation Betting.

(** The check before the trade compares the relative difference with
    0.0001. *)
Lemma validatePoolState_relative (y n k : Q) :
  0 < y -> 0 < n -> 0 < k ->
  validatePoolState (Fin y) (Fin n) (Fin k)
  = if Qltb 0.0001 (Qabs (y * n - k) / k)
    then Throw PoolStateInvalid else Ok true.
Proof.
  intros Hy Hn Hk. unfold validatePoolState.
  assert (E0 : (Fin y <=? Fin 0)%num = false) by (apply nle_fin_false; lra).
  assert (E1 : (Fin n <=? Fin 0)%num = false) by (apply nle_fin_false; lra).
  rewrite E0, E1. cbn [orb nmul nsub nabs].
  rewrite ndiv_fin by lra. cbn [nmul nlt].
  generalize (Qabs (y * n - k) / k). intro d.
  change (0.01)%Q with (1 # 100). change (0.0001)%Q with (1 # 10000).
  destruct (Qltb (1 # 10000) d) eqn:E.
  - apply Qltb_lt in E.
    assert (R : Qltb (1 # 100) (d * 100) = true) by (apply Qltb_lt; lra).
    rewrite R. reflexivity.
  - apply Qltb_ge in E.
    assert (R : Qltb (1 # 100) (d * 100) = false) by (apply Qltb_ge; lra).
    rewrite R. reflexivity.
Qed.

(** The check after the trade compares the absolute difference with
    0.01. *)
Lemma constantViolated_absolute (y n k : Q) :
  constantViolated (Fin y) (Fin n) (Fin k)
  = Qltb 0.01 (Qabs (y * n - k)).
Proof.
  reflexivity.
Qed.

(** Without rounding the pools after a trade multiply to [k] again, so the
    check after the trade can only ever see rounding errors. *)
Lemma product_restored (b i o k : Q) (t : num) :
  0 < i ->
  calculateTokensReceived (Fin b) (Fin i) (Fin o) (Fin k) = Ok t ->
  exists tokens, t = Fin tokens /\ (o - tokens) * (i + b) == k /\
    constantViolated (Fin o - t)%num (Fin i + Fin b)%num (Fin k) = false.
Proof.
  intros Hi H.
  apply calculateTokensReceived_fin_inv in H as (Hb & -> & _ & _);
    [|exact Hi].
  exists (o - k / (i + b)).
  assert (E : (o - (o - k / (i + b))) * (i + b) == k) by (field; lra).
  split; [reflexivity|]. split; [exact E|].
  cbn [nsub nadd]. rewrite constantViolated_absolute.
  apply Qltb_ge. rewrite E.
  setoid_replace (k - k) with 0 by ring. discriminate.
Qed.

End ProductChecksExact.

(* ================================================================= *)
(** ** The average price of an existing position *)

Section Positions.

Import Betting.

(** When [updatePosition] finds the position and its write goes through,
    every row it rewrites stores [total_invested / shares] as its average
    price. *)
Lemma updatePosition_existing (userId marketId outcome : string)
  (amount shares_ avgPrice : num) (db : DB) (old q : Position) :
  single (filter (fun p => String.eqb (pos_user_id p) userId
                           && String.eqb (pos_market_id p) marketId
                           && String.eqb (pos_outcome p) outcome)
            (positions db)) = Some old ->
  In q (positions (fst (updatePosition false userId marketId outcome
                          amount shares_ avgPrice db))) ->
  position_id q = position_id old ->
  shares q = (shares old + shares_)%num /\
  total_invested q = (total_invested old + amount)%num /\
  avg_price q = (total_invested q / shares q)%num.
Proof.
  intros Hold. unfold updatePosition, mbind, read, write_unchecked.
  rewrite Hold. cbn [fst positions with_positions].
  intros Hin Hid. unfold update_where in Hin.
  apply in_map_iff in Hin as (q0 & <- & _).
  destruct (Nat.eqb (position_id q0) (position_id old)) eqn:E.
  - cbn. repeat split; reflexivity.
  - apply Nat.eqb_neq in E. contradiction.
Qed.

End Positions.

(* ================================================================= *)
(** * Further properties of the services *)

(* ================================================================= *)
(** ** Trades and their inverse *)

Section Trades.

#[local] Set Warnings "-inexact-float".

Import OddsCalculation.

(** X1 -- [calculateCostForTokens] inverts [calculateTokensReceived]: when a stake
    [b] buys [t] tokens, the cost of [t] tokens in the same pools is [b]. *)
Theorem cost_of_tokens_received (b i o k : Q) (t : num) :
  0 < i ->
  calculateTokensReceived (Fin b) (Fin i) (Fin o) (Fin k) = Ok t ->
  exists c, calculateCostForTokens t (Fin i) (Fin o) (Fin k) = Done (Fin c)
            /\ c == b.
Proof.
  intros Hi H.
  apply calculateTokensReceived_fin_inv in H as (Hb & -> & Hpos & Hlt);
    [|exact Hi].
  set (t := o - k / (i + b)) in *.
  assert (Hq : 0 < k / (i + b)) by (unfold t in Hlt; lra).
  assert (Hot : o - t == k / (i + b)) by (unfold t; ring).
  assert (Hk : 0 < k).
  { assert (E : k == k / (i + b) * (i + b)) by (field; lra).
    rewrite E. apply Qmult_lt_0_compat; lra. }
  assert (Hc : k / (o - t) - i == b).
  { rewrite Hot. field. split; lra. }
  exists (k / (o - t) - i). split; [|exact Hc].
  unfold calculateCostForTokens.
  assert (E0 : (Fin t <=? Fin 0)%num = false) by (apply nle_fin_false; lra).
  assert (E1 : (Fin t >=? Fin o)%num = false) by (apply nle_fin_false; lra).
  rewrite E0, E1. cbn [nsub]. rewrite ndiv_fin by lra. cbn [nsub].
  assert (E2 : (Fin (k / (o - t) - i) <=? Fin 0)%num = false)
    by (apply nle_fin_false; lra).
  rewrite E2. reflexivity.
Qed.

Lemma cost_of_tokens_received_witness :
  exists c,
    calculateCostForTokens (Fin (1000 - 1000000 / (1000 + 98)))
      (Fin 1000) (Fin 1000) (Fin 1000000) = Done (Fin c) /\ c == 98.
Proof.
  apply (cost_of_tokens_received 98 1000 1000 1000000); reflexivity.
Defined.

(** X2 -- [calculateTokensReceived] inverts [calculateCostForTokens]: when [t]
    tokens cost [c], a stake of [c] in the same pools buys [t] tokens. *)
Theorem tokens_for_cost (t i o k : Q) (c : num) :
  0 < i ->
  calculateCostForTokens (Fin t) (Fin i) (Fin o) (Fin k) = Done c ->
  exists t', calculateTokensReceived c (Fin i) (Fin o) (Fin k) = Ok (Fin t')
             /\ t' == t.
Proof.
  intros Hi. unfold calculateCostForTokens.
  destruct (Fin t <=? Fin 0)%num eqn:E0; [discriminate|].
  destruct (Fin t >=? Fin o)%num eqn:E1; [discriminate|].
  apply nle_fin_false in E0, E1.
  cbn [nsub]. rewrite ndiv_fin by lra. cbn [nsub].
  destruct (Fin (k / (o - t) - i) <=? Fin 0)%num eqn:E2; [discriminate|].
  apply nle_fin_false in E2.
  intro H. injection H as <-.
  set (c := k / (o - t) - i) in *.
  assert (Hic : i + c == k / (o - t)) by (unfold c; ring).
  assert (Hk : 0 < k).
  { assert (E : k == k / (o - t) * (o - t)) by (field; lra).
    rewrite E. apply Qmult_lt_0_compat; lra. }
  assert (Ht : o - k / (i + c) == t).
  { rewrite Hic. field. split; lra. }
  exists (o - k / (i + c)). split; [|exact Ht].
  apply calculateTokensReceived_fin; lra.
Qed.

Lemma tokens_for_cost_witness :
  exists t',
    calculateTokensReceived (Fin (1000000 / (1000 - 100) - 1000))
      (Fin 1000) (Fin 1000) (Fin 1000000) = Ok (Fin t') /\ t' == 100.
Proof.
  apply (tokens_for_cost 100 1000 1000 1000000); reflexivity.
Defined.

(** X3 -- In exact arithmetic, with positive pools, constant and stake,
    [calculateTokensReceived] never answers 'Bet amount too large': it
    succeeds exactly when [k < o * (i + b)], answers 'no tokens would be
    received' otherwise, and always succeeds when [k] is at most the
    product of the pools; when [k] is that product the tokens are [o * b /
    (i + b)].  On binary64 numbers the quotient [k / (i + b)] is rounded:
    on the pool 1000/1000 with k = 1000000 the stake 1e20 is answered with
    'Bet amount too large' and the stake 1e-14 with 'no tokens would be
    received'. *)
Theorem bet_never_too_large :
  (forall (b i o k : Q),
     0 < i -> 0 < o -> 0 < k -> 0 < b ->
       let r := calculateTokensReceived (Fin b) (Fin i) (Fin o) (Fin k) in
       r <> Throw BetTooLarge /\
       (k < o * (i + b) -> r = Ok (Fin (o - k / (i + b)))) /\
       (o * (i + b) <= k -> r = Throw NoTokensReceived) /\
       (k <= i * o -> r = Ok (Fin (o - k / (i + b)))) /\
       (k == i * o -> o - k / (i + b) == o * b / (i + b))) /\
  (Float64.calculateTokensReceived 1e20 1000 1000 1000000
   = Throw BetTooLarge /\
   Float64.calculateTokensReceived 1e-14 1000 1000 1000000
   = Throw NoTokensReceived).
Proof.
  split.
  { intros b i o k.
    intros Hi Ho Hk Hb r. subst r.
    assert (Hd : 0 < i + b) by lra.
    assert (Hq : 0 < k / (i + b)) by (apply Qlt_shift_div_l; lra).
    assert (Hlt : o - k / (i + b) < o) by lra.
    assert (Hsucc : k < o * (i + b) ->
      calculateTokensReceived (Fin b) (Fin i) (Fin o) (Fin k)
      = Ok (Fin (o - k / (i + b)))).
    { intro H. apply calculateTokensReceived_fin; try lra.
      assert (k / (i + b) < o) by (apply Qlt_shift_div_r; lra). lra. }
    unfold calculateTokensReceived in *.
    assert (E0 : (Fin b <=? Fin 0)%num = false) by (apply nle_fin_false; lra).
    rewrite E0 in *. cbn [nadd] in *. rewrite ndiv_fin in * by lra.
    cbn [nsub] in *.
    assert (E1 : (Fin (o - k / (i + b)) >=? Fin o)%num = false)
      by (apply nle_fin_false; lra).
    rewrite E1 in *.
    split.
    { destruct (Fin (o - k / (i + b)) <=? Fin 0)%num; discriminate. }
    split; [exact Hsucc|]. split.
    { intro H.
      assert (E2 : (Fin (o - k / (i + b)) <=? Fin 0)%num = true).
      { apply nle_fin. assert (o <= k / (i + b))
          by (apply Qle_shift_div_l; lra). lra. }
      rewrite E2. reflexivity. }
    split.
    { intro H. apply Hsucc. nra. }
    intro H. rewrite H. field. lra. }
  split; vm_compute; reflexivity.
Qed.

Lemma bet_never_too_large_witness :
  calculateTokensReceived (Fin 98) (Fin 1000) (Fin 1000) (Fin 1000000)
  <> Throw BetTooLarge /\
  calculateTokensReceived (Fin 98) (Fin 1000) (Fin 1000) (Fin 1000000)
  = Ok (Fin (1000 - 1000000 / (1000 + 98))).
Proof.
  destruct ((proj1 bet_never_too_large) 98 1000 1000 1000000) as (H1 & H2 & _);
    try reflexivity.
  split; [exact H1 | apply H2; reflexivity].
Defined.

(** The pools and prices of a trade: stake [b] into the pool [i], tokens
    out of the pool [o]. *)
Lemma trade_algebra (i o k b : Q) :
  0 < i -> 0 < b -> 0 < o - k / (i + b) -> o - k / (i + b) < o ->
  let t := o - k / (i + b) in
  0 < k /\ 0 < o - t /\ (o - t) * (i + b) == k /\
  i / (i + o) < (i + b) / ((o - t) + (i + b)) /\
  (o - t) / ((o - t) + (i + b)) < o / (i + o).
Proof.
  intros Hi Hb Hpos Hlt t.
  assert (Hd : 0 < i + b) by lra.
  assert (Hq : 0 < k / (i + b)) by (unfold t in *; lra).
  assert (Hk : 0 < k).
  { assert (E : k == k / (i + b) * (i + b)) by (field; lra).
    rewrite E. apply Qmult_lt_0_compat; lra. }
  assert (Hot : o - t == k / (i + b)) by (unfold t; ring).
  assert (Ho' : 0 < o - t) by lra.
  assert (Hto : o - t < o) by (unfold t in *; lra).
  assert (Ho : 0 < o) by lra.
  split; [exact Hk|]. split; [exact Ho'|]. split.
  { rewrite Hot. field. lra. }
  generalize dependent (o - t). intros o' _ Ho' Hto.
  split.
  - apply Qlt_shift_div_l; [lra|].
    assert (E : i / (i + o) * (o' + (i + b))
                == i * (o' + (i + b)) / (i + o)) by (field; lra).
    rewrite E. apply Qlt_shift_div_r; [lra|]. nra.
  - apply Qlt_shift_div_r; [lra|].
    assert (E : o / (i + o) * (o' + (i + b))
                == o * (o' + (i + b)) / (i + o)) by (field; lra).
    rewrite E. apply Qlt_shift_div_l; [lra|]. nra.
Qed.

(** All the fields of a successful simulation on finite positive pools:
    a bet on yes. *)
Lemma simulateBet_yes_fields (outcome : string) (b y n k : Q)
  (s : Simulation) :
  String.eqb outcome "yes" = true -> 0 < y -> 0 < n ->
  simulateBet outcome (Fin b) (Fin y) (Fin n) (Fin k) = Ok s ->
  let t := y - k / (n + b) in
  (0 < b /\ 0 < t /\ t < y) /\
  tokensReceived s = Fin t /\
  newYesPool s = Fin (y - t) /\ newNoPool s = Fin (n + b) /\
  newK s = Fin ((y - t) * (n + b)) /\
  newYesPrice s = Fin ((n + b) / ((y - t) + (n + b))) /\
  newNoPrice s = Fin ((y - t) / ((y - t) + (n + b))) /\
  priceBeforeBet s = Fin (n / (y + n)) /\
  priceAfterBet s = newYesPrice s /\
  effectivePrice s = Fin (b / (b + t)) /\
  slippage s = Fin (Qabs ((b / (b + t) - n / (y + n)) / (n / (y + n)))) /\
  priceImpact s
  = Fin (Qabs (((n + b) / ((y - t) + (n + b)) - n / (y + n))
               / (n / (y + n)))).
Proof.
  intros Ey Hy Hn. unfold simulateBet. rewrite Ey.
  rewrite calculateYesPrice_fin by lra. cbn [bind].
  destruct (calculateTokensReceived (Fin b) (Fin n) (Fin y) (Fin k))
    as [t|] eqn:Et; [|discriminate].
  apply calculateTokensReceived_fin_inv in Et as (Hb & -> & Hpos & Hlt);
    [|exact Hn].
  cbn [bind nsub nadd].
  rewrite calculateYesPrice_fin, calculateNoPrice_fin by lra.
  cbn [bind]. unfold calculateEffectivePrice.
  assert (E : (Fin (y - k / (n + b)) === Fin 0)%num = false)
    by (apply neqb_fin_false; lra).
  rewrite E. cbn [nadd]. rewrite ndiv_fin by lra. cbn [bind].
  intro H. injection H as <-.
  cbn [tokensReceived newYesPool newNoPool newK newYesPrice newNoPrice
       priceBeforeBet priceAfterBet effectivePrice slippage priceImpact].
  assert (Hp : 0 < n / (y + n)) by (apply Qdiv_pos; lra).
  assert (E0 : (Fin (n / (y + n)) === Fin 0)%num = false)
    by (apply neqb_fin_false; lra).
  unfold calculateSlippage, calculatePriceImpact. rewrite E0.
  cbn [nsub nmul]. rewrite !ndiv_fin by lra.
  repeat split; try assumption; reflexivity.
Qed.

(** The same for a bet on no. *)
Lemma simulateBet_no_fields (outcome : string) (b y n k : Q)
  (s : Simulation) :
  String.eqb outcome "yes" = false -> 0 < y -> 0 < n ->
  simulateBet outcome (Fin b) (Fin y) (Fin n) (Fin k) = Ok s ->
  let t := n - k / (y + b) in
  (0 < b /\ 0 < t /\ t < n) /\
  tokensReceived s = Fin t /\
  newYesPool s = Fin (y + b) /\ newNoPool s = Fin (n - t) /\
  newK s = Fin ((y + b) * (n - t)) /\
  newYesPrice s = Fin ((n - t) / ((y + b) + (n - t))) /\
  newNoPrice s = Fin ((y + b) / ((y + b) + (n - t))) /\
  priceBeforeBet s = Fin (y / (y + n)) /\
  priceAfterBet s = newNoPrice s /\
  effectivePrice s = Fin (b / (b + t)) /\
  slippage s = Fin (Qabs ((b / (b + t) - y / (y + n)) / (y / (y + n)))) /\
  priceImpact s
  = Fin (Qabs (((y + b) / ((y + b) + (n - t)) - y / (y + n))
               / (y / (y + n)))).
Proof.
  intros Ey Hy Hn. unfold simulateBet. rewrite Ey.
  rewrite calculateNoPrice_fin by lra. cbn [bind].
  destruct (calculateTokensReceived (Fin b) (Fin y) (Fin n) (Fin k))
    as [t|] eqn:Et; [|discriminate].
  apply calculateTokensReceived_fin_inv in Et as (Hb & -> & Hpos & Hlt);
    [|exact Hy].
  cbn [bind nsub nadd].
  rewrite calculateYesPrice_fin, calculateNoPrice_fin by lra.
  cbn [bind]. unfold calculateEffectivePrice.
  assert (E : (Fin (n - k / (y + b)) === Fin 0)%num = false)
    by (apply neqb_fin_false; lra).
  rewrite E. cbn [nadd]. rewrite ndiv_fin by lra. cbn [bind].
  intro H. injection H as <-.
  cbn [tokensReceived newYesPool newNoPool newK newYesPrice newNoPrice
       priceBeforeBet priceAfterBet effectivePrice slippage priceImpact].
  assert (Hp : 0 < y / (y + n)) by (apply Qdiv_pos; lra).
  assert (E0 : (Fin (y / (y + n)) === Fin 0)%num = false)
    by (apply neqb_fin_false; lra).
  unfold calculateSlippage, calculatePriceImpact. rewrite E0.
  cbn [nsub nmul]. rewrite !ndiv_fin by lra.
  repeat split; try assumption; reflexivity.
Qed.

(** The pools and the prices that a successful simulation on finite
    positive pools returns. *)
Lemma simulateBet_after (outcome : string) (b y n k : Q) (s : Simulation) :
  0 < y -> 0 < n ->
  simulateBet outcome (Fin b) (Fin y) (Fin n) (Fin k) = Ok s ->
  exists y' n',
    newYesPool s = Fin y' /\ newNoPool s = Fin n' /\
    0 < y' /\ 0 < n' /\ y' * n' == k /\ 0 < k /\ 0 < b /\
    newK s = Fin (y' * n') /\
    newYesPrice s = Fin (n' / (y' + n')) /\
    newNoPrice s = Fin (y' / (y' + n')).
Proof.
  intros Hy Hn H.
  destruct (String.eqb outcome "yes") eqn:Ey.
  - apply simulateBet_yes_fields in H
      as ((Hb & Hpos & Hlt) & _ & Ey' & En' & Ek & Epy & Epn & _);
      try assumption.
    destruct (trade_algebra n y k b Hn Hb Hpos Hlt) as (Hk & Ho' & Hprod & _).
    set (t := y - k / (n + b)) in *.
    exists (y - t), (n + b).
    repeat split; try assumption; lra.
  - apply simulateBet_no_fields in H
      as ((Hb & Hpos & Hlt) & _ & Ey' & En' & Ek & Epy & Epn & _);
      try assumption.
    destruct (trade_algebra y n k b Hy Hb Hpos Hlt) as (Hk & Ho' & Hprod & _).
    set (t := n - k / (y + b)) in *.
    exists (y + b), (n - t).
    assert (Hprod' : (y + b) * (n - t) == k)
      by (rewrite Qmult_comm; exact Hprod).
    repeat split; try assumption; lra.
Qed.

(** A state whose product is [k] passes the check of the pool state. *)
Lemma product_state_valid (y n k : Q) :
  0 < y -> 0 < n -> y * n == k ->
  validatePoolState (Fin y) (Fin n) (Fin k) = Ok true.
Proof.
  intros Hy Hn Hk.
  assert (Hkpos : 0 < k) by (rewrite <- Hk; nra).
  rewrite validatePoolState_relative by assumption.
  assert (E : Qltb 0.0001 (Qabs (y * n - k) / k) = false).
  { apply Qltb_ge. setoid_replace (y * n - k) with 0 by (rewrite Hk; ring).
    unfold Qdiv. rewrite Qmult_0_l. discriminate. }
  rewrite E. reflexivity.
Qed.

(** X4 -- In exact arithmetic, a successful [simulateBet] on positive
    pools leaves positive pools whose product is [k] again (it is [newK]),
    prices that sum to 1, and a state that [validatePoolState] accepts.
    On binary64 numbers the product is only approximately [k]: the bet of
    1e16 on the pool 1000/1000 succeeds and leaves a state that
    [validatePoolState] rejects. *)
Theorem simulateBet_conserves_product :
  (forall (outcome : string) (b y n k : Q) (s : Simulation),
     0 < y -> 0 < n ->
       simulateBet outcome (Fin b) (Fin y) (Fin n) (Fin k) = Ok s ->
       exists y' n' py pn,
         newYesPool s = Fin y' /\ newNoPool s = Fin n' /\
         0 < y' /\ 0 < n' /\ y' * n' == k /\ newK s = Fin (y' * n') /\
         newYesPrice s = Fin py /\ newNoPrice s = Fin pn /\ py + pn == 1 /\
         validatePoolState (newYesPool s) (newNoPool s) (Fin k) = Ok true) /\
  (exists s : Float64.Simulation,
     Float64.simulateBet "yes" 1e16 1000 1000 1000000 = Ok s /\
     Float64.validatePoolState (Float64.newYesPool s) (Float64.newNoPool s)
       1000000 = Throw PoolStateInvalid).
Proof.
  split.
  { intros outcome b y n k s.
    intros Hy Hn H.
    apply simulateBet_after in H
      as (y' & n' & Ey & En & Hy' & Hn' & Hprod & Hk & _ & EK & Epy & Epn);
      try assumption.
    exists y', n', (n' / (y' + n')), (y' / (y' + n')).
    rewrite Ey, En.
    repeat split; try assumption.
    - field. lra.
    - apply product_state_valid; assumption. }
  eexists. split; vm_compute; reflexivity.
Qed.

Lemma simulateBet_conserves_product_witness :
  exists s y' n',
    simulateBet "no" (Fin 98) (Fin 600) (Fin 1400) (Fin 840000) = Ok s /\
    newYesPool s = Fin y' /\ newNoPool s = Fin n' /\ y' * n' == 840000 /\
    validatePoolState (newYesPool s) (newNoPool s) (Fin 840000) = Ok true.
Proof.
  destruct (simulateBet "no" (Fin 98) (Fin 600) (Fin 1400) (Fin 840000))
    as [s|e] eqn:E; [|vm_compute in E; discriminate E].
  destruct ((proj1 simulateBet_conserves_product) "no"%string
              98 600 1400 840000 s
              eq_refl eq_refl E)
    as (y' & n' & _ & _ & Hy & Hn & _ & _ & Hk & _ & _ & _ & _ & Hv).
  exists s, y', n'. split; [reflexivity|].
  repeat split; assumption.
Defined.

(** The price of the outcome bought, before and after the trade, and the
    effective price, with the sums of the pools written as the code
    computes them. *)
Lemma trade_prices (i o k b total after : Q) :
  0 < i -> 0 < b -> 0 < o - k / (i + b) -> o - k / (i + b) < o ->
  total == i + o -> after == (o - (o - k / (i + b))) + (i + b) ->
  let t := o - k / (i + b) in
  let p0 := i / total in
  let p1 := (i + b) / after in
  0 < p0 /\ p0 < p1 /\
  Qabs ((p1 - p0) / p0) == (p1 - p0) / p0 /\ 0 < (p1 - p0) / p0 /\
  (k == i * o ->
   let eff := b / (b + t) in
   p0 < eff /\ eff < p1 /\
   Qabs ((eff - p0) / p0) < Qabs ((p1 - p0) / p0)).
Proof.
  intros Hi Hb Hpos Hlt Ht Ha t p0 p1.
  destruct (trade_algebra i o k b Hi Hb Hpos Hlt)
    as (Hk & Ho' & Hprod & Hup & _).
  fold t in Ho', Hprod, Hup, Ha.
  assert (Htpos : 0 < t) by exact Hpos.
  assert (Htlt : t < o) by exact Hlt.
  assert (Ho : 0 < o) by lra.
  assert (Hp0 : 0 < p0) by (apply Qdiv_pos; lra).
  assert (Hp01 : p0 < p1).
  { unfold p0, p1. rewrite Ht, Ha. exact Hup. }
  assert (Hpi : 0 < (p1 - p0) / p0) by (apply Qdiv_pos; lra).
  split; [exact Hp0|]. split; [exact Hp01|].
  split; [apply Qabs_pos; lra|]. split; [exact Hpi|].
  intros Hkio eff.
  assert (Et : t == o * b / (i + b)).
  { unfold t. rewrite Hkio. field. lra. }
  assert (Eeff : eff == (i + b) / (i + b + o)).
  { unfold eff. rewrite Et. field. split; [lra|]. nra. }
  assert (H0e : p0 < eff).
  { rewrite Eeff. unfold p0. rewrite Ht.
    apply Qlt_shift_div_l; [lra|].
    assert (E : i / (i + o) * (i + b + o) == i * (i + b + o) / (i + o))
      by (field; lra).
    rewrite E. apply Qlt_shift_div_r; [lra|]. nra. }
  assert (He1 : eff < p1).
  { rewrite Eeff. unfold p1. rewrite Ha.
    assert (Hto : o - t < o) by lra.
    apply Qlt_shift_div_l; [lra|].
    assert (E : (i + b) / (i + b + o) * (o - t + (i + b))
                == (i + b) * (o - t + (i + b)) / (i + b + o))
      by (field; lra).
    rewrite E. apply Qlt_shift_div_r; [lra|]. nra. }
  split; [exact H0e|]. split; [exact He1|].
  assert (Hs : 0 < (eff - p0) / p0) by (apply Qdiv_pos; lra).
  rewrite !Qabs_pos by lra.
  unfold Qdiv. apply Qmult_lt_compat_r; [apply Qinv_lt_0_compat; lra | lra].
Qed.

(** X5 -- In exact arithmetic, a successful [simulateBet] raises the price
    of the outcome bought: the price after the bet is above the price
    before it, and the price impact is their positive relative difference.
    On binary64 numbers the increase can be lost to rounding: on the pools
    1 and 1e10 the bet of 1 on yes succeeds with the price after equal to
    the price before and a price impact of 0. *)
Theorem bet_raises_its_price :
  (forall (outcome : string) (b y n k : Q) (s : Simulation),
     0 < y -> 0 < n ->
       simulateBet outcome (Fin b) (Fin y) (Fin n) (Fin k) = Ok s ->
       exists p0 p1 impact,
         priceBeforeBet s = Fin p0 /\ priceAfterBet s = Fin p1 /\
         priceImpact s = Fin impact /\
         0 < p0 /\ p0 < p1 /\ 0 < impact /\ impact == (p1 - p0) / p0) /\
  (exists s : Float64.Simulation,
     Float64.simulateBet "yes" 1 1 1e10 1e10 = Ok s /\
     Float64.priceAfterBet s = Float64.priceBeforeBet s /\
     Float64.priceImpact s = 0%float).
Proof.
  split.
  { intros outcome b y n k s.
    intros Hy Hn H.
    destruct (String.eqb outcome "yes") eqn:Ey.
    - apply simulateBet_yes_fields in H
        as ((Hb & Hpos & Hlt) & _ & _ & _ & _ & Epy & _ & Ep0 & Ep1 & _ & _ & Ei);
        try assumption.
      destruct (trade_prices n y k b (y + n)
                  (y - (y - k / (n + b)) + (n + b)) Hn Hb Hpos Hlt)
        as (P0 & P01 & Pabs & Ppos & _); [ring | reflexivity |].
      rewrite Ep1, Epy, Ep0, Ei.
      do 3 eexists. repeat split; try eassumption. rewrite Pabs. exact Ppos.
    - apply simulateBet_no_fields in H
        as ((Hb & Hpos & Hlt) & _ & _ & _ & _ & _ & Epn & Ep0 & Ep1 & _ & _ & Ei);
        try assumption.
      destruct (trade_prices y n k b (y + n)
                  (y + b + (n - (n - k / (y + b)))) Hy Hb Hpos Hlt)
        as (P0 & P01 & Pabs & Ppos & _); [reflexivity | ring |].
      rewrite Ep1, Epn, Ep0, Ei.
      do 3 eexists. repeat split; try eassumption. rewrite Pabs. exact Ppos. }
  eexists. split; [vm_compute; reflexivity|]. split; reflexivity.
Qed.

Lemma bet_raises_its_price_witness :
  exists s p0 p1,
    simulateBet "yes" (Fin 98) (Fin 1000) (Fin 1000) (Fin 1000000) = Ok s /\
    priceBeforeBet s = Fin p0 /\ priceAfterBet s = Fin p1 /\ p0 < p1.
Proof.
  destruct (simulateBet "yes" (Fin 98) (Fin 1000) (Fin 1000) (Fin 1000000))
    as [s|e] eqn:E; [|vm_compute in E; discriminate E].
  destruct ((proj1 bet_raises_its_price) "yes"%string 98 1000 1000 1000000 s
              eq_refl eq_refl E)
    as (p0 & p1 & impact & H0 & H1 & _ & _ & Hlt & _).
  exists s, p0, p1. split; [reflexivity|].
  repeat split; assumption.
Defined.

(** X6 -- In exact arithmetic, when [k] is the product of the pools, the
    effective price of a successful [simulateBet] lies strictly between
    the price before and the price after the bet, so the slippage is below
    the price impact.  On binary64 numbers the tokens of a very small bet
    carry a large relative rounding error: on the pool 1000/1000 the bet
    of 1e-9 has an effective price above the price after the bet and a
    slippage above the price impact, and the bet of 2e-13 has an effective
    price below the price before the bet. *)
Theorem effective_price_between :
  (forall (outcome : string) (b y n k : Q) (s : Simulation),
     0 < y -> 0 < n -> k == y * n ->
       simulateBet outcome (Fin b) (Fin y) (Fin n) (Fin k) = Ok s ->
       exists p0 eff p1 slip impact,
         priceBeforeBet s = Fin p0 /\ effectivePrice s = Fin eff /\
         priceAfterBet s = Fin p1 /\
         slippage s = Fin slip /\ priceImpact s = Fin impact /\
         p0 < eff /\ eff < p1 /\ slip < impact) /\
  ((exists s : Float64.Simulation,
      Float64.simulateBet "yes" 1e-9 1000 1000 1000000 = Ok s /\
      (Float64.priceAfterBet s <? Float64.effectivePrice s)%float = true /\
      (Float64.priceImpact s <? Float64.slippage s)%float = true) /\
   (exists s : Float64.Simulation,
      Float64.simulateBet "yes" 2e-13 1000 1000 1000000 = Ok s /\
      (Float64.effectivePrice s <? Float64.priceBeforeBet s)%float = true)).
Proof.
  split.
  { intros outcome b y n k s.
    intros Hy Hn Hk H.
    destruct (String.eqb outcome "yes") eqn:Ey.
    - apply simulateBet_yes_fields in H
        as ((Hb & Hpos & Hlt) & _ & _ & _ & _ & Epy & _ & Ep0 & Ep1 & Ee & Es & Ei);
        try assumption.
      destruct (trade_prices n y k b (y + n)
                  (y - (y - k / (n + b)) + (n + b)) Hn Hb Hpos Hlt)
        as (_ & _ & _ & _ & Hbetween); [ring | reflexivity |].
      destruct Hbetween as (B0 & B1 & B2); [rewrite Hk; ring|].
      rewrite Ep1, Epy, Ep0, Ee, Es, Ei.
      do 5 eexists. repeat split; eassumption.
    - apply simulateBet_no_fields in H
        as ((Hb & Hpos & Hlt) & _ & _ & _ & _ & _ & Epn & Ep0 & Ep1 & Ee & Es & Ei);
        try assumption.
      destruct (trade_prices y n k b (y + n)
                  (y + b + (n - (n - k / (y + b)))) Hy Hb Hpos Hlt)
        as (_ & _ & _ & _ & Hbetween); [reflexivity | ring |].
      destruct Hbetween as (B0 & B1 & B2); [exact Hk|].
      rewrite Ep1, Epn, Ep0, Ee, Es, Ei.
      do 5 eexists. repeat split; eassumption. }
  split; eexists; (split; [vm_compute; reflexivity|]);
    repeat split; reflexivity.
Qed.

Lemma effective_price_between_witness :
  exists s p0 eff p1,
    simulateBet "yes" (Fin 98) (Fin 1000) (Fin 1000) (Fin 1000000) = Ok s /\
    priceBeforeBet s = Fin p0 /\ effectivePrice s = Fin eff /\
    priceAfterBet s = Fin p1 /\ p0 < eff /\ eff < p1.
Proof.
  destruct (simulateBet "yes" (Fin 98) (Fin 1000) (Fin 1000) (Fin 1000000))
    as [s|e] eqn:E; [|vm_compute in E; discriminate E].
  destruct ((proj1 effective_price_between) "yes"%string 98 1000 1000 1000000 s
              eq_refl eq_refl eq_refl E)
    as (p0 & eff & p1 & slip & impact & H0 & H1 & H2 & _ & _ & Ha & Hb & _).
  exists s, p0, eff, p1. split; [reflexivity|].
  repeat split; assumption.
Defined.

End Trades.

(* ================================================================= *)
(** ** The house margin *)

Section Margins.

#[local] Set Warnings "-inexact-float".

Import HouseMargin.

(** X7 -- The margin of a [HouseMarginService] is always a finite number between
    0.1% and 10%: a configured value in that range is kept, and every other
    configuration falls back to 2%. *)
Theorem house_margin_range (env : num) :
  let hm := constructor env in
  (exists m, HOUSE_MARGIN hm = Fin m /\ 0.001 <= m /\ m <= 0.10) /\
  (forall q, env = Fin q -> 0.001 <= q -> q <= 0.10 ->
     HOUSE_MARGIN hm = Fin q) /\
  (HOUSE_MARGIN hm = env \/ HOUSE_MARGIN hm = Fin 0.02).
Proof.
  intro hm. subst hm. split; [apply constructor_margin|]. split.
  - intros q -> Hlo Hhi. unfold constructor, or_else. cbn [HOUSE_MARGIN falsy].
    assert (E : Qeq_bool q 0 = false).
    { apply Qeq_bool_false. intro H. rewrite H in Hlo. apply Hlo. reflexivity. }
    rewrite E.
    assert (E1 : (Fin q <? Fin 0.001)%num = false)
      by (apply nlt_fin_false; exact Hlo).
    assert (E2 : (Fin q >? Fin 0.10)%num = false)
      by (apply nlt_fin_false; exact Hhi).
    rewrite E1, E2. reflexivity.
  - unfold constructor. cbn [HOUSE_MARGIN].
    destruct (_ || _); [right; reflexivity|].
    unfold or_else. destruct (falsy env); [right | left]; reflexivity.
Qed.

Lemma house_margin_range_witness :
  HOUSE_MARGIN (constructor (Fin 0.05)) = Fin 0.05.
Proof.
  apply (proj1 (proj2 (house_margin_range (Fin 0.05))) 0.05);
    [reflexivity | discriminate | discriminate].
Defined.

(** X8 -- In exact arithmetic, [applyMargin] splits a positive gross
    amount into a positive net amount and a positive fee below the gross
    amount, which add up to the gross amount, and [validateMargin] accepts
    that fee.  On binary64 numbers the split is rounded: at a margin of
    0.02 the net amount and the fee of 19.571428571428573 do not add up to
    it, and the fee of the smallest positive number 5e-324 is 0. *)
Theorem fee_conservation :
  (forall (env : num) (gross : Q),
     0 < gross ->
       exists mg net fee,
         applyMargin (constructor env) (Fin gross) = Ok mg /\
         grossAmount mg = Fin gross /\
         netAmount mg = Fin net /\ houseFee mg = Fin fee /\
         net + fee == gross /\ 0 < fee /\ fee < gross /\ 0 < net /\
         validateMargin (constructor env) (Fin gross) (houseFee mg)
         = Done true) /\
  ((exists net fee : float,
      Float64.applyMargin 0.02 19.571428571428573 = Ok (net, fee) /\
      (net + fee =? 19.571428571428573)%float = false) /\
   (exists net fee : float,
      Float64.applyMargin 0.02 5e-324 = Ok (net, fee) /\
      (0 <? 5e-324)%float = true /\ (fee =? 0)%float = true)).
Proof.
  split.
  { intros env gross.
    intro Hg. destruct (constructor_margin env) as (m & Em & Hlo & Hhi).
    unfold applyMargin, validateMargin. rewrite Em.
    assert (E0 : (Fin gross <=? Fin 0)%num = false)
      by (apply nle_fin_false; exact Hg).
    rewrite E0. cbn [nmul nsub].
    do 3 eexists. split; [reflexivity|].
    cbn [grossAmount netAmount houseFee nsub nabs].
    split; [reflexivity|]. split; [reflexivity|]. split; [reflexivity|].
    split; [ring|]. split; [nra|]. split; [nra|]. split; [nra|].
    assert (E1 : (Fin (Qabs (gross * m - gross * m)) >? Fin 0.01)%num = false).
    { apply nlt_fin_false.
      setoid_replace (gross * m - gross * m) with 0 by ring. discriminate. }
    assert (E2 : (Fin (gross * m) <? Fin 0)%num = false)
      by (apply nlt_fin_false; nra).
    assert (E3 : (Fin (gross * m) >=? Fin gross)%num = false)
      by (apply nle_fin_false; nra).
    rewrite E1, E2, E3. reflexivity. }
  split; do 2 eexists; (split; [vm_compute; reflexivity|]);
    repeat split; reflexivity.
Qed.

Lemma fee_conservation_witness :
  exists mg net fee,
    applyMargin (constructor NaN) (Fin 100) = Ok mg /\
    netAmount mg = Fin net /\ houseFee mg = Fin fee /\
    net + fee == 100 /\
    validateMargin (constructor NaN) (Fin 100) (houseFee mg) = Done true.
Proof.
  destruct ((proj1 fee_conservation) NaN 100 eq_refl)
    as (mg & net & fee & H & _ & Hn & Hf & Hs & _ & _ & _ & Hv).
  exists mg, net, fee. repeat split; assumption.
Defined.

(** The display prices of a base price between 0 and 1. *)
Lemma applyMarginToPrices_run (hm : HouseMarginService) (m base : Q) :
  HOUSE_MARGIN hm = Fin m -> 0.001 <= m -> m <= 0.10 ->
  0 <= base -> base <= 1 ->
  exists buy sell,
    applyMarginToPrices hm (Fin base)
    = Done {| basePrice := Fin base; buyPrice := Fin buy;
              sellPrice := Fin sell; spread := Fin (base * m);
              spreadPercentage := Fin m |} /\
    0 <= sell /\ sell <= base /\ base <= buy /\ buy <= 1 /\
    buy - sell <= base * m /\
    (base * (1 + m / 2) <= 1 -> buy - sell == base * m).
Proof.
  intros Em Hlo Hhi H0 H1.
  unfold applyMarginToPrices. rewrite Em.
  assert (E0 : (Fin base <? Fin 0)%num = false)
    by (apply nlt_fin_false; exact H0).
  assert (E1 : (Fin base >? Fin 1)%num = false)
    by (apply nlt_fin_false; exact H1).
  rewrite E0, E1. cbn [orb].
  rewrite ndiv_fin by (intro H; discriminate H).
  cbn [nadd nsub nmul nmin nmax nle].
  assert (Hh : m / 2 == m * (1 # 2)) by (field).
  assert (Hs : 0 <= base * (1 - m / 2)).
  { rewrite Hh. nra. }
  assert (Es : Qle_bool 0 (base * (1 - m / 2)) = true)
    by (apply Qle_bool_iff; exact Hs).
  rewrite Es.
  destruct (Qle_bool 1 (base * (1 + m / 2))) eqn:Eb.
  - apply Qle_bool_iff in Eb.
    exists 1, (base * (1 - m / 2)).
    rewrite Hh in *.
    repeat split; try reflexivity; try assumption; try nra.
  - apply Qle_bool_gt in Eb.
    exists (base * (1 + m / 2)), (base * (1 - m / 2)).
    rewrite Hh in *.
    repeat split; try reflexivity; try assumption; try nra.
Qed.

(** X9 -- In exact arithmetic, [applyMarginToPrices] rejects a base price
    outside [0, 1]; inside, the sell price and the buy price stay in [0,
    1] and bracket the base price, and buy minus sell is at most the
    reported spread [base * margin], with equality when the buy price is
    not capped at 1.  On binary64 numbers buy minus sell can exceed the
    reported spread by a rounding error, as for the base price 0.5 at a
    margin of 0.02. *)
Theorem display_prices_bracket_base :
  (forall (env : num) (base : Q),
     let hm := constructor env in
       ((base < 0 \/ 1 < base) ->
        applyMarginToPrices hm (Fin base) = Failed BasePriceOutOfRange) /\
       (0 <= base -> base <= 1 ->
        exists pr m buy sell sp,
          applyMarginToPrices hm (Fin base) = Done pr /\
          HOUSE_MARGIN hm = Fin m /\
          basePrice pr = Fin base /\ buyPrice pr = Fin buy /\
          sellPrice pr = Fin sell /\ spread pr = Fin sp /\
          0 <= sell /\ sell <= base /\ base <= buy /\ buy <= 1 /\
          sp == base * m /\ buy - sell <= sp /\
          (base * (1 + m / 2) <= 1 -> buy - sell == sp))) /\
  (exists pr : Float64.Prices,
     Float64.applyMarginToPrices 0.02 0.5 = Done pr /\
     (Float64.spread pr <? Float64.buyPrice pr - Float64.sellPrice pr)%float
     = true).
Proof.
  split.
  { intros env base.
    intro hm. subst hm.
    destruct (constructor_margin env) as (m & Em & Hlo & Hhi). split.
    - unfold applyMarginToPrices. intros [H | H].
      + assert (E : (Fin base <? Fin 0)%num = true) by (apply nlt_fin; exact H).
        rewrite E. reflexivity.
      + assert (E : (Fin base >? Fin 1)%num = true) by (apply nlt_fin; exact H).
        rewrite E, orb_true_r. reflexivity.
    - intros H0 H1.
      destruct (applyMarginToPrices_run _ m base Em Hlo Hhi H0 H1)
        as (buy & sell & Hrun & B).
      rewrite Hrun. eexists. exists m, buy, sell, (base * m).
      split; [reflexivity|]. split; [exact Em|].
      cbn [basePrice buyPrice sellPrice spread].
      repeat split; try reflexivity; apply B. }
  eexists. split; [vm_compute; reflexivity|]. reflexivity.
Qed.

Lemma display_prices_bracket_base_witness :
  applyMarginToPrices (constructor NaN) (Fin 1.5)
  = Failed BasePriceOutOfRange /\
  exists pr buy sell,
    applyMarginToPrices (constructor NaN) (Fin 0.5) = Done pr /\
    buyPrice pr = Fin buy /\ sellPrice pr = Fin sell /\
    sell <= 0.5 /\ 0.5 <= buy.
Proof.
  split.
  - apply (proj1 ((proj1 display_prices_bracket_base) NaN 1.5)).
    right. reflexivity.
  - destruct (proj2 ((proj1 display_prices_bracket_base) NaN 0.5))
      as (pr & m & buy & sell & sp & H & _ & _ & Hb & Hs & _ & _ & Hle & Hge
          & _); try discriminate.
    exists pr, buy, sell. repeat split; assumption.
Defined.

(** X10 -- In exact arithmetic, [calculateRequiredVolume] inverts
    [calculateHouseRevenue]: the volume required for the revenue of a
    volume is that volume, and the revenue is at most a tenth of the
    volume.  On binary64 numbers the round trip is only approximate: at a
    margin of 0.02 the volume required for the revenue of 7 is above 7. *)
Theorem revenue_volume_round_trip :
  (forall (env : num) (volume : Q),
     0 <= volume ->
       exists revenue volume',
         calculateHouseRevenue (constructor env) (Fin volume)
         = Done (Fin revenue) /\
         0 <= revenue /\ revenue <= volume / 10 /\
         calculateRequiredVolume (constructor env) (Fin revenue)
         = Done (Fin volume') /\
         volume' == volume) /\
  (exists revenue volume' : float,
     Float64.calculateHouseRevenue 0.02 7 = Done revenue /\
     Float64.calculateRequiredVolume 0.02 revenue = Done volume' /\
     (7 <? volume')%float = true).
Proof.
  split.
  { intros env volume.
    intro Hv. destruct (constructor_margin env) as (m & Em & Hlo & Hhi).
    unfold calculateHouseRevenue, calculateRequiredVolume. rewrite Em.
    assert (E0 : (Fin volume <? Fin 0)%num = false)
      by (apply nlt_fin_false; exact Hv).
    rewrite E0. cbn [nmul].
    assert (Hr : 0 <= volume * m) by nra.
    assert (E1 : (Fin (volume * m) <? Fin 0)%num = false)
      by (apply nlt_fin_false; exact Hr).
    exists (volume * m), (volume * m / m).
    rewrite E1. rewrite ndiv_fin by lra.
    split; [reflexivity|]. split; [exact Hr|]. split.
    { apply Qle_shift_div_l; [reflexivity|]. nra. }
    split; [reflexivity|]. field. lra. }
  do 2 eexists. split; [vm_compute; reflexivity|].
  split; [vm_compute; reflexivity|]. reflexivity.
Qed.

Lemma revenue_volume_round_trip_witness :
  exists revenue volume',
    calculateHouseRevenue (constructor NaN) (Fin 5000) = Done (Fin revenue) /\
    calculateRequiredVolume (constructor NaN) (Fin revenue)
    = Done (Fin volume') /\
    volume' == 5000.
Proof.
  destruct ((proj1 revenue_volume_round_trip) NaN 5000)
    as (revenue & volume' & H & _ & _ & H' & He); [discriminate|].
  exists revenue, volume'. repeat split; assumption.
Defined.

End Margins.

(* ================================================================= *)
(** ** Pool initialisation and health *)

Section PoolSetup.

#[local] Set Warnings "-inexact-float".

Import OddsCalculation LiquidityPool.

(** X11 -- [calculateOptimalPoolSize] always answers a size between the minimum
    and the maximum pool size, which covers twice the daily volume and ten
    times the largest bet unless it is capped at the maximum, and which
    [validatePoolSize] and [initializeSymmetricPool] accept. *)
Theorem optimal_pool_size_accepted (env : num) (volume maxBet : Q) :
  let this := constructor env in
  exists size,
    calculateOptimalPoolSize this (Fin volume) (Fin maxBet) = Fin size /\
    100 <= size /\ size <= 100000 /\
    (size == 100000 \/ (volume * 2 <= size /\ maxBet * 10 <= size)) /\
    (size == 100 \/ size == 100000 \/ size == volume * 2
     \/ size == maxBet * 10) /\
    validatePoolSize this (Fin size) = Ok true /\
    succeeds (initializeSymmetricPool this (Fin size)) = true.
Proof.
  intro this. subst this.
  unfold calculateOptimalPoolSize, initializeSymmetricPool, validatePoolSize.
  cbn [constructor MIN_POOL_SIZE MAX_POOL_SIZE nmul nmax nmin nle].
  assert (Accept : forall size, 100 <= size -> size <= 100000 ->
    (Fin size <? Fin 100)%num = false /\ (Fin size >? Fin 100000)%num = false).
  { intros size H1 H2. split; apply nlt_fin_false; assumption. }
  destruct (Qle_bool (volume * 2) (maxBet * 10)) eqn:E1;
    cbn [nmin nle];
    [ destruct (Qle_bool 100000 (maxBet * 10)) eqn:E2
    | destruct (Qle_bool 100000 (volume * 2)) eqn:E2 ];
    cbn [nmax nle];
    match goal with
    | |- context [Qle_bool 100 ?x] => destruct (Qle_bool 100 x) eqn:E3
    end;
    eexists; (split; [reflexivity|]);
    repeat match goal with
    | H : Qle_bool _ _ = true |- _ => apply Qle_bool_iff in H
    | H : Qle_bool _ _ = false |- _ => apply Qle_bool_gt in H
    end;
    match goal with
    | |- 100 <= ?s /\ _ =>
        assert (L : 100 <= s) by lra;
        assert (U : s <= 100000) by lra;
        destruct (Accept s L U) as [A1 A2]; rewrite A1, A2
    end;
    repeat split; try lra; try reflexivity;
    try (left; lra); try (right; split; lra);
    try (left; reflexivity); try (right; left; reflexivity);
    try (right; right; left; reflexivity);
    try (right; right; right; reflexivity).
Qed.

(** The four tests of [getPoolHealth] decide [healthy]. *)
Lemma healthy_iff (toFixed : num -> nat -> string)
  (this : LiquidityPoolService) (yes no size : num) :
  healthy (getPoolHealth toFixed this yes no size) = true <->
  (avgUtilization (calculateUtilization toFixed yes no size) >? Fin 0.8)%num
    = false /\
  (avgUtilization (calculateUtilization toFixed yes no size) >? Fin 0.95)%num
    = false /\
  (nmax (yes / no) (no / yes) >? Fin 10)%num = false /\
  ((yes <? MIN_POOL_SIZE this) || (no <? MIN_POOL_SIZE this))%num = false.
Proof.
  unfold getPoolHealth. cbn [healthy].
  destruct (avgUtilization _ >? Fin 0.8)%num;
    destruct (avgUtilization _ >? Fin 0.95)%num;
    destruct (nmax (yes / no) (no / yes) >? Fin 10)%num;
    destruct ((yes <? MIN_POOL_SIZE this) || (no <? MIN_POOL_SIZE this))%num;
    cbn; intuition congruence.
Qed.

(** X12 -- [initializeSymmetricPool] rejects a size below 100 or above 100000;
    otherwise the pool has equal reserves, [validatePoolState] accepts it,
    its prices are the 0.5 it reports, and [getPoolHealth] finds it healthy. *)
Theorem symmetric_pool_valid (env : num) (size : Q) :
  let this := constructor env in
  (size < 100 ->
   initializeSymmetricPool this (Fin size) = Throw PoolSizeTooSmall) /\
  (100000 < size ->
   initializeSymmetricPool this (Fin size) = Throw PoolSizeTooLarge) /\
  (100 <= size -> size <= 100000 ->
   exists pool py pn,
     initializeSymmetricPool this (Fin size) = Ok pool /\
     yesPool pool = Fin size /\ noPool pool = Fin size /\
     liquidityConstant pool = Fin (size * size) /\
     validatePoolState (yesPool pool) (noPool pool) (liquidityConstant pool)
     = Ok true /\
     calculateYesPrice (yesPool pool) (noPool pool) = Ok (Fin py) /\
     calculateNoPrice (yesPool pool) (noPool pool) = Ok (Fin pn) /\
     num_eq (Fin py) (initialYesPrice pool) /\
     num_eq (Fin pn) (initialNoPrice pool) /\
     forall toFixed,
       healthy (getPoolHealth toFixed this (yesPool pool) (noPool pool)
                  (initialPoolSize pool)) = true).
Proof.
  intro this. subst this.
  unfold initializeSymmetricPool, validatePoolSize.
  cbn [constructor MIN_POOL_SIZE MAX_POOL_SIZE]. split; [|split].
  - intro H. assert (E : (Fin size <? Fin 100)%num = true)
      by (apply nlt_fin; exact H).
    rewrite E. reflexivity.
  - intro H.
    assert (E1 : (Fin size <? Fin 100)%num = false)
      by (apply nlt_fin_false; lra).
    assert (E2 : (Fin size >? Fin 100000)%num = true)
      by (apply nlt_fin; exact H).
    rewrite E1, E2. reflexivity.
  - intros Hlo Hhi.
    assert (E1 : (Fin size <? Fin 100)%num = false)
      by (apply nlt_fin_false; lra).
    assert (E2 : (Fin size >? Fin 100000)%num = false)
      by (apply nlt_fin_false; lra).
    rewrite E1, E2. cbn [bind].
    do 3 eexists. split; [reflexivity|].
    cbn [yesPool noPool liquidityConstant initialPoolSize initialYesPrice
         initialNoPrice calculateLiquidityConstant nmul].
    split; [reflexivity|]. split; [reflexivity|]. split; [reflexivity|].
    split.
    { rewrite validatePoolState_relative by nra.
      assert (E : Qltb 0.0001 (Qabs (size * size - size * size)
                               / (size * size)) = false).
      { apply Qltb_ge.
        setoid_replace (size * size - size * size) with 0 by ring.
        unfold Qdiv. rewrite Qmult_0_l. discriminate. }
      rewrite E. reflexivity. }
    split; [apply calculateYesPrice_fin; lra|].
    split; [apply calculateNoPrice_fin; lra|].
    split; [cbn; field; lra|]. split; [cbn; field; lra|].
    intro toFixed. apply healthy_iff.
    unfold calculateUtilization.
    cbn [avgUtilization MIN_POOL_SIZE constructor nsub nabs].
    rewrite !ndiv_fin by lra. cbn [nadd]. rewrite ndiv_fin by lra.
    cbn [nmax nle].
    assert (Z : (Qabs (size - size) / size + Qabs (size - size) / size) / 2
                == 0).
    { setoid_replace (size - size) with 0 by ring.
      unfold Qdiv. rewrite Qmult_0_l. reflexivity. }
    assert (R : size / size == 1) by (field; lra).
    assert (T : forall c, 0 < c ->
      (Fin ((Qabs (size - size) / size + Qabs (size - size) / size) / 2)
       >? Fin c)%num = false).
    { intros c Hc. apply nlt_fin_false. rewrite Z. lra. }
    rewrite !T by reflexivity.
    destruct (Qle_bool (size / size) (size / size));
      (split; [reflexivity|]; split; [reflexivity|]; split;
       [apply nlt_fin_false; rewrite R; discriminate|]);
      rewrite E1; reflexivity.
Qed.

Lemma symmetric_pool_valid_witness :
  initializeSymmetricPool (constructor NaN) (Fin 50) = Throw PoolSizeTooSmall
  /\
  exists pool,
    initializeSymmetricPool (constructor NaN) (Fin 1000) = Ok pool /\
    validatePoolState (yesPool pool) (noPool pool) (liquidityConstant pool)
    = Ok true.
Proof.
  split.
  - apply (proj1 (symmetric_pool_valid NaN 50)). reflexivity.
  - destruct (proj2 (proj2 (symmetric_pool_valid NaN 1000)))
      as (pool & py & pn & H & _ & _ & _ & Hv & _); try discriminate.
    exists pool. split; assumption.
Defined.

(** X13 -- In exact arithmetic, with the default utilisation of 0.9,
    [hasSufficientLiquidity] on a positive pool holds exactly when the bet
    is at most the pool: the two factors 0.9 cancel.  On binary64 numbers
    they do not always cancel: a bet of 13 on a pool of 13 is refused. *)
Theorem sufficient_liquidity_default :
  (forall (bet pool : Q),
     0 < pool ->
       (hasSufficientLiquidity (Fin bet) (Fin pool) None = true
        <-> bet <= pool)) /\
  Float64.hasSufficientLiquidity 13 13 0.9 = false.
Proof.
  split.
  { intros bet pool.
    intro Hp. unfold hasSufficientLiquidity. cbn [nmul].
    rewrite ndiv_fin by lra. rewrite nle_fin.
    change (0.9)%Q with (9 # 10).
    split; intro H.
    - assert (E : bet * (9 # 10) / pool * pool == bet * (9 # 10))
        by (field; lra).
      nra.
    - apply Qle_shift_div_r; [exact Hp|]. nra. }
  vm_compute; reflexivity.
Qed.

Lemma sufficient_liquidity_default_witness :
  hasSufficientLiquidity (Fin 100) (Fin 1000) None = true.
Proof.
  apply (proj2 ((proj1 sufficient_liquidity_default) 100 1000 eq_refl)).
  discriminate.
Defined.

(** What [initializeAsymmetricPool] returns on valid arguments. *)
Lemma initializeAsymmetricPool_run (env : num) (total target : Q) :
  0 < target -> target < 1 -> 200 <= total -> total <= 200000 ->
  initializeAsymmetricPool (constructor env) (Fin total) (Fin target)
  = Ok {| yesPool := Fin (total - total * target);
          noPool := Fin (total * target);
          liquidityConstant :=
            Fin ((total - total * target) * (total * target));
          initialPoolSize := Fin (total / 2);
          initialYesPrice := Fin target;
          initialNoPrice := Fin (1 - target) |}.
Proof.
  intros H0 H1 Hlo Hhi. unfold initializeAsymmetricPool.
  assert (E0 : (Fin target <=? Fin 0)%num = false)
    by (apply nle_fin_false; exact H0).
  assert (E1 : (Fin target >=? Fin 1)%num = false)
    by (apply nle_fin_false; exact H1).
  rewrite E0, E1. cbn [orb].
  rewrite ndiv_fin by (intro H; discriminate H).
  unfold validatePoolSize. cbn [constructor MIN_POOL_SIZE MAX_POOL_SIZE].
  assert (Hh : total / 2 == total * (1 # 2)) by field.
  assert (E2 : (Fin (total / 2) <? Fin 100)%num = false)
    by (apply nlt_fin_false; rewrite Hh; lra).
  assert (E3 : (Fin (total / 2) >? Fin 100000)%num = false)
    by (apply nlt_fin_false; rewrite Hh; lra).
  rewrite E2, E3. cbn [bind nmul nsub calculateLiquidityConstant].
  rewrite calculateYesPrice_fin by nra. reflexivity.
Qed.

(** X14 -- In exact arithmetic, [initializeAsymmetricPool] with a target
    strictly between 0 and 1 and a total between 200 and 200000 succeeds
    with positive reserves that add up to the total, a no pool of [total *
    target], their product as constant, the target as yes price, a state
    that [validatePoolState] accepts, and initial prices that sum to 1.
    On binary64 numbers the reserves and the price carry rounding errors:
    for the total 1000.1 and the target 0.37 the reserves do not add up to
    the total and the yes price is below the target. *)
Theorem asymmetric_pool_valid :
  (forall (env : num) (total target : Q),
     0 < target -> target < 1 -> 200 <= total -> total <= 200000 ->
       exists pool y n p,
         initializeAsymmetricPool (constructor env) (Fin total) (Fin target)
         = Ok pool /\
         yesPool pool = Fin y /\ noPool pool = Fin n /\
         0 < y /\ 0 < n /\ y + n == total /\ n == total * target /\
         liquidityConstant pool = Fin (y * n) /\
         calculateYesPrice (yesPool pool) (noPool pool) = Ok (Fin p) /\
         p == target /\
         validatePoolState (yesPool pool) (noPool pool) (liquidityConstant pool)
         = Ok true /\
         num_eq (initialYesPrice pool + initialNoPrice pool)%num (Fin 1)) /\
  (exists (pool : Float64.Pool) (py : float),
     Float64.initializeAsymmetricPool 100 100000 1000.1 0.37 = Ok pool /\
     (Float64.yesPool pool + Float64.noPool pool =? 1000.1)%float = false /\
     Float64.calculateYesPrice (Float64.yesPool pool) (Float64.noPool pool)
     = Ok py /\
     (py <? 0.37)%float = true).
Proof.
  split.
  { intros env total target.
    intros H0 H1 Hlo Hhi.
    rewrite (initializeAsymmetricPool_run env total target H0 H1 Hlo Hhi).
    set (n := total * target). set (y := total - n).
    assert (Hn : 0 < n) by (unfold n; nra).
    assert (Hy : 0 < y) by (unfold y, n; nra).
    do 2 eexists. exists n, (n / (y + n)).
    split; [reflexivity|].
    cbn [yesPool noPool liquidityConstant initialYesPrice initialNoPrice
         nadd num_eq].
    split; [reflexivity|]. split; [reflexivity|].
    split; [exact Hy|]. split; [exact Hn|].
    split; [unfold y; ring|]. split; [reflexivity|]. split; [reflexivity|].
    split; [apply calculateYesPrice_fin; lra|].
    split; [unfold y, n; field; lra|].
    split; [|ring].
    rewrite validatePoolState_relative by nra.
    assert (E : Qltb 0.0001 (Qabs (y * n - y * n) / (y * n)) = false).
    { apply Qltb_ge. setoid_replace (y * n - y * n) with 0 by ring.
      unfold Qdiv. rewrite Qmult_0_l. discriminate. }
    rewrite E. reflexivity. }
  do 2 eexists. split; [vm_compute; reflexivity|].
  split; [reflexivity|]. split; [vm_compute; reflexivity|]. reflexivity.
Qed.

Lemma asymmetric_pool_valid_witness :
  exists pool p,
    initializeAsymmetricPool (constructor NaN) (Fin 2000) (Fin 0.7)
    = Ok pool /\
    calculateYesPrice (yesPool pool) (noPool pool) = Ok (Fin p) /\
    p == 0.7.
Proof.
  destruct ((proj1 asymmetric_pool_valid) NaN 2000 0.7)
    as (pool & y & n & p & H & _ & _ & _ & _ & _ & _ & _ & Hp & He & _);
    try reflexivity; try discriminate.
  exists pool, p. repeat split; assumption.
Defined.

(** The average utilisation of a pool split as [target] of [total], measured
    against half of the total. *)
Lemma split_utilization (total target : Q) :
  0 < total ->
  let n := total * target in
  let y := total - n in
  let h := total / 2 in
  (Qabs (y - h) / h + Qabs (n - h) / h) / 2 == Qabs (1 - 2 * target).
Proof.
  intros HT n y h.
  assert (Hh : 0 < h) by (unfold h; apply Qdiv_pos; lra).
  destruct (Qlt_le_dec target (1 # 2)) as [L | L].
  - assert (Ey : 0 <= y - h) by (unfold y, n, h; 
      setoid_replace (total - total * target - total / 2)
        with (total * ((1 # 2) - target)) by field; nra).
    assert (En : n - h <= 0) by (unfold n, h;
      setoid_replace (total * target - total / 2)
        with (total * (target - (1 # 2))) by field; nra).
    rewrite (Qabs_pos _ Ey), (Qabs_neg _ En), (Qabs_pos (1 - 2 * target))
      by lra.
    unfold y, n, h. field. lra.
  - assert (Ey : y - h <= 0) by (unfold y, n, h; 
      setoid_replace (total - total * target - total / 2)
        with (total * ((1 # 2) - target)) by field; nra).
    assert (En : 0 <= n - h) by (unfold n, h;
      setoid_replace (total * target - total / 2)
        with (total * (target - (1 # 2))) by field; nra).
    rewrite (Qabs_neg _ Ey), (Qabs_pos _ En), (Qabs_neg (1 - 2 * target))
      by lra.
    unfold y, n, h. field. lra.
Qed.

(** X15 -- In exact arithmetic, a pool that [initializeAsymmetricPool]
    creates is healthy for [getPoolHealth] exactly when the target is
    between 0.1 and 0.9 and both reserves are at least 100.  On binary64
    numbers the boundary is blurred by rounding: the pool created for the
    total 1002 and the target 0.9 has both reserves above 100 and is not
    healthy, its average utilisation being computed as 0.8000000000000002.
    *)
Theorem asymmetric_pool_health :
  (forall (toFixed : num -> nat -> string) (env : num) (total target : Q),
     0 < target -> target < 1 -> 200 <= total -> total <= 200000 ->
       exists pool,
         initializeAsymmetricPool (constructor env) (Fin total) (Fin target)
         = Ok pool /\
         (healthy (getPoolHealth toFixed (constructor env)
                     (yesPool pool) (noPool pool) (initialPoolSize pool)) = true
          <-> 0.1 <= target /\ target <= 0.9 /\
              100 <= total * target /\ 100 <= total - total * target)) /\
  (exists pool : Float64.Pool,
     Float64.initializeAsymmetricPool 100 100000 1002 0.9 = Ok pool /\
     (100 <=? Float64.yesPool pool)%float = true /\
     (100 <=? Float64.noPool pool)%float = true /\
     Float64.healthy 100 (Float64.yesPool pool) (Float64.noPool pool)
       (Float64.initialPoolSize pool) = false).
Proof.
  split.
  { intros toFixed env total target.
    intros H0 H1 Hlo Hhi.
    rewrite (initializeAsymmetricPool_run env total target H0 H1 Hlo Hhi).
    eexists. split; [reflexivity|].
    cbn [yesPool noPool initialPoolSize].
    set (n := total * target). set (y := total - n).
    assert (Hn : 0 < n) by (unfold n; nra).
    assert (Hy : 0 < y) by (unfold y, n; nra).
    rewrite healthy_iff.
    unfold calculateUtilization.
    cbn [avgUtilization MIN_POOL_SIZE constructor nsub nabs].
    assert (Hh : 0 < total / 2) by (apply Qdiv_pos; lra).
    rewrite !ndiv_fin by lra. cbn [nadd]. rewrite ndiv_fin by lra.
    assert (U : (Qabs (y - total / 2) / (total / 2)
                 + Qabs (n - total / 2) / (total / 2)) / 2
                == Qabs (1 - 2 * target)).
    { apply split_utilization. lra. }
    rewrite !nlt_fin_false, U.
    change (0.8)%Q with (8 # 10). change (0.95)%Q with (95 # 100).
    change (0.1)%Q with (1 # 10). change (0.9)%Q with (9 # 10).
    rewrite orb_false_iff, !nlt_fin_false.
    assert (Hyn : y / n * n == y) by (field; lra).
    assert (Hny : n / y * y == n) by (field; lra).
    assert (Hr : nmax (Fin (y / n)) (Fin (n / y)) = Fin (y / n)
                 \/ nmax (Fin (y / n)) (Fin (n / y)) = Fin (n / y)).
    { cbn [nmax nle]. destruct (Qle_bool _ _); auto. }
    fold n. fold y.
    split.
    - intros (A & _ & _ & L1 & L2).
      apply Qabs_Qle_condition in A. destruct A as [A1 A2].
      repeat split; lra.
    - intros (T0 & T1 & L1 & L2).
      assert (A : Qabs (1 - 2 * target) <= 8 # 10)
        by (apply Qabs_Qle_condition; split; lra).
      split; [exact A|].
      split; [apply Qle_trans with (8 # 10); [exact A | discriminate]|].
      split; [|split; assumption].
      assert (R1 : y <= 10 * n) by (unfold y, n; nra).
      assert (R2 : n <= 10 * y) by (unfold y, n; nra).
      destruct Hr as [-> | ->]; apply nlt_fin_false;
        apply Qle_shift_div_r; assumption. }
  eexists. split; [vm_compute; reflexivity|].
  repeat split; vm_compute; reflexivity.
Qed.

Lemma asymmetric_pool_health_witness :
  exists pool,
    initializeAsymmetricPool (constructor NaN) (Fin 2000) (Fin 0.7)
    = Ok pool /\
    healthy (getPoolHealth (fun _ _ => EmptyString) (constructor NaN)
               (yesPool pool) (noPool pool) (initialPoolSize pool)) = true.
Proof.
  destruct ((proj1 asymmetric_pool_health) (fun _ _ => EmptyString) NaN 2000 0.7)
    as (pool & H & Hiff); try reflexivity; try discriminate.
  exists pool. split; [exact H|].
  apply Hiff. repeat split; discriminate.
Defined.

End PoolSetup.

(* ================================================================= *)
(** ** Odds conversion *)

Section Converter.

#[local] Set Warnings "-inexact-float".

Import OddsConverter.

(** X16 -- In exact arithmetic, [oddsToProbability] and
    [probabilityToOdds] invert each other: a probability strictly between
    0 and 1 gives odds above 1 that convert back to it, and odds above 1
    give a probability strictly between 0 and 1 that converts back to
    them.  On binary64 numbers the round trip can be lost: the odds of the
    probability 1e-320 are [Infinity], which converts back to 0. *)
Theorem odds_probability_round_trip :
  ((forall p : Q, 0 < p -> p < 1 ->
        exists o p',
          probabilityToOdds (Fin p) = Ok (Fin o) /\ 1 < o /\
          oddsToProbability (Fin o) = Done (Fin p') /\ p' == p) /\
     (forall o : Q, 1 < o ->
        exists p o',
          oddsToProbability (Fin o) = Done (Fin p) /\ 0 < p /\ p < 1 /\
          probabilityToOdds (Fin p) = Ok (Fin o') /\ o' == o)) /\
  (Float64.probabilityToOdds 1e-320 = Ok infinity /\
   Float64.oddsToProbability infinity = Done 0%float).
Proof.
  split.
  {
    split.
    - intros p H0 H1. exists (1 / p), (1 / (1 / p)).
      assert (Ho : 1 < 1 / p) by (apply Qlt_shift_div_l; lra).
      split; [apply probabilityToOdds_fin; assumption|].
      split; [exact Ho|]. split.
      + unfold oddsToProbability.
        assert (E : (Fin (1 / p) <=? Fin 1)%num = false)
          by (apply nle_fin_false; exact Ho).
        rewrite E, ndiv_fin by lra. reflexivity.
      + field. lra.
    - intros o Ho. exists (1 / o), (1 / (1 / o)).
      assert (Hp : 0 < 1 / o) by (apply Qdiv_pos; lra).
      assert (Hp1 : 1 / o < 1) by (apply Qlt_shift_div_r; lra).
      split.
      + unfold oddsToProbability.
        assert (E : (Fin o <=? Fin 1)%num = false)
          by (apply nle_fin_false; exact Ho).
        rewrite E, ndiv_fin by lra. reflexivity.
      + split; [exact Hp|]. split; [exact Hp1|].
        split; [apply probabilityToOdds_fin; assumption|].
        field. lra. }
  split; vm_compute; reflexivity.
Qed.

Lemma odds_probability_round_trip_witness :
  exists o p',
    probabilityToOdds (Fin 0.25) = Ok (Fin o) /\ 1 < o /\
    oddsToProbability (Fin o) = Done (Fin p') /\ p' == 0.25.
Proof.
  apply (proj1 (proj1 odds_probability_round_trip) 0.25); reflexivity.
Defined.

(** X17 -- In exact arithmetic, the odds that [calculateOddsFromPools]
    gives for positive pools are [(y + n) / n] and [(y + n) / y], both
    above 1 and with inverses that sum to 1; its probabilities are the
    prices of the pool, and [calculateOddsFromVolume] on the same numbers
    gives the same odds.  On binary64 numbers a probability can round to
    1: for the pools 1e-7 and 1e10 the call throws 'Probability must be
    between 0 and 1'. *)
Theorem pool_odds_are_fair :
  (forall (y n : Q),
     0 < y -> 0 < n ->
       exists po oy on,
         calculateOddsFromPools (Fin y) (Fin n) = Ok po /\
         po_yesOdds po = Fin oy /\ po_noOdds po = Fin on /\
         oy == (y + n) / n /\ on == (y + n) / y /\
         1 < oy /\ 1 < on /\ 1 / oy + 1 / on == 1 /\
         OddsCalculation.calculateYesPrice (Fin y) (Fin n)
         = Ok (po_yesProbability po) /\
         OddsCalculation.calculateNoPrice (Fin y) (Fin n)
         = Ok (po_noProbability po) /\
         calculateOddsFromVolume (Fin y) (Fin n)
         = Ok {| yesOdds := po_yesOdds po; noOdds := po_noOdds po |}) /\
  ((0 <? 1e-7)%float = true /\ (0 <? 1e10)%float = true /\
   Float64.calculateOddsFromPools 1e-7 1e10 = Throw ProbabilityOutOfRange).
Proof.
  split.
  { intros y n.
    intros Hy Hn.
    assert (Ht : 0 < y + n) by lra.
    assert (Py : 0 < n / (y + n)) by (apply Qdiv_pos; lra).
    assert (Pn : 0 < y / (y + n)) by (apply Qdiv_pos; lra).
    assert (Py1 : n / (y + n) < 1) by (apply Qlt_shift_div_r; lra).
    assert (Pn1 : y / (y + n) < 1) by (apply Qlt_shift_div_r; lra).
    unfold calculateOddsFromPools, calculateOddsFromVolume. cbn [nadd].
    assert (E : (Fin (y + n) === Fin 0)%num = false)
      by (apply neqb_fin_false; lra).
    rewrite E, !ndiv_fin by lra.
    rewrite !probabilityToOdds_fin by assumption. cbn [bind].
    do 3 eexists. split; [reflexivity|].
    cbn [po_yesOdds po_noOdds po_yesProbability po_noProbability].
    split; [reflexivity|]. split; [reflexivity|].
    split; [field; lra|]. split; [field; lra|].
    split; [apply Qlt_shift_div_l; lra|].
    split; [apply Qlt_shift_div_l; lra|].
    split; [field; repeat split; lra|].
    split; [apply calculateYesPrice_fin; lra|].
    split; [apply calculateNoPrice_fin; lra|].
    reflexivity. }
  repeat split; vm_compute; reflexivity.
Qed.

Lemma pool_odds_are_fair_witness :
  exists po oy on,
    calculateOddsFromPools (Fin 600) (Fin 1400) = Ok po /\
    po_yesOdds po = Fin oy /\ po_noOdds po = Fin on /\
    1 / oy + 1 / on == 1.
Proof.
  destruct ((proj1 pool_odds_are_fair) 600 1400 eq_refl eq_refl)
    as (po & oy & on & H & Hy & Hn & _ & _ & _ & _ & Hs & _).
  exists po, oy, on. repeat split; assumption.
Defined.

(** X18 -- In exact arithmetic, [applyMarginToOdds] with a margin [m >= 0]
    on positive odds answers [o / (1 + m)] unless the capped probability
    0.99 applies, is never below 100/99, is at most [o] when [o] is at
    least 100/99, and is above [o] when [o] is below 100/99.  On binary64
    numbers the result is [1 / ((1 / o) * (1 + m))] with three roundings:
    for the odds 49 and a margin of 0 it is above 49, and for the odds 3
    and a margin of 0.02 it is not the quotient [3 / 1.02]. *)
Theorem margin_on_odds :
  (forall (o m : Q),
     0 < o -> 0 <= m ->
       exists r,
         applyMarginToOdds (Fin o) (Some (Fin m)) = Fin r /\
         100 / 99 <= r /\
         ((1 + m) * (100 / 99) <= o -> r == o / (1 + m)) /\
         (o <= (1 + m) * (100 / 99) -> r == 100 / 99) /\
         (100 / 99 <= o -> r <= o) /\
         (o < 100 / 99 -> o < r)) /\
  ((49 <? Float64.applyMarginToOdds 49 0)%float = true /\
   (Float64.applyMarginToOdds 3 0.02 =? 3 / (1 + 0.02))%float = false).
Proof.
  split.
  { intros o m.
    intros Ho Hm. unfold applyMarginToOdds.
    rewrite ndiv_fin by lra. cbn [nadd nmul nmin nle].
    change (0.99)%Q with (99 # 100).
    assert (C : 100 / 99 == 100 # 99) by reflexivity.
    assert (Ha : 0 < 1 / o * (1 + m)).
    { apply Qmult_lt_0_compat; [apply Qdiv_pos|]; lra. }
    assert (Ea : 1 / o * (1 + m) * o == 1 + m) by (field; lra).
    destruct (Qle_bool (1 / o * (1 + m)) (99 # 100)) eqn:E.
    - apply Qle_bool_iff in E. rewrite ndiv_fin by lra.
      exists (1 / (1 / o * (1 + m))).
      assert (Er : 1 / (1 / o * (1 + m)) == o / (1 + m)) by (field; lra).
      assert (Hr : o / (1 + m) * (1 + m) == o) by (field; lra).
      assert (Hrp : 0 < o / (1 + m)) by (apply Qdiv_pos; lra).
      split; [reflexivity|]. rewrite Er, C.
      repeat split; intros; try lra; try nra.
    - apply Qle_bool_gt in E. rewrite ndiv_fin by (intro H; discriminate H).
      exists (1 / (99 # 100)).
      assert (Er : 1 / (99 # 100) == 100 # 99) by reflexivity.
      split; [reflexivity|]. rewrite Er, C.
      assert (Hr : o / (1 + m) * (1 + m) == o) by (field; lra).
      repeat split; intros; try lra; try nra. }
  split; vm_compute; reflexivity.
Qed.

Lemma margin_on_odds_witness :
  exists r,
    applyMarginToOdds (Fin 2) (Some (Fin 0.05)) = Fin r /\
    r == 2 / (1 + 0.05) /\ r <= 2.
Proof.
  destruct ((proj1 margin_on_odds) 2 0.05)
    as (r & H & _ & Hu & _ & Hle & _); try reflexivity; try discriminate.
  exists r. split; [exact H|]. split; [apply Hu | apply Hle]; discriminate.
Defined.

(** X19 -- In exact arithmetic, [calculatePayout] at the odds that
    [applyMarginToOdds] answers pays more than the stake, with a positive
    profit [payout - stake] and a return on investment of [profit / stake
    * 100], which is at least 100/99.  On binary64 numbers the return can
    fall below that bound: for a stake of 3 at the capped odds of
    [applyMarginToOdds 1.001 0.02] it is 1.0101010101010091. *)
Theorem payout_after_margin_is_profit :
  (forall (stake_ o m : Q),
     0 < stake_ -> 0 < o -> 0 <= m ->
       exists pay gain r,
         let p := calculatePayout (Fin stake_)
                    (applyMarginToOdds (Fin o) (Some (Fin m))) in
         payout p = Fin pay /\ profit p = Fin gain /\ roi p = Fin r /\
         stake_ < pay /\ 0 < gain /\ gain == pay - stake_ /\
         r == gain / stake_ * 100 /\ 100 / 99 <= r) /\
  (Float64.roi
     (Float64.calculatePayout 3 (Float64.applyMarginToOdds 1.001 0.02))
   <? 100 / 99)%float = true.
Proof.
  split.
  { intros stake_ o m.
    intros Hs Ho Hm.
    assert (M : exists q, applyMarginToOdds (Fin o) (Some (Fin m)) = Fin q
                          /\ (100 # 99) <= q).
    { unfold applyMarginToOdds.
      rewrite ndiv_fin by lra. cbn [nadd nmul nmin nle].
      change (0.99)%Q with (99 # 100).
      assert (Ha : 0 < 1 / o * (1 + m)).
      { apply Qmult_lt_0_compat; [apply Qdiv_pos|]; lra. }
      destruct (Qle_bool (1 / o * (1 + m)) (99 # 100)) eqn:E.
      - apply Qle_bool_iff in E. rewrite ndiv_fin by lra.
        eexists. split; [reflexivity|].
        apply Qle_shift_div_l; [exact Ha|]. lra.
      - rewrite ndiv_fin by (intro H; discriminate H).
        eexists. split; [reflexivity|]. discriminate. }
    destruct M as (q & -> & Hq).
    unfold calculatePayout. cbn [nmul nsub payout profit roi].
    rewrite ndiv_fin by lra. cbn [nmul].
    do 3 eexists. split; [reflexivity|]. split; [reflexivity|].
    split; [reflexivity|].
    assert (G : (stake_ * q - stake_) / stake_ == q - 1) by (field; lra).
    assert (C : 100 / 99 == 100 # 99) by reflexivity.
    repeat split; try nra; try reflexivity. }
  vm_compute; reflexivity.
Qed.

Lemma payout_after_margin_is_profit_witness :
  exists pay gain,
    payout (calculatePayout (Fin 100)
              (applyMarginToOdds (Fin 2) (Some (Fin 0.05)))) = Fin pay /\
    profit (calculatePayout (Fin 100)
              (applyMarginToOdds (Fin 2) (Some (Fin 0.05)))) = Fin gain /\
    100 < pay /\ 0 < gain.
Proof.
  destruct ((proj1 payout_after_margin_is_profit) 100 2 0.05)
    as (pay & gain & r & Hp & Hg & _ & Hlt & Hpos & _);
    try reflexivity; try discriminate.
  exists pay, gain. repeat split; assumption.
Defined.

End Converter.

(* ================================================================= *)
(** ** Requests against the store *)

Section Requests.

#[local] Set Warnings "-inexact-float".

Import Betting.

Ltac pricing_case := unfold pricing_error; cbn [In]; tauto.

Lemma priceBet_error (hm : HouseMargin.HouseMarginService)
  (marketId userId outcome : string) (betAmount : num)
  (market : Market) (profile : Profile) (e : Error) :
  priceBet hm marketId userId outcome betAmount market profile = Throw e ->
  pricing_error e.
Proof.
  unfold priceBet, HouseMargin.applyMargin, LiquidityPool.validatePoolState,
    OddsCalculation.validatePoolState, OddsCalculation.calculateYesPrice,
    OddsCalculation.calculateNoPrice, OddsCalculation.calculateTokensReceived,
    OddsCalculation.calculateEffectivePrice.
  repeat match goal with
  | |- context [if ?c then _ else _] =>
      match c with
      | context [if _ then _ else _] => fail 1
      | _ => destruct c
      end; cbn [bind]
  | |- Throw _ = Throw _ -> _ =>
      let H := fresh in intro H; injection H as <-; pricing_case
  | |- Ok _ = Throw _ -> _ => discriminate
  end.
Qed.

Ltac run_commit :=
  unfold executeTransaction, updatePosition;
  unfold mbind, write_checked, write_unchecked, insert_bet, read, ret;
  cbn [markets_update_fails bets_insert_fails profiles_update_fails
       positions_write_fails transactions_insert_fails
       price_history_insert_fails].

(** How the commit step fails. *)
Lemma executeTransaction_error (f : Faults) (p : TxParams) (db db' : DB)
  (e : Error) :
  executeTransaction f p db = (db', Throw e) ->
  (e = ClientError t_markets /\ db' = db) \/
  e = ClientError t_bets \/ e = ClientError t_profiles.
Proof.
  destruct f as [a b c d g h]. run_commit.
  destruct a; [intro H; injection H as <- <-; auto|].
  destruct b; [intro H; injection H as <- <-; auto|].
  destruct c; [intro H; injection H as <- <-; auto|].
  cbn [positions with_markets with_bets with_profiles].
  destruct (single _); destruct d, g, h; discriminate.
Qed.

(** The summary returned by a commit repeats the parameters it was given. *)
Lemma executeTransaction_summary (f : Faults) (p : TxParams) (db db' : DB)
  (r : BetResult) :
  executeTransaction f p db = (db', Ok r) ->
  r_tokensReceived r = p_tokensReceived p /\
  r_effectivePrice r = p_effectivePrice p /\
  r_slippage r = p_slippage p /\
  r_priceBeforeBet r = p_priceBeforeBet p /\
  r_newYesPrice r = p_newYesPrice p /\ r_newNoPrice r = p_newNoPrice p /\
  r_newYesPool r = p_yesPoolAfter p /\ r_newNoPool r = p_noPoolAfter p /\
  r_netAmount r = p_netAmount p /\ r_houseFee r = p_houseFee p /\
  r_grossAmount r = p_betAmount p.
Proof.
  destruct f as [a b c d g h]. run_commit.
  destruct a; [discriminate|].
  destruct b; [discriminate|].
  destruct c; [discriminate|].
  cbn [positions with_markets with_bets with_profiles].
  destruct (single _); destruct d, g, h;
    intro H; injection H as _ <-; cbn; repeat split; reflexivity.
Qed.

(** X20 -- A bet that [placeBet] rejects leaves the store as it was unless the
    commit step had started: every error other than 'Bet processing
    failed: ...' comes with an unchanged store, and 'Bet processing
    failed: ...' carries no code and names the refused write, one of the
    first three. *)
Theorem rejection_before_commit_changes_nothing
  (hm : HouseMargin.HouseMarginService) (f : Faults)
  (marketId userId outcome : string) (betAmount : num) (db db' : DB)
  (e : Error) :
  placeBet hm f marketId userId outcome betAmount db = (db', Throw e) ->
  (db' = db /\ forall cause, e <> BetProcessingFailed cause) \/
  (exists t, e = BetProcessingFailed (ClientError t) /\ code e = None /\
             (t = t_markets /\ db' = db \/ t = t_bets \/ t = t_profiles)).
Proof.
  unfold placeBet, mbind, lift, rethrow.
  destruct (validateBetInputs marketId userId outcome betAmount) as [[]|e0]
    eqn:Ei.
  2:{ intro H. injection H as <- <-. left. split; [reflexivity|].
      unfold validateBetInputs in Ei.
      repeat match type of Ei with
      | (if ?c then _ else _) = _ => destruct c
      end; try discriminate; injection Ei as <-; discriminate. }
  destruct (getMarket marketId db) as [db1 [market|e0]] eqn:Em.
  2:{ intro H. injection H as <- <-. left.
      pose proof (getMarket_reads _ _ _ _ Em) as ->. split; [reflexivity|].
      unfold getMarket in Em. destruct (single _); [discriminate|].
      injection Em as <-. discriminate. }
  pose proof (getMarket_reads _ _ _ _ Em) as ->.
  destruct (validateMarketState market) as [[]|e0] eqn:Es.
  2:{ intro H. injection H as <- <-. left. split; [reflexivity|].
      unfold validateMarketState in Es.
      repeat match type of Es with
      | (if ?c then _ else _) = _ => destruct c
      end; try discriminate; injection Es as <-; discriminate. }
  destruct (getUserProfile userId db) as [db1 [profile|e0]] eqn:Eu.
  2:{ intro H. injection H as <- <-. left.
      pose proof (getUserProfile_reads _ _ _ _ Eu) as ->.
      split; [reflexivity|].
      unfold getUserProfile in Eu. destruct (single _); [discriminate|].
      injection Eu as <-. discriminate. }
  pose proof (getUserProfile_reads _ _ _ _ Eu) as ->.
  destruct (validateUserBalance profile betAmount) as [[]|e0] eqn:Eb.
  2:{ intro H. injection H as <- <-. left. split; [reflexivity|].
      unfold validateUserBalance in Eb.
      destruct (_ <? _)%num; [|discriminate]. injection Eb as <-.
      discriminate. }
  destruct (priceBet hm marketId userId outcome betAmount market profile)
    as [params|e0] eqn:Ep.
  2:{ intro H. injection H as <- <-. left. split; [reflexivity|].
      apply priceBet_error in Ep. unfold pricing_error in Ep. cbn [In] in Ep.
      intros cause ->.
      repeat (destruct Ep as [Ep | Ep]; [discriminate Ep|]). exact Ep. }
  destruct (executeTransaction f params db) as [db2 [r2|e0]] eqn:Ex;
    [discriminate|].
  intro H. injection H as <- <-. right.
  apply executeTransaction_error in Ex.
  destruct Ex as [[-> ->] | [-> | ->]]; eexists;
    (split; [reflexivity|]); (split; [reflexivity|]); auto.
Qed.

Lemma rejection_before_commit_changes_nothing_witness :
  exists db' e,
    placeBet Scenario.house no_faults "m1" "u1" "yes" (Fin 1000)
      Scenario.db_A = (db', Throw e) /\
    db' = Scenario.db_A.
Proof.
  destruct (placeBet Scenario.house no_faults "m1" "u1" "yes" (Fin 1000)
              Scenario.db_A) as [db' [r|e]] eqn:E;
    [vm_compute in E; discriminate E|].
  exists db', e. split; [reflexivity|].
  destruct (rejection_before_commit_changes_nothing _ _ _ _ _ _ _ _ _ E)
    as [[H _] | (t & He & _)]; [exact H|].
  vm_compute in E. rewrite He in E. discriminate E.
Defined.

Lemma validatePoolState_true (y n k : num) (b : bool) :
  OddsCalculation.validatePoolState y n k = Ok b -> b = true.
Proof.
  unfold OddsCalculation.validatePoolState.
  destruct (_ || _); [discriminate|].
  destruct (_ >? _)%num; [discriminate|].
  intro H. injection H as <-. reflexivity.
Qed.

Ltac bind_cases :=
  repeat match goal with
  | |- bind (bind ?x _) _ = Ok _ -> _ =>
      let E := fresh "E" in
      destruct x eqn:E; cbn [bind]; [|discriminate]
  | |- bind ?x _ = Ok _ -> _ =>
      let E := fresh "E" in
      destruct x eqn:E; cbn [bind]; [|discriminate]
  | |- (let '(_, _) := ?x in _) = Ok _ -> _ => destruct x
  | |- (if ?c then Throw _ else _) = Ok _ -> _ =>
      let E := fresh "E" in
      destruct c eqn:E; [discriminate|]
  end.

(** Steps 3 to 8 of [placeBet] compute what [simulateBet] computes on the
    net amount. *)
Lemma priceBet_simulation (hm : HouseMargin.HouseMarginService)
  (marketId userId outcome : string) (betAmount : num)
  (market : Market) (profile : Profile) (params : TxParams) :
  priceBet hm marketId userId outcome betAmount market profile = Ok params ->
  exists margin sim,
    HouseMargin.applyMargin hm betAmount = Ok margin /\
    OddsCalculation.simulateBet outcome (HouseMargin.netAmount margin)
      (yes_pool market) (no_pool market) (liquidity_constant market)
    = Ok sim /\
    LiquidityPool.validatePoolState (yes_pool market) (no_pool market)
      (liquidity_constant market) = Ok true /\
    p_marketId params = marketId /\ p_market params = market /\
    p_betAmount params = betAmount /\
    p_netAmount params = HouseMargin.netAmount margin /\
    p_houseFee params = HouseMargin.houseFee margin /\
    p_tokensReceived params = OddsCalculation.tokensReceived sim /\
    p_effectivePrice params = OddsCalculation.effectivePrice sim /\
    p_slippage params = OddsCalculation.slippage sim /\
    p_priceBeforeBet params = OddsCalculation.priceBeforeBet sim /\
    p_newYesPrice params = OddsCalculation.newYesPrice sim /\
    p_newNoPrice params = OddsCalculation.newNoPrice sim /\
    p_yesPoolAfter params = OddsCalculation.newYesPool sim /\
    p_noPoolAfter params = OddsCalculation.newNoPool sim.
Proof.
  unfold priceBet, OddsCalculation.simulateBet, OUTCOMES_YES.
  destruct (String.eqb outcome "yes"); bind_cases;
    intro H; injection H as <-;
    repeat match goal with
    | H : LiquidityPool.validatePoolState _ _ _ = Ok ?b |- _ =>
        is_var b; pose proof (validatePoolState_true _ _ _ _ H); subst b
    end;
    do 2 eexists; (split; [reflexivity|]);
    (split;
     [ repeat (match goal with
               | H : ?x = Ok _ |- context [?x] => rewrite H
               end; cbn [bind]);
       reflexivity |]);
    cbn; repeat split; reflexivity.
Qed.

(** X21 -- Whenever [placeBet] commits a bet, [getBetQuote] for the same request
    on the store before the bet succeeds, leaves the store unchanged and
    quotes the amounts, tokens, effective price, slippage and prices that
    the bet then gets. *)
Theorem quote_is_honoured (hm : HouseMargin.HouseMarginService) (f : Faults)
  (marketId userId outcome : string) (betAmount : num) (db db' : DB)
  (r : BetResult) :
  placeBet hm f marketId userId outcome betAmount db = (db', Ok r) ->
  exists q,
    getBetQuote hm marketId outcome betAmount db = (db, Ok q) /\
    q_grossAmount q = r_grossAmount r /\
    q_netAmount q = r_netAmount r /\ q_houseFee q = r_houseFee r /\
    q_estimatedTokens q = r_tokensReceived r /\
    q_estimatedEffectivePrice q = r_effectivePrice r /\
    q_estimatedSlippage q = r_slippage r /\
    q_currentPrice q = r_priceBeforeBet r /\
    q_newEstimatedPrice q
    = (if String.eqb outcome "yes" then r_newYesPrice r
       else r_newNoPrice r).
Proof.
  intro H.
  apply placeBet_ok_inv in H
    as (market & profile & params & _ & Hm & Hs & _ & _ & Hp & Hx).
  apply priceBet_simulation in Hp
    as (margin & sim & Ha & Hsim & _ & _ & _ & Pg & Pn & Pf & Pt & Pe & Psl
        & Pp & Py & Pno & _ & _).
  apply executeTransaction_summary in Hx
    as (Rt & Re & Rs & Rp & Ry & Rn & _ & _ & Rnet & Rfee & Rg).
  unfold getBetQuote, mbind, lift, ret.
  rewrite Hm, Hs, Ha, Hsim.
  eexists. split; [reflexivity|].
  cbn [q_grossAmount q_netAmount q_houseFee q_estimatedTokens
       q_estimatedEffectivePrice q_estimatedSlippage q_currentPrice
       q_newEstimatedPrice].
  unfold OUTCOMES_YES.
  rewrite Rt, Re, Rs, Rp, Ry, Rn, Rnet, Rfee, Rg.
  rewrite Pg, Pn, Pf, Pt, Pe, Psl, Pp, Py, Pno.
  repeat split; reflexivity.
Qed.

Lemma quote_is_honoured_witness :
  exists db' r q,
    Scenario.bet_A no_faults = (db', Ok r) /\
    getBetQuote Scenario.house "m1" "yes" (Fin 100) Scenario.db_A
    = (Scenario.db_A, Ok q) /\
    q_estimatedTokens q = r_tokensReceived r /\
    q_netAmount q = r_netAmount r.
Proof.
  destruct (Scenario.bet_A no_faults) as [db' [r|e]] eqn:E;
    [|vm_compute in E; discriminate E].
  destruct (quote_is_honoured _ _ _ _ _ _ _ _ _ E)
    as (q & Hq & _ & Hn & _ & Ht & _).
  exists db', r, q. split; [reflexivity|]. repeat split; assumption.
Defined.

Lemma filter_update_where {A : Type} (sel : A -> bool) (upd : A -> A)
  (rows : list A) :
  (forall r, sel (upd r) = sel r) ->
  filter sel (update_where sel upd rows) = map upd (filter sel rows).
Proof.
  intro H. unfold update_where.
  induction rows as [|r rows IH]; [reflexivity|].
  cbn [map filter]. destruct (sel r) eqn:E.
  - rewrite H, E. cbn [map]. rewrite IH. reflexivity.
  - rewrite E. exact IH.
Qed.

(** The two tables that a commit rewrites. *)
Lemma executeTransaction_tables (f : Faults) (p : TxParams) (db db' : DB)
  (r : BetResult) :
  executeTransaction f p db = (db', Ok r) ->
  markets db'
  = update_where (fun m => String.eqb (market_id m) (p_marketId p))
      (fun m => {| market_id := market_id m;
                   status := status m;
                   pool_initialized := pool_initialized m;
                   yes_pool := p_yesPoolAfter p;
                   no_pool := p_noPoolAfter p;
                   liquidity_constant := liquidity_constant m;
                   yes_price := p_newYesPrice p;
                   no_price := p_newNoPrice p;
                   total_volume :=
                     (or_else (total_volume (p_market p)) (Fin 0)
                      + p_betAmount p)%num |})
      (markets db) /\
  profiles db'
  = update_where (fun q => String.eqb (profile_id q) (p_userId p))
      (fun q => {| profile_id := profile_id q;
                   balance := (balance (p_profile p) - p_betAmount p)%num |})
      (profiles db).
Proof.
  destruct f as [a b c d g h]. run_commit.
  destruct a; [discriminate|].
  destruct b; [discriminate|].
  destruct c; [discriminate|].
  cbn [positions with_markets with_bets with_profiles].
  destruct (single _); destruct d, g, h;
    intro H; injection H as <- _; split; reflexivity.
Qed.

(** The market row read back after a commit. *)
Lemma committed_market (f : Faults) (p : TxParams) (db db' : DB)
  (r : BetResult) (market : Market) :
  getMarket (p_marketId p) db = (db, Ok market) ->
  executeTransaction f p db = (db', Ok r) ->
  getMarket (p_marketId p) db'
  = (db', Ok {| market_id := market_id market;
                status := status market;
                pool_initialized := pool_initialized market;
                yes_pool := p_yesPoolAfter p;
                no_pool := p_noPoolAfter p;
                liquidity_constant := liquidity_constant market;
                yes_price := p_newYesPrice p;
                no_price := p_newNoPrice p;
                total_volume :=
                  (or_else (total_volume (p_market p)) (Fin 0)
                   + p_betAmount p)%num |}).
Proof.
  intros Hm Hx. apply executeTransaction_tables in Hx as (Hmk & _).
  unfold getMarket in *. rewrite Hmk.
  rewrite filter_update_where by reflexivity.
  destruct (single (filter _ (markets db))) as [m0|] eqn:Es; [|discriminate].
  injection Hm as ->. apply single_singleton in Es. rewrite Es.
  reflexivity.
Qed.

(** The profile row read back after a commit. *)
Lemma committed_profile (f : Faults) (p : TxParams) (db db' : DB)
  (r : BetResult) (profile : Profile) :
  getUserProfile (p_userId p) db = (db, Ok profile) ->
  executeTransaction f p db = (db', Ok r) ->
  getUserProfile (p_userId p) db'
  = (db', Ok {| profile_id := profile_id profile;
                balance := (balance (p_profile p) - p_betAmount p)%num |}).
Proof.
  intros Hu Hx. apply executeTransaction_tables in Hx as (_ & Hpr).
  unfold getUserProfile in *. rewrite Hpr.
  rewrite filter_update_where by reflexivity.
  destruct (single (filter _ (profiles db))) as [q0|] eqn:Es; [|discriminate].
  injection Hu as ->. apply single_singleton in Es. rewrite Es.
  reflexivity.
Qed.

(** X22 -- In exact arithmetic, a committed bet never overdraws: with a
    finite balance before the bet, the balance read back afterwards is not
    negative and is below the balance before.  On the binary64 store the
    balance can stay where it was: with a balance of 1e17 the committed
    bet of 1 leaves a balance of 1e17. *)
Theorem committed_balance_not_negative :
  (forall
    (hm : HouseMargin.HouseMarginService) (f : Faults)
    (marketId userId outcome : string) (betAmount : num) (db db' : DB)
    (r : BetResult) (profile : Profile) (before : Q),
     getUserProfile userId db = (db, Ok profile) ->
       balance profile = Fin before ->
       placeBet hm f marketId userId outcome betAmount db = (db', Ok r) ->
       exists after,
         getUserProfile userId db'
         = (db', Ok {| profile_id := profile_id profile;
                       balance := Fin after |}) /\
         0 <= after /\ after < before) /\
  (exists (db' : Betting64.DB) (r : Betting64.BetResult),
     Betting64.placeBet Scenario64.HOUSE_MARGIN Betting.no_faults
       "m1" "u1" "yes" 1 Scenario64.db_rich = (db', Ok r) /\
     Betting64.getUserProfile "u1" db'
     = (db', Ok {| Betting64.profile_id := "u1";
                   Betting64.balance := 1e17 |})).
Proof.
  split.
  { intros hm f marketId userId outcome betAmount db db' r profile before.
    intros Hu Hbefore H.
    apply placeBet_ok_inv in H
      as (market & profile0 & params & Hin & _ & _ & Hp & Hbal & Hprice & Hx).
    rewrite Hu in Hp. injection Hp as <-.
    apply priceBet_ok_inv in Hprice as (Pg & Pu & Pp & _).
    assert (Hg : exists g, betAmount = Fin g /\ 0 < g /\ g <= before).
    { unfold validateUserBalance in Hbal. rewrite Hbefore in Hbal.
      unfold validateBetInputs in Hin.
      destruct (_ || _) in Hin; [discriminate|].
      destruct (negb _) in Hin; [discriminate|].
      destruct betAmount as [g| | |]; cbn in Hin, Hbal; try discriminate.
      exists g. split; [reflexivity|].
      destruct (Qeq_bool g 0); [discriminate|].
      cbn in Hin. destruct (Qle_bool g 0) eqn:E; [discriminate|].
      apply Qle_bool_gt in E.
      destruct (Qltb before g) eqn:E'; [discriminate|].
      apply Qltb_ge in E'. split; assumption. }
    destruct Hg as (g & -> & Hpos & Hle).
    rewrite <- Pu in Hu.
    pose proof (committed_profile _ _ _ _ _ _ Hu Hx) as Hafter.
    rewrite Pu, Pp, Pg, Hbefore in Hafter. cbn [nsub] in Hafter.
    exists (before - g). split; [exact Hafter|]. split; lra. }
  do 2 eexists. split; vm_compute; reflexivity.
Qed.

Lemma committed_balance_not_negative_witness :
  exists db' r after,
    Scenario.bet_A no_faults = (db', Ok r) /\
    getUserProfile "u1" db'
    = (db', Ok {| profile_id := "u1"; balance := Fin after |}) /\
    0 <= after /\ after < 500.
Proof.
  destruct (Scenario.bet_A no_faults) as [db' [r|e]] eqn:E;
    [|vm_compute in E; discriminate E].
  destruct ((proj1 committed_balance_not_negative) Scenario.house no_faults
              "m1"%string "u1"%string "yes"%string (Fin 100) Scenario.db_A db' r
              Scenario.profile_A 500 eq_refl eq_refl E)
    as (after & H & H0 & H1).
  exists db', r, after. split; [reflexivity|]. repeat split; assumption.
Defined.

Lemma validatePoolState_positive (y n : Q) (k : num) (b : bool) :
  OddsCalculation.validatePoolState (Fin y) (Fin n) k = Ok b ->
  0 < y /\ 0 < n.
Proof.
  unfold OddsCalculation.validatePoolState.
  destruct (Fin y <=? Fin 0)%num eqn:E0; [discriminate|].
  destruct (Fin n <=? Fin 0)%num eqn:E1; [discriminate|].
  intros _. apply nle_fin_false in E0. apply nle_fin_false in E1.
  split; assumption.
Qed.

(** What an accepted bet leaves behind: the market row read back, with the
    values stored written out. *)
Lemma committed_state (env : num) (f : Faults)
  (marketId userId outcome : string) (g : Q) (db db' : DB) (r : BetResult)
  (market : Market) (y n k : Q) :
  getMarket marketId db = (db, Ok market) ->
  yes_pool market = Fin y -> no_pool market = Fin n ->
  liquidity_constant market = Fin k ->
  placeBet (HouseMargin.constructor env) f marketId userId outcome (Fin g) db
  = (db', Ok r) ->
  exists y' n',
    0 < y' /\ 0 < n' /\ y' * n' == k /\
    validateMarketState market = Ok tt /\
    r_newYesPool r = Fin y' /\ r_newNoPool r = Fin n' /\
    r_newYesPrice r = Fin (n' / (y' + n')) /\
    r_newNoPrice r = Fin (y' / (y' + n')) /\
    getMarket marketId db'
    = (db', Ok {| market_id := market_id market;
                  status := status market;
                  pool_initialized := pool_initialized market;
                  yes_pool := Fin y';
                  no_pool := Fin n';
                  liquidity_constant := Fin k;
                  yes_price := Fin (n' / (y' + n'));
                  no_price := Fin (y' / (y' + n'));
                  total_volume :=
                    (or_else (total_volume market) (Fin 0) + Fin g)%num |}).
Proof.
  intros Hm Ey En Ek H.
  apply placeBet_ok_inv in H
    as (market0 & profile & params & _ & Hm0 & Hs & _ & _ & Hp & Hx).
  rewrite Hm in Hm0. injection Hm0 as <-.
  apply priceBet_simulation in Hp
    as (margin & sim & Ha & Hsim & Hv & Pid & Pm & Pg & _ & _ & _ & _ & _ & _
        & Py & Pno & Pya & Pna).
  rewrite Ey, En, Ek in Hsim, Hv.
  apply validatePoolState_positive in Hv as (Hy & Hn).
  destruct (constructor_margin env) as (m & Em & Hlo & Hhi).
  unfold HouseMargin.applyMargin in Ha. rewrite Em in Ha.
  destruct (Fin g <=? Fin 0)%num; [discriminate|].
  injection Ha as <-. cbn [HouseMargin.netAmount nmul nsub] in Hsim.
  apply simulateBet_after in Hsim
    as (y' & n' & Sy & Sn & Hy' & Hn' & Hprod & _ & _ & _ & Spy & Spn);
    try assumption.
  pose proof (executeTransaction_summary _ _ _ _ _ Hx)
    as (_ & _ & _ & _ & Ry & Rn & Rya & Rna & _).
  rewrite <- Pid in Hm.
  pose proof (committed_market _ _ _ _ _ _ Hm Hx) as Hafter.
  rewrite Pid, Pm, Pg, Py, Pno, Pya, Pna, Spy, Spn, Sy, Sn, Ek in Hafter.
  exists y', n'.
  rewrite Ry, Rn, Rya, Rna, Py, Pno, Pya, Pna, Spy, Spn, Sy, Sn.
  repeat split; try assumption; reflexivity.
Qed.

(** X23 -- In exact arithmetic, the market row that a committed bet leaves
    behind keeps its identity, status and constant, has positive pools
    whose product is the constant, stores the prices of those pools, adds
    the gross amount to the volume, and passes the two checks that the
    next bet starts with.  On the binary64 store the product of the new
    pools is only approximately the constant: after the committed bet of
    1000000 on the pool 100000/100000 it is below the constant. *)
Theorem committed_market_accepts_next_bet :
  (forall
    (env : num) (f : Faults) (marketId userId outcome : string) (g : Q)
    (db db' : DB) (r : BetResult) (market : Market) (y n k : Q),
     getMarket marketId db = (db, Ok market) ->
       yes_pool market = Fin y -> no_pool market = Fin n ->
       liquidity_constant market = Fin k ->
       placeBet (HouseMargin.constructor env) f marketId userId outcome
         (Fin g) db
       = (db', Ok r) ->
       exists market' y' n',
         getMarket marketId db' = (db', Ok market') /\
         market_id market' = market_id market /\
         status market' = status market /\
         liquidity_constant market' = Fin k /\
         yes_pool market' = Fin y' /\ no_pool market' = Fin n' /\
         0 < y' /\ 0 < n' /\ y' * n' == k /\
         OddsCalculation.calculateYesPrice (yes_pool market') (no_pool market')
         = Ok (yes_price market') /\
         OddsCalculation.calculateNoPrice (yes_pool market') (no_pool market')
         = Ok (no_price market') /\
         total_volume market'
         = (or_else (total_volume market) (Fin 0) + Fin g)%num /\
         validateMarketState market' = Ok tt /\
         LiquidityPool.validatePoolState (yes_pool market') (no_pool market')
           (liquidity_constant market') = Ok true) /\
  (exists (db' : Betting64.DB) (r : Betting64.BetResult)
     (market' : Betting64.Market),
     Betting64.placeBet Scenario64.HOUSE_MARGIN Betting.no_faults
       "m1" "u1" "yes" 1000000
       (Scenario64.db_with 100000 100000 2000000) = (db', Ok r) /\
     Betting64.getMarket "m1" db' = (db', Ok market') /\
     (Betting64.yes_pool market' * Betting64.no_pool market'
      <? Betting64.liquidity_constant market')%float = true).
Proof.
  split.
  { intros env f marketId userId outcome g db db' r market y n k.
    intros Hm Ey En Ek H.
    destruct (committed_state _ _ _ _ _ _ _ _ _ _ _ _ _ Hm Ey En Ek H)
      as (y' & n' & Hy' & Hn' & Hprod & Hs & _ & _ & _ & _ & Hafter).
    eexists. exists y', n'. split; [exact Hafter|].
    cbn [market_id status liquidity_constant yes_pool no_pool yes_price
         no_price total_volume].
    repeat split; try assumption; try reflexivity.
    - apply calculateYesPrice_fin. lra.
    - apply calculateNoPrice_fin. lra.
    - apply product_state_valid; assumption. }
  do 3 eexists. split; [vm_compute; reflexivity|].
  split; [vm_compute; reflexivity|]. reflexivity.
Qed.

Lemma committed_market_accepts_next_bet_witness :
  exists db' r market',
    Scenario.bet_A no_faults = (db', Ok r) /\
    getMarket "m1" db' = (db', Ok market') /\
    validateMarketState market' = Ok tt /\
    LiquidityPool.validatePoolState (yes_pool market') (no_pool market')
      (liquidity_constant market') = Ok true.
Proof.
  destruct (Scenario.bet_A no_faults) as [db' [r|e]] eqn:E;
    [|vm_compute in E; discriminate E].
  destruct ((proj1 committed_market_accepts_next_bet) NaN no_faults
              "m1"%string "u1"%string "yes"%string
              100 Scenario.db_A db' r Scenario.market_A 1000 1000 1000000
              eq_refl eq_refl eq_refl eq_refl E)
    as (market' & y' & n' & H & _ & _ & _ & _ & _ & _ & _ & _ & _ & _ & _
        & Hs & Hv).
  exists db', r, market'. split; [reflexivity|]. repeat split; assumption.
Defined.

(** [getMarketOdds] on an initialised market with positive pools. *)
Lemma getMarketOdds_run (hm : HouseMargin.HouseMarginService)
  (marketId : string) (db : DB) (market : Market) (y n : Q)
  (yp np : HouseMargin.Prices) :
  getMarket marketId db = (db, Ok market) ->
  pool_initialized market = true ->
  yes_pool market = Fin y -> no_pool market = Fin n ->
  0 < y -> 0 < n ->
  HouseMargin.applyMarginToPrices hm (Fin (n / (y + n))) = Done yp ->
  HouseMargin.applyMarginToPrices hm (Fin (y / (y + n))) = Done np ->
  getMarketOdds hm marketId db
  = Done {| od_marketId := marketId;
            od_yesPrice := Fin (n / (y + n));
            od_noPrice := Fin (y / (y + n));
            od_yesPool := Fin y;
            od_noPool := Fin n;
            od_liquidityConstant := liquidity_constant market;
            od_totalLiquidity := Fin (y + n);
            od_pricesWithMargin := {| mp_yes := yp; mp_no := np |} |}.
Proof.
  intros Hm Hi Ey En Hy Hn Hyp Hnp.
  unfold getMarketOdds, OddsCalculation.getMarketOdds.
  rewrite Hm. cbn [snd of_result obind]. rewrite Hi. cbn [negb].
  rewrite Ey, En.
  rewrite calculateYesPrice_fin, calculateNoPrice_fin by lra.
  cbn [bind of_result obind OddsCalculation.mo_yesPrice
       OddsCalculation.mo_noPrice OddsCalculation.mo_totalLiquidity].
  rewrite Hyp, Hnp. reflexivity.
Qed.

Lemma price_in_unit_interval (a b : Q) :
  0 < a -> 0 < b -> 0 < a / (b + a) /\ a / (b + a) < 1.
Proof.
  intros Ha Hb. split.
  - apply Qdiv_pos; lra.
  - apply Qlt_shift_div_r; lra.
Qed.

(** X24 -- In exact arithmetic, [getMarketOdds] on a market with positive
    pools: an error without code when the pool is not initialised;
    otherwise, whatever the status of the market, prices strictly positive
    that sum to 1, each bracketed by its sell and its buy price.  On the
    binary64 store the prices can round to 0 and to 1: with both pools at
    1e308 both prices are 0, and with the pools 1e-7 and 1e10 the yes
    price is 1. *)
Theorem market_odds_bracket_prices :
  (forall
    (env : num) (marketId : string) (db : DB) (market : Market) (y n : Q),
     getMarket marketId db = (db, Ok market) ->
       yes_pool market = Fin y -> no_pool market = Fin n ->
       0 < y -> 0 < n ->
       let hm := HouseMargin.constructor env in
       (pool_initialized market = false ->
        getMarketOdds hm marketId db = Failed PoolNotInitializedUncoded) /\
       (pool_initialized market = true ->
        exists od py pn ybuy ysell nbuy nsell,
          getMarketOdds hm marketId db = Done od /\
          od_yesPrice od = Fin py /\ od_noPrice od = Fin pn /\
          0 < py /\ 0 < pn /\ py + pn == 1 /\
          od_totalLiquidity od = Fin (y + n) /\
          HouseMargin.buyPrice (mp_yes (od_pricesWithMargin od)) = Fin ybuy /\
          HouseMargin.sellPrice (mp_yes (od_pricesWithMargin od)) = Fin ysell /\
          HouseMargin.buyPrice (mp_no (od_pricesWithMargin od)) = Fin nbuy /\
          HouseMargin.sellPrice (mp_no (od_pricesWithMargin od)) = Fin nsell /\
          0 <= ysell /\ ysell <= py /\ py <= ybuy /\ ybuy <= 1 /\
          0 <= nsell /\ nsell <= pn /\ pn <= nbuy /\ nbuy <= 1)) /\
  ((exists od : Betting64.OddsData,
      Betting64.getMarketOdds Scenario64.HOUSE_MARGIN "m1"
        (Scenario64.db_with 1e308 1e308 0) = Done od /\
      Betting64.od_yesPrice od = 0%float /\
      Betting64.od_noPrice od = 0%float) /\
   (exists od : Betting64.OddsData,
      Betting64.getMarketOdds Scenario64.HOUSE_MARGIN "m1"
        (Scenario64.db_with 1e-7 1e10 0) = Done od /\
      Betting64.od_yesPrice od = 1%float)).
Proof.
  split.
  { intros env marketId db market y n.
    intros Hm Ey En Hy Hn hm. subst hm. split.
    - intro Hi. unfold getMarketOdds. rewrite Hm. cbn [snd of_result obind].
      rewrite Hi. reflexivity.
    - intro Hi.
      destruct (constructor_margin env) as (m & Em & Hlo & Hhi).
      destruct (price_in_unit_interval n y Hn Hy) as (Hpy0 & Hpy1).
      destruct (price_in_unit_interval y n Hy Hn) as (Hpn0 & Hpn1).
      assert (Hsum : n + y == y + n) by ring.
      rewrite Hsum in Hpn0, Hpn1.
      destruct (applyMarginToPrices_run _ m (n / (y + n)) Em Hlo Hhi)
        as (ybuy & ysell & Hyp & A1 & A2 & A3 & A4 & _); try lra.
      destruct (applyMarginToPrices_run _ m (y / (y + n)) Em Hlo Hhi)
        as (nbuy & nsell & Hnp & B1 & B2 & B3 & B4 & _); try lra.
      rewrite (getMarketOdds_run _ _ _ _ _ _ _ _ Hm Hi Ey En Hy Hn Hyp Hnp).
      eexists. exists (n / (y + n)), (y / (y + n)), ybuy, ysell, nbuy, nsell.
      split; [reflexivity|].
      cbn [od_yesPrice od_noPrice od_totalLiquidity od_pricesWithMargin
           mp_yes mp_no HouseMargin.buyPrice HouseMargin.sellPrice].
      repeat split; try assumption; try reflexivity.
      field. lra. }
  split; eexists; (split; [vm_compute; reflexivity|]);
    repeat split; reflexivity.
Qed.

Lemma market_odds_bracket_prices_witness :
  exists od py pn,
    getMarketOdds Scenario.house "m1" Scenario.db_A = Done od /\
    od_yesPrice od = Fin py /\ od_noPrice od = Fin pn /\ py + pn == 1.
Proof.
  destruct (proj2 ((proj1 market_odds_bracket_prices) NaN "m1"%string Scenario.db_A
                     Scenario.market_A 1000 1000
                     eq_refl eq_refl eq_refl eq_refl eq_refl) eq_refl)
    as (od & py & pn & ybuy & ysell & nbuy & nsell & H & Hy & Hn & _ & _
        & Hs & _).
  exists od, py, pn. repeat split; assumption.
Defined.

(** X25 -- After a committed bet, [getMarketOdds] answers the new prices and pools
    that the bet reported. *)
Theorem odds_follow_commit (env : num) (f : Faults)
  (marketId userId outcome : string) (g : Q) (db db' : DB) (r : BetResult)
  (market : Market) (y n k : Q) :
  getMarket marketId db = (db, Ok market) ->
  yes_pool market = Fin y -> no_pool market = Fin n ->
  liquidity_constant market = Fin k ->
  placeBet (HouseMargin.constructor env) f marketId userId outcome (Fin g) db
  = (db', Ok r) ->
  exists od,
    getMarketOdds (HouseMargin.constructor env) marketId db' = Done od /\
    od_yesPrice od = r_newYesPrice r /\ od_noPrice od = r_newNoPrice r /\
    od_yesPool od = r_newYesPool r /\ od_noPool od = r_newNoPool r /\
    od_liquidityConstant od = Fin k.
Proof.
  intros Hm Ey En Ek H.
  destruct (committed_state _ _ _ _ _ _ _ _ _ _ _ _ _ Hm Ey En Ek H)
    as (y' & n' & Hy' & Hn' & Hprod & Hs & Ry & Rn & Rpy & Rpn & Hafter).
  assert (Hi : pool_initialized market = true).
  { unfold validateMarketState in Hs.
    destruct (pool_initialized market); [reflexivity|discriminate]. }
  destruct (constructor_margin env) as (m & Em & Hlo & Hhi).
  destruct (price_in_unit_interval n' y' Hn' Hy') as (Hpy0 & Hpy1).
  destruct (price_in_unit_interval y' n' Hy' Hn') as (Hpn0 & Hpn1).
  assert (Hsum : n' + y' == y' + n') by ring.
  rewrite Hsum in Hpn0, Hpn1.
  destruct (applyMarginToPrices_run _ m (n' / (y' + n')) Em Hlo Hhi)
    as (ybuy & ysell & Hyp & _); try lra.
  destruct (applyMarginToPrices_run _ m (y' / (y' + n')) Em Hlo Hhi)
    as (nbuy & nsell & Hnp & _); try lra.
  eexists. split.
  - eapply getMarketOdds_run with (y := y') (n := n');
      try exact Hafter; try exact Hyp; try exact Hnp;
      try assumption; reflexivity.
  - cbn [od_yesPrice od_noPrice od_yesPool od_noPool od_liquidityConstant
         liquidity_constant].
    rewrite Ry, Rn, Rpy, Rpn. repeat split; reflexivity.
Qed.

Lemma odds_follow_commit_witness :
  exists db' r od,
    Scenario.bet_A no_faults = (db', Ok r) /\
    getMarketOdds Scenario.house "m1" db' = Done od /\
    od_yesPrice od = r_newYesPrice r /\ od_noPrice od = r_newNoPrice r.
Proof.
  destruct (Scenario.bet_A no_faults) as [db' [r|e]] eqn:E;
    [|vm_compute in E; discriminate E].
  destruct (odds_follow_commit NaN no_faults "m1" "u1" "yes"
              100 Scenario.db_A db' r Scenario.market_A 1000 1000 1000000
              eq_refl eq_refl eq_refl eq_refl E)
    as (od & H & Hy & Hn & _).
  exists db', r, od. split; [reflexivity|]. repeat split; assumption.
Defined.

End Requests.

(* ================================================================= *)
(** ** The break-even price of a trade *)

Section BreakEven.

#[local] Set Warnings "-inexact-float".

Import OddsCalculation.

(** X26 -- In exact arithmetic, for a trade on pools whose product is [k],
    [calculateBreakEvenPrice] is [(i + b) / o]: it is above the pool ratio
    [i / o], it is at least 1 as soon as [o <= i + b], and the effective
    price of the trade is [p / (1 + p)] for that break-even price [p].  On
    binary64 numbers the tokens of a very small bet are rounded, or
    vanish: on the pool 1000/1000 the bet of 1e-9 has a break-even price
    above [(1000 + 1e-9) / 1000], and the bet of 1e-14 receives no tokens
    at all. *)
Theorem break_even_price_of_trade :
  (forall (b i o k : Q),
     0 < i -> 0 < o -> 0 < b -> k == i * o ->
       exists t p eff,
         calculateTokensReceived (Fin b) (Fin i) (Fin o) (Fin k) = Ok (Fin t) /\
         HouseMargin.calculateBreakEvenPrice (Fin b) (Fin t) = Done (Fin p) /\
         calculateEffectivePrice (Fin b) (Fin t) = Ok (Fin eff) /\
         p == (i + b) / o /\ i / o < p /\ (o <= i + b -> 1 <= p) /\
         eff == p / (1 + p) /\ eff < 1 /\ eff < p) /\
  ((exists t p : float,
      Float64.calculateTokensReceived 1e-9 1000 1000 1000000 = Ok t /\
      Float64.calculateBreakEvenPrice 1e-9 t = Done p /\
      ((1000 + 1e-9) / 1000 <? p)%float = true) /\
   Float64.calculateTokensReceived 1e-14 1000 1000 1000000
   = Throw NoTokensReceived).
Proof.
  split.
  { intros b i o k.
    intros Hi Ho Hb Hk.
    assert (Ht : o - k / (i + b) == o * b / (i + b))
      by (rewrite Hk; field; lra).
    assert (Hpos : 0 < o - k / (i + b)).
    { rewrite Ht. apply Qdiv_pos; nra. }
    assert (Hlt : o - k / (i + b) < o).
    { rewrite Ht. apply Qlt_shift_div_r; nra. }
    exists (o - k / (i + b)), (b / (o - k / (i + b))),
      (b / (b + (o - k / (i + b)))).
    split; [apply calculateTokensReceived_fin; lra|].
    assert (Hnz : ~ o - k / (i + b) == 0) by lra.
    assert (E0 : (Fin (o - k / (i + b)) === Fin 0)%num = false)
      by (apply neqb_fin_false; exact Hnz).
    unfold HouseMargin.calculateBreakEvenPrice, calculateEffectivePrice.
    rewrite E0. rewrite ndiv_fin by exact Hnz. cbn [nadd].
    rewrite ndiv_fin by lra.
    split; [reflexivity|]. split; [reflexivity|].
    assert (Hp : b / (o - k / (i + b)) == (i + b) / o).
    { rewrite Ht. field. split; lra. }
    assert (Hp0 : 0 < (i + b) / o) by (apply Qdiv_pos; lra).
    split; [exact Hp|]. rewrite Hp.
    split.
    { apply Qlt_shift_div_l; [lra|].
      assert (E : i / o * o == i) by (field; lra). nra. }
    split.
    { intro H. apply Qle_shift_div_l; lra. }
    assert (He : b / (b + (o - k / (i + b))) == (i + b) / o / (1 + (i + b) / o)).
    { rewrite Ht. field. repeat split; try lra. nra. }
    split; [exact He|]. rewrite He.
    set (p := (i + b) / o) in *.
    split.
    - apply Qlt_shift_div_r; lra.
    - apply Qlt_shift_div_r; [lra|]. nra. }
  split; [|vm_compute; reflexivity].
  do 2 eexists. split; [vm_compute; reflexivity|].
  split; [vm_compute; reflexivity|]. reflexivity.
Qed.

Lemma break_even_price_of_trade_witness :
  exists t p,
    calculateTokensReceived (Fin 98) (Fin 1000) (Fin 1000) (Fin 1000000)
    = Ok (Fin t) /\
    HouseMargin.calculateBreakEvenPrice (Fin 98) (Fin t) = Done (Fin p) /\
    1 <= p.
Proof.
  destruct ((proj1 break_even_price_of_trade) 98 1000 1000 1000000)
    as (t & p & eff & H & Hp & _ & _ & _ & H1 & _);
    try reflexivity.
  exists t, p. split; [exact H|]. split; [exact Hp|].
  apply H1. discriminate.
Defined.

End BreakEven.

(* ================================================================= *)
(** ** Categories of odds *)

Section Categories.

Import OddsConverter.




End Categories.
